(** * Terminus: the two-tier term store, candidate promotion, the background
    resolution workflow and the two-phase term extraction.

    Shallow embedding of
      - [terminus/services/terminus_service.py]            (class terminusService)
      - [terminus/services/candidate_terminus_service.py]  (class CandidateterminusService)
      - [terminus/services/llm_service.py]                 (the LLM services)
      - [terminus/services/wikipedia_service.py]           (WikipediaService.query)
      - [terminus/routers/candidate.py], [routers/definition.py],
        [routers/terms.py], [utils.py]

    The two SQL tables are finite maps from the primary key [term] to the
    remaining columns.  Python exceptions are an explicit [Raise] outcome.
    Everything outside the process (the database engine's failures and
    the state they leave the Session in, the Wikipedia library, the LLM
    client) is an oracle of the environment [Env], indexed by the number of
    effects performed so far, so that two calls with the same arguments may
    answer differently.  The string methods [lower] and [strip] are an
    interface with the laws of Python's methods. *)

From Stdlib Require Import String Ascii List Bool Arith Lia.
From stdpp Require Import base option gmap strings list fin_maps.

Import ListNotations.
Local Open Scope string_scope.
Local Open Scope list_scope.

(** ** Python string operations

    A [string] stands for a Python [str], given by its code points in an
    injective encoding (UTF-8; for ASCII text the characters themselves).
    Keys are only compared for equality, which the encoding respects.
    Slicing, [startswith] and [len] are defined on the characters of the
    [string]; these are the code points for ASCII text.  [str.lower()] and
    [str.strip()] follow the Unicode tables of the interpreter; they are
    taken through the interface [PyStr], with the laws of the two methods
    that the services and the routers rely on.  [AsciiStr] implements the
    interface for ASCII text and makes the examples executable. *)

(** [s[:n]] *)
Fixpoint slice_to (n : nat) (s : string) : string :=
  match n, s with
  | S n', String c r => String c (slice_to n' r)
  | _, _ => EmptyString
  end.

(** [s.startswith(p)] *)
Definition startswith (s p : string) : bool := String.prefix p s.

(** [not s] on a string: the empty string is falsy. *)
Definition falsy (s : string) : bool :=
  match s with EmptyString => true | _ => false end.

(** [lower s] is [s.lower()] and [strip s] is [s.strip()].  Lower-casing
    a string twice, or stripping it twice, changes nothing more; a blank
    has no case and no letter lower-cases to a blank, so the two methods
    commute; and both keep the empty string. *)
Class PyStr : Type := {
  lower : string -> string;
  strip : string -> string;
  lower_idem : forall s, lower (lower s) = lower s;
  strip_idem : forall s, strip (strip s) = strip s;
  strip_lower : forall s, strip (lower s) = lower (strip s);
  lower_empty : lower EmptyString = EmptyString;
  strip_empty : strip EmptyString = EmptyString
}.

(** The two methods on ASCII text: codes above 127 carry no case and are
    no whitespace. *)

Module AsciiStr.

Definition is_upper (c : ascii) : bool :=
  let n := nat_of_ascii c in ((65 <=? n)%nat && (n <=? 90)%nat).

(** One character of [str.lower()]: 'A'..'Z' move up by 32. *)
Definition lower_char (c : ascii) : ascii :=
  if is_upper c then ascii_of_nat (nat_of_ascii c + 32) else c.

(** [s.lower()] *)
Fixpoint lower (s : string) : string :=
  match s with
  | EmptyString => EmptyString
  | String c r => String (lower_char c) (lower r)
  end.

(** The characters [str.strip()] removes: TAB, LF, VT, FF, CR, the four
    separators FS, GS, RS, US, and the space. *)
Definition is_space (c : ascii) : bool :=
  let n := nat_of_ascii c in
  ((9 <=? n)%nat && (n <=? 13)%nat) || ((28 <=? n)%nat && (n <=? 32)%nat).

(** [s.lstrip()] *)
Fixpoint lstrip (s : string) : string :=
  match s with
  | EmptyString => EmptyString
  | String c r => if is_space c then lstrip r else s
  end.

(** [s.rstrip()]: the characters are dropped from the right end. *)
Fixpoint rstrip (s : string) : string :=
  match s with
  | EmptyString => EmptyString
  | String c r =>
      match rstrip r with
      | EmptyString => if is_space c then EmptyString else String c EmptyString
      | r' => String c r'
      end
  end.

(** [s.strip()] *)
Definition strip (s : string) : string := rstrip (lstrip s).

(** The first character, if any, is not one that [lstrip] removes. *)
Definition no_leading_space (s : string) : Prop :=
  match s with
  | EmptyString => True
  | String c _ => is_space c = false
  end.

End AsciiStr.

(** ** Exceptions and outcomes *)

Inductive exn : Type :=
| APIConnectionError (msg : string)  (* litellm.APIConnectionError *)
| ValidationError (msg : string)     (* pydantic: a required field is missing *)
| ValueError (msg : string)          (* json.JSONDecodeError, TypeError on the decoded value *)
| AttributeError (msg : string)
| SQLAlchemyError (msg : string)
| HTTPException (status_code : nat) (detail : string)
| Exception (msg : string).

(** [str(e)] *)
Definition str_exn (e : exn) : string :=
  match e with
  | APIConnectionError m | ValidationError m | ValueError m
  | AttributeError m | SQLAlchemyError m | Exception m => m
  | HTTPException _ d => d
  end.

Inductive result (A : Type) : Type :=
| Ok (a : A)
| Raise (e : exn).

Arguments Ok {A} a.
Arguments Raise {A} e.

(** ** schemas.py *)

Record FollowUp : Type := mkFollowUp {
  fu_term : string;
  fu_question : string;
  fu_definition : string
}.

Record terminusAnswer : Type := mkterminusAnswer {
  ta_term : string;
  ta_definition : string;
  ta_follow_ups : list FollowUp
}.

Record terminusEntryCreate : Type := mkterminusEntryCreate {
  ec_term : string;
  ec_definition : string
}.

Record CandidateterminusAnswer : Type := mkCandidateterminusAnswer {
  ca_term : string;
  ca_definition : string;
  ca_follow_ups : list FollowUp;
  ca_status : string
}.

Record CandidateValidation : Type := mkCandidateValidation {
  cv_term : string;
  cv_approve : bool;
  cv_reason : string
}.

Record ExtractedTerm : Type := mkExtractedTerm { et_term : string }.

Record ExtractedTerms : Type := mkExtractedTerms { terms : list ExtractedTerm }.

Record TermCritique : Type := mkTermCritique {
  tc_term : string;
  is_relevant : bool;
  tc_reason : string
}.

(** The [confidence] float of the source is only ever written to the log
    and is left out. *)
Record DefinitionValidationResult : Type := mkDefinitionValidationResult {
  is_valid : bool;
  reasoning : string
}.

(** ** models.py

    An ORM object carries its primary key [term]; the table itself maps the
    key to the other columns.  [follow_ups] is nullable. *)

Record terminusEntry : Type := mkterminusEntry {
  te_term : string;
  te_definition : string;
  te_follow_ups : option string
}.

Record CandidateterminusEntry : Type := mkCandidateterminusEntry {
  ce_term : string;
  ce_definition : string;
  ce_follow_ups : option string;
  ce_status : string
}.

Record terminusRow : Type := mkterminusRow {
  tr_definition : string;
  tr_follow_ups : option string
}.

Record CandidateRow : Type := mkCandidateRow {
  cr_definition : string;
  cr_follow_ups : option string;
  cr_status : string
}.

(** ** The json module, as the services use it

    [json_dumps] is [json.dumps] on a list of follow-up dictionaries;
    [json_loads s] is [json.loads(s)] followed by the construction of one
    [FollowUp] per decoded dictionary, [None] when either step raises.  The two laws are the library's: a dumped
    list loads back, and a JSON text is never the empty string. *)

Class JsonCodec : Type := {
  json_dumps : list FollowUp -> string;
  json_loads : string -> option (list FollowUp);
  json_loads_dumps : forall l, json_loads (json_dumps l) = Some l;
  json_dumps_nonempty : forall l, falsy (json_dumps l) = false
}.

(** ** The world: two tables and the log of effects *)

Inductive Table : Type := terminus_table | candidate_terminus_table.

Inductive LLMKind : Type := Followups | Validation | Extraction | Critique.

Inductive Event : Type :=
| DbRead (t : Table) (key : string)
| DbWrite (t : Table) (key : string)
| WikipediaCall (term : string)
| LLMCall (kind : LLMKind) (subject : string).

Record World : Type := mkWorld {
  terminus : gmap string terminusRow;
  candidate_terminus : gmap string CandidateRow;
  trace : list Event
}.

(** The environment answers every effect.  The index is the length of the
    trace when the effect starts. *)
Record Env : Type := mkEnv {
  (** does the database statement issued at this step raise? *)
  db_fault : nat -> bool;
  (** when the statement issued at this step raises: did it fail in the
      flush or in the COMMIT, so that the Session needs [rollback()]
      before it accepts another statement?  A statement that fails
      earlier, as the SELECT of [merge] does, leaves the Session usable. *)
  needs_rollback : nat -> bool;
  (** the Wikipedia strategies of [WikipediaService.query] for a stripped,
      non-empty term: a summary, no page, or an escaped exception *)
  wikipedia_lookup : nat -> string -> result (option string);
  (** [client.chat.completions.create] for each response model *)
  llm_followups : nat -> string -> string -> result (option terminusAnswer);
  llm_validation : nat -> string -> string -> result (option DefinitionValidationResult);
  llm_extraction : nat -> string -> result (option ExtractedTerms);
  llm_critique : nat -> string -> result (option TermCritique)
}.

Definition is_write (ev : Event) : bool :=
  match ev with DbWrite _ _ => true | _ => false end.

Definition is_external (ev : Event) : bool :=
  match ev with WikipediaCall _ | LLMCall _ _ => true | _ => false end.

(** ** A state and exception monad over the world *)

Definition M (A : Type) : Type := Env -> World -> result A * World.

Definition ret {A} (a : A) : M A := fun _ w => (Ok a, w).

Definition bind {A B} (m : M A) (k : A -> M B) : M B := fun env w =>
  match m env w with
  | (Ok a, w') => k a env w'
  | (Raise e, w') => (Raise e, w')
  end.

Definition raise {A} (e : exn) : M A := fun _ w => (Raise e, w).

(** [try: m  except Exception as e: h e] *)
Definition try_except {A} (m : M A) (h : exn -> M A) : M A := fun env w =>
  match m env w with
  | (Ok a, w') => (Ok a, w')
  | (Raise e, w') => h e env w'
  end.

Definition get_world : M World := fun _ w => (Ok w, w).

Definition log (ev : Event) (w : World) : World :=
  mkWorld (terminus w) (candidate_terminus w) (trace w ++ [ev]).

Definition set_terminus (t : gmap string terminusRow) (w : World) : World :=
  mkWorld t (candidate_terminus w) (trace w).

Definition set_candidate (c : gmap string CandidateRow) (w : World) : World :=
  mkWorld (terminus w) c (trace w).

Definition modify (f : World -> World) : M unit := fun _ w => (Ok tt, f w).

(** An effect: it is logged, and the environment's answer at this step is
    its outcome. *)
Definition effect {A} (ev : Event) (answer : Env -> nat -> result A) : M A :=
  fun env w => (answer env (length (trace w)), log ev w).

(** One database statement; a fault raises before anything is changed. *)
Definition db_error : exn := SQLAlchemyError "database error".

Definition db_stmt (ev : Event) : M unit :=
  effect ev (fun env n => if db_fault env n then Raise db_error else Ok tt).

(** The Session after one of its statements has raised.  When the flush
    or the COMMIT failed, the transaction of the Session is inactive:
    until [rollback()] is called -- and no code of the repository calls
    it -- every further statement raises [PendingRollbackError] before
    anything reaches the database.  [after_failed_statement m] is [m] run
    on the Session whose last statement has just raised; that statement
    is the last effect of the trace, issued at step [length (trace w) - 1]. *)
Definition pending_rollback_error : exn :=
  SQLAlchemyError "This Session's transaction has been rolled back due to a previous exception during flush.".

Definition after_failed_statement {A} (m : M A) : M A := fun env w =>
  if needs_rollback env (length (trace w) - 1)
  then (Raise pending_rollback_error, w)
  else m env w.

Declare Scope py_scope.
Delimit Scope py_scope with py.
Notation "x <- m ;; k" := (bind m (fun x => k))
  (at level 100, m at next level, right associativity) : py_scope.
Notation "m ;; k" := (bind m (fun _ => k))
  (at level 100, right associativity) : py_scope.
Local Open Scope py_scope.

(** ** services/terminus_service.py *)

Module terminusService.
Section Service.
Context {codec : JsonCodec} {pystr : PyStr}.

Definition _serialize_follow_ups (follow_ups : list FollowUp) : string :=
  json_dumps follow_ups.

Definition _deserialize_follow_ups (follow_ups_str : option string)
  : result (list FollowUp) :=
  match follow_ups_str with
  | None => Ok []
  | Some s =>
      if falsy s then Ok []
      else match json_loads s with
           | Some data => Ok data
           | None => Raise (ValueError "malformed follow_ups")
           end
  end.

(** The ORM object of the row stored under a key, if any. *)
Definition terminus_entry_at (w : World) (key : string) : option terminusEntry :=
  match terminus w !! key with
  | Some row => Some (mkterminusEntry key (tr_definition row) (tr_follow_ups row))
  | None => None
  end.

(** [session.query(terminusEntry).filter_by(term=key).first()] *)
Definition query_first (key : string) : M (option terminusEntry) :=
  db_stmt (DbRead terminus_table key) ;;
  w <- get_world ;;
  ret (terminus_entry_at w key).

Definition get_as_pydantic (term : string) : M (option terminusAnswer) :=
  db_obj <- query_first (lower term) ;;
  match db_obj with
  | None => ret None
  | Some db_obj =>
      match _deserialize_follow_ups (te_follow_ups db_obj) with
      | Raise e => raise e
      | Ok follow_ups =>
          ret (Some (mkterminusAnswer (te_term db_obj) (te_definition db_obj) follow_ups))
      end
  end.

Definition get (term : string) : M (option terminusEntry) :=
  query_first (lower term).

(** [session.merge(entry); session.commit()] *)
Definition save (term definition : string) (follow_ups : list FollowUp) : M unit :=
  let entry := mkterminusEntry (lower term) definition
                 (Some (_serialize_follow_ups follow_ups)) in
  db_stmt (DbWrite terminus_table (te_term entry)) ;;
  modify (fun w =>
    set_terminus (<[te_term entry :=
                     mkterminusRow (te_definition entry) (te_follow_ups entry)]>
                  (terminus w)) w).

Definition delete (term : string) : M bool :=
  entry <- query_first (lower term) ;;
  match entry with
  | None => ret false
  | Some entry =>
      db_stmt (DbWrite terminus_table (te_term entry)) ;;
      modify (fun w => set_terminus (base.delete (te_term entry) (terminus w)) w) ;;
      ret true
  end.

Definition exists_ (term : string) : M bool :=
  let key := lower term in
  db_stmt (DbRead terminus_table key) ;;
  w <- get_world ;;
  ret (bool_decide (is_Some (terminus w !! key))).

End Service.
End terminusService.

(** ** services/candidate_terminus_service.py *)

Module CandidateterminusService.
Section Service.
Context {codec : JsonCodec} {pystr : PyStr}.

Definition _serialize_follow_ups (follow_ups : list FollowUp) : string :=
  json_dumps follow_ups.

Definition _deserialize_follow_ups (follow_ups_str : option string)
  : result (list FollowUp) :=
  match follow_ups_str with
  | None => Ok []
  | Some s =>
      if falsy s then Ok []
      else match json_loads s with
           | Some data => Ok data
           | None => Raise (ValueError "malformed follow_ups")
           end
  end.

(** The ORM object of the row stored under a key, if any. *)
Definition candidate_entry_at (w : World) (key : string) : option CandidateterminusEntry :=
  match candidate_terminus w !! key with
  | Some row =>
      Some (mkCandidateterminusEntry key (cr_definition row) (cr_follow_ups row)
              (cr_status row))
  | None => None
  end.

(** [session.query(CandidateterminusEntry).filter_by(term=key).first()] *)
Definition query_first (key : string) : M (option CandidateterminusEntry) :=
  db_stmt (DbRead candidate_terminus_table key) ;;
  w <- get_world ;;
  ret (candidate_entry_at w key).

Definition get (term : string) : M (option CandidateterminusEntry) :=
  query_first (lower term).

Definition get_as_pydantic (term : string) : M (option CandidateterminusAnswer) :=
  db_obj <- query_first (lower term) ;;
  match db_obj with
  | None => ret None
  | Some db_obj =>
      match _deserialize_follow_ups (ce_follow_ups db_obj) with
      | Raise e => raise e
      | Ok follow_ups_list =>
          ret (Some (mkCandidateterminusAnswer (ce_term db_obj) (ce_definition db_obj)
                       follow_ups_list (ce_status db_obj)))
      end
  end.

(** The default of [status] is ["under_review"]; every caller in the
    routers passes the status. *)
Definition save (term definition : string) (follow_ups : list FollowUp)
  (status : string) : M unit :=
  let entry := mkCandidateterminusEntry (lower term) definition
                 (Some (_serialize_follow_ups follow_ups)) status in
  db_stmt (DbWrite candidate_terminus_table (ce_term entry)) ;;
  modify (fun w =>
    set_candidate (<[ce_term entry :=
                      mkCandidateRow (ce_definition entry) (ce_follow_ups entry)
                        (ce_status entry)]>
                   (candidate_terminus w)) w).

Definition delete (term : string) : M bool :=
  entry <- query_first (lower term) ;;
  match entry with
  | None => ret false
  | Some entry =>
      db_stmt (DbWrite candidate_terminus_table (ce_term entry)) ;;
      modify (fun w =>
        set_candidate (base.delete (ce_term entry) (candidate_terminus w)) w) ;;
      ret true
  end.

Definition exists_ (term : string) : M bool :=
  let key := lower term in
  db_stmt (DbRead candidate_terminus_table key) ;;
  w <- get_world ;;
  ret (bool_decide (is_Some (candidate_terminus w !! key))).

(** [entry.status = f"rejected: {reason}"; session.commit()] *)
Definition reject (term reason : string) : M unit :=
  entry <- query_first (lower term) ;;
  match entry with
  | None => ret tt
  | Some entry =>
      db_stmt (DbWrite candidate_terminus_table (ce_term entry)) ;;
      modify (fun w =>
        set_candidate (<[ce_term entry :=
                          mkCandidateRow (ce_definition entry) (ce_follow_ups entry)
                            ("rejected: " +:+ reason)]>
                       (candidate_terminus w)) w)
  end.

End Service.
End CandidateterminusService.

(** ** services/wikipedia_service.py *)

Module WikipediaService.
Section Service.
Context {pystr : PyStr}.

(** [query] strips the term and answers the empty term without any
    lookup.  The four search strategies are the environment's
    [wikipedia_lookup]; whatever they raise is turned into the
    "An error occurred" message, so [query] itself never raises. *)
Definition query (term : string) : M string :=
  let term := strip term in
  if falsy term then ret "Please provide a term to search."
  else
    let not_found :=
      "Could not find a relevant Wikipedia page for '" +:+ term +:+ "'." in
    try_except
      (summary <- effect (WikipediaCall term)
                    (fun env n => wikipedia_lookup env n term) ;;
       match summary with
       | Some summary => if falsy summary then ret not_found else ret summary
       | None => ret not_found
       end)
      (fun _ =>
         ret ("An error occurred while searching Wikipedia for '" +:+ term +:+ "'.")).

End Service.
End WikipediaService.

(** The choices inside [WikipediaService]: which disambiguation option
    and which search result is looked up.  [topic_pattern_search s] stands
    for [self.topic_pattern.search(s)] finding a match. *)

Module WikipediaSelection.
Section Pattern.
Context {pystr : PyStr}.
Variable topic_pattern_search : string -> bool.

(** [_handle_disambiguation]: the title handed to [_get_summary], [None]
    when the method returns [None] without a lookup. *)
Definition disambiguation_title (options : list string) : option string :=
  let topic_opts := List.filter topic_pattern_search options in
  match topic_opts with
  | t :: _ => Some t
  | [] =>
      match options with
      | o :: _ => Some o
      | [] => None
      end
  end.

(** The loop [for result in search_results] with its [break]. *)
Fixpoint first_topic_result (search_results : list string) : option string :=
  match search_results with
  | [] => None
  | result :: rest =>
      if topic_pattern_search result then Some result else first_topic_result rest
  end.

(** Strategy 2 of [query]: the value of [preferred_candidate] after the
    search results were looked at. *)
Definition preferred_candidate (term : string) (search_results : list string)
  : option string :=
  match search_results with
  | [] => None
  | top :: _ =>
      let preferred := first_topic_result search_results in
      if match preferred with
         | None => true
         | Some p => falsy p
         end
      then
        let top_result_lower := lower top in
        let term_lower := lower term in
        if String.eqb top_result_lower term_lower
           || startswith top_result_lower (term_lower +:+ " (")
        then Some top
        else Some top
      else preferred
  end.

End Pattern.
End WikipediaSelection.

(** ** services/llm_service.py *)

Module BaseLLMService.

(** [self.response_model()]: every response model of schemas.py declares
    all its fields required, so the call without arguments raises. *)
Definition response_model_no_args {A} : M (option A) :=
  raise (ValidationError "Field required").

(** [create] is the call [self.client.chat.completions.create(...)]. *)
Definition generate_response {A} (create : M (option A)) : M (option A) :=
  try_except create
    (fun e =>
       match e with
       | APIConnectionError _ => raise e
       | _ => response_model_no_args
       end).

End BaseLLMService.

Module FUService.

Definition generate_followups (term definition : string) : M (option terminusAnswer) :=
  BaseLLMService.generate_response
    (effect (LLMCall Followups term)
       (fun env n => llm_followups env n term definition)).

End FUService.

Module DefinitionValidationService.

Definition validate_definition (term summary : string)
  : M (option DefinitionValidationResult) :=
  if falsy term || falsy summary then ret None
  else
    try_except
      (result <- BaseLLMService.generate_response
                   (effect (LLMCall Validation term)
                      (fun env n => llm_validation env n term summary)) ;;
       match result with
       | Some r => ret (Some r)     (* isinstance(result, self.response_model) *)
       | None => ret None
       end)
      (fun e =>
         match e with
         | APIConnectionError _ => ret None
         | _ => ret None
         end).

End DefinitionValidationService.

Module TermExtractionService.

Definition _critique_term (term : string) : M bool :=
  try_except
    (critique_response <- effect (LLMCall Critique term)
                            (fun env n => llm_critique env n term) ;;
     match critique_response with
     | Some c => ret (is_relevant c)
     | None => raise (AttributeError "is_relevant")
     end)
    (fun _ => ret false).

(** The loop [for term in candidate_terms], with the list [validated]
    built so far. *)
Fixpoint critique_loop (candidate_terms validated : list string) : M (list string) :=
  match candidate_terms with
  | [] => ret validated
  | term :: rest =>
      keep <- _critique_term term ;;
      critique_loop rest (if keep then validated ++ [term] else validated)
  end.

Definition validate_terms (text : string) : M (list string) :=
  extraction_response <- BaseLLMService.generate_response
                           (effect (LLMCall Extraction text)
                              (fun env n => llm_extraction env n text)) ;;
  match extraction_response with
  | None => ret []
  | Some r =>
      let candidate_terms := map et_term (terms r) in
      critique_loop candidate_terms []
  end.

End TermExtractionService.

(** ** utils.py *)

Definition _extract_terms_async (definition : string) : M (list string) :=
  TermExtractionService.validate_terms definition.

(** [try: r = m  except Exception as e: ...] with the handler written as a
    case distinction by the caller. *)
Definition attempt {A} (m : M A) : M (result A) := fun env w =>
  match m env w with
  | (r, w') => (Ok r, w')
  end.

(** [not l] on a list *)
Definition empty_list {A} (l : list A) : bool :=
  match l with [] => true | _ => false end.

Section Routers.
Context {codec : JsonCodec} {pystr : PyStr}.

(** ** routers/definition.py *)

(** Steps 4 and 5 of the background task: the definition has a verdict. *)
Definition store_validated (term candidate_summary : string)
  (validation_result : DefinitionValidationResult) : M unit :=
  if is_valid validation_result then
    follow_ups_to_save <-
      try_except
        (llm_answer <- FUService.generate_followups term candidate_summary ;;
         match llm_answer with
         | Some a =>
             if empty_list (ta_follow_ups a) then ret []
             else ret (ta_follow_ups a)     (* fu.model_dump() for each fu *)
         | None => ret []
         end)
        (fun _ => ret []) ;;
    try_except
      (terminusService.save term candidate_summary follow_ups_to_save)
      (fun e =>
         let error_status := "save_to_official_error: " +:+ slice_to 200 (str_exn e) in
         after_failed_statement    (* the Session of the failed [save] *)
           (CandidateterminusService.save term candidate_summary follow_ups_to_save
              error_status))
  else
    let max_status_len := 255 in
    let status_reason := "rejected_llm: " +:+ reasoning validation_result in
    let status_reason :=
      if (max_status_len <? String.length status_reason)%nat
      then slice_to (max_status_len - 3) status_reason +:+ "..."
      else status_reason in
    try_except
      (CandidateterminusService.save term candidate_summary [] status_reason)
      (fun _ => ret tt).

(** Step 3: the LLM validation of the fetched summary. *)
Definition validate_and_store (term candidate_summary : string) : M unit :=
  validation_result <-
    attempt (DefinitionValidationService.validate_definition term candidate_summary) ;;
  match validation_result with
  | Raise e =>
      let error_status := "validation_error: " +:+ slice_to 200 (str_exn e) in
      CandidateterminusService.save term candidate_summary [] error_status
  | Ok None =>
      let fail_status := "validation_failed: LLM returned no result" in
      CandidateterminusService.save term candidate_summary [] fail_status
  | Ok (Some validation_result) =>
      store_validated term candidate_summary validation_result
  end.

(** Step 2: the Wikipedia lookup. *)
Definition fetch_and_validate (term : string) : M unit :=
  candidate_summary <- attempt (WikipediaService.query term) ;;
  match candidate_summary with
  | Raise e =>
      let error_status := "wikipedia_error: " +:+ slice_to 200 (str_exn e) in
      CandidateterminusService.save term ("Error fetching: " +:+ str_exn e) []
        error_status
  | Ok candidate_summary =>
      if startswith candidate_summary "Could not find"
         || startswith candidate_summary "An error occurred"
      then
        let fail_status := "wikipedia_failed: " +:+ slice_to 200 candidate_summary in
        CandidateterminusService.save term candidate_summary [] fail_status
      else if startswith candidate_summary "Please provide" then ret tt
      else validate_and_store term candidate_summary
  end.

(** The background task.  It works on one Session of its own; the
    outermost handler swallows every exception. *)
Definition _fetch_validate_and_store_definition (term : string) : M unit :=
  let term := lower (strip term) in
  try_except
    (exists_in_terminus <- terminusService.exists_ term ;;
     if exists_in_terminus then ret tt
     else
       exists_in_candidate <- CandidateterminusService.exists_ term ;;
       if exists_in_candidate then ret tt
       else fetch_and_validate term)
    (fun _ => ret tt).

(** ** routers/candidate.py *)

(** The loop [for t in sub_terms[:3]] of [create_candidate]. *)
Fixpoint candidate_follow_ups (sub_terms : list string) (follow_ups : list FollowUp)
  : M (list FollowUp) :=
  match sub_terms with
  | [] => ret follow_ups
  | t :: rest =>
      official <- terminusService.get t ;;
      sub_def <-
        match official with
        | Some sub_entry => ret (Some (te_definition sub_entry))
        | None =>
            candidate <- CandidateterminusService.get t ;;
            match candidate with
            | Some sub_entry => ret (Some (ce_definition sub_entry))
            | None =>
                try_except
                  (d <- WikipediaService.query t ;; ret (Some d))
                  (fun _ => ret None)          (* continue *)
            end
        end ;;
      match sub_def with
      | Some sub_def =>
          candidate_follow_ups rest
            (follow_ups ++ [mkFollowUp t ("What is " +:+ t +:+ "?") sub_def])
      | None => candidate_follow_ups rest follow_ups
      end
  end.

Definition create_candidate (entry : terminusEntryCreate)
  : M (option CandidateterminusAnswer) :=
  official <- terminusService.get (ec_term entry) ;;
  if bool_decide (is_Some official)
  then raise (HTTPException 409 "Term already in official terminus")
  else
    candidate <- CandidateterminusService.get (ec_term entry) ;;
    if bool_decide (is_Some candidate)
    then raise (HTTPException 409 "Candidate already exists")
    else
      definition <-
        (if falsy (ec_definition entry)
         then WikipediaService.query (ec_term entry)
         else ret (ec_definition entry)) ;;
      sub_terms <- _extract_terms_async definition ;;
      follow_ups <- candidate_follow_ups (take 3 sub_terms) [] ;;
      CandidateterminusService.save (ec_term entry) definition follow_ups "pending" ;;
      CandidateterminusService.get_as_pydantic (ec_term entry).

Definition validate_candidate (validation : CandidateValidation) : M terminusAnswer :=
  candidate_db_obj <- CandidateterminusService.get (cv_term validation) ;;
  match candidate_db_obj with
  | None => raise (HTTPException 404 "Candidate not found")
  | Some candidate_db_obj =>
      if negb (cv_approve validation) then
        CandidateterminusService.reject (cv_term validation) "Disapproved by user" ;;
        raise (HTTPException 400 "Candidate rejected")
      else
        match CandidateterminusService._deserialize_follow_ups
                (ce_follow_ups candidate_db_obj) with
        | Raise e => raise e
        | Ok follow_ups_list =>
            terminusService.save (ce_term candidate_db_obj)
              (ce_definition candidate_db_obj) follow_ups_list ;;
            CandidateterminusService.delete (ce_term candidate_db_obj) ;;
            official <- terminusService.get_as_pydantic (ce_term candidate_db_obj) ;;
            match official with
            | None => raise (HTTPException 500 "Error saving candidate to official terminus")
            | Some official => ret official
            end
        end
  end.

(** ** routers/terms.py *)

(** The loop [for sub_term in related_terms[:3]] of [precompute_terms]. *)
Fixpoint precompute_follow_ups (term : string) (related_terms : list string)
  (follow_ups : list FollowUp) : M (list FollowUp) :=
  match related_terms with
  | [] => ret follow_ups
  | sub_term :: rest =>
      if String.eqb (lower sub_term) (lower term)
      then precompute_follow_ups term rest follow_ups
      else
        sub_def <- WikipediaService.query sub_term ;;
        precompute_follow_ups term rest
          (follow_ups ++ [mkFollowUp sub_term ("What is " +:+ sub_term +:+ "?") sub_def])
  end.

(** The loop [for term in validated_terms]. *)
Fixpoint precompute_loop (validated_terms added_terms : list string) : M (list string) :=
  match validated_terms with
  | [] => ret added_terms
  | term :: rest =>
      official <- terminusService.get term ;;
      known <-
        (if bool_decide (is_Some official) then ret true
         else candidate <- CandidateterminusService.get term ;;
              ret (bool_decide (is_Some candidate))) ;;
      if (known : bool) then precompute_loop rest added_terms
      else
        definition <- WikipediaService.query term ;;
        related_terms <- _extract_terms_async definition ;;
        follow_ups <- precompute_follow_ups term (take 3 related_terms) [] ;;
        CandidateterminusService.save term definition follow_ups "pending" ;;
        precompute_loop rest (added_terms ++ [term])
  end.

Definition precompute_terms (text : string) : M (list string) :=
  validated_terms <- TermExtractionService.validate_terms text ;;
  precompute_loop validated_terms [].

(** ** The remaining endpoints of routers/definition.py, routers/candidate.py
    and routers/terms.py *)

(** The answer of [get_definition] while a term is unresolved. *)
Definition placeholder (term : string) : terminusAnswer :=
  mkterminusAnswer term "I don't know yet, please check back later" [].

(** GET /definition/{term}.  [background_tasks] is the queue the framework
    hands in; [add_task] appends the term the background task is to be
    started with. *)
Definition get_definition (term : string) (background_tasks : list string)
  : M (terminusAnswer * list string) :=
  let term := lower (strip term) in
  lex_answer <- terminusService.get_as_pydantic term ;;
  match lex_answer with
  | Some lex_answer => ret (lex_answer, background_tasks)
  | None =>
      cand_answer <- CandidateterminusService.get_as_pydantic term ;;
      match cand_answer with
      | Some _ => ret (placeholder term, background_tasks)
      | None => ret (placeholder term, background_tasks ++ [term])
      end
  end.

(** DELETE /definition/{term}; the value is the status code. *)
Definition delete_definition (term : string) : M nat :=
  deleted <- terminusService.delete term ;;
  if negb deleted then raise (HTTPException 404 "Term not found") else ret 204.

(** GET /candidates/{term} *)
Definition get_candidate (term : string) : M CandidateterminusAnswer :=
  candidate_answer <- CandidateterminusService.get_as_pydantic term ;;
  match candidate_answer with
  | None => raise (HTTPException 404 "Candidate not found")
  | Some candidate_answer => ret candidate_answer
  end.

(** DELETE /candidates/{term} *)
Definition delete_candidate (term : string) : M nat :=
  deleted <- CandidateterminusService.delete term ;;
  if negb deleted then raise (HTTPException 404 "Candidate not found") else ret 204.

(** POST /terms/extract *)
Definition extract_terms (text : string) : M ExtractedTerms :=
  validated_terms <- TermExtractionService.validate_terms text ;;
  ret (mkExtractedTerms (map mkExtractedTerm validated_terms)).

End Routers.

(** ** A small JSON writer and reader for follow-up lists

    An executable [JsonCodec]: the text [json.dumps] writes for a list of
    follow-up dictionaries, with the quote and the backslash escaped, and a
    reader for such texts. *)

Module MiniJson.

Definition dquote : ascii := ascii_of_nat 34.
Definition backslash : ascii := ascii_of_nat 92.

Definition needs_escape (c : ascii) : bool :=
  Ascii.eqb c dquote || Ascii.eqb c backslash.

Fixpoint escape (s : string) : string :=
  match s with
  | EmptyString => EmptyString
  | String c r =>
      if needs_escape c then String backslash (String c (escape r))
      else String c (escape r)
  end.

(** The writers take the text that follows as last argument. *)
Definition w_string (s k : string) : string :=
  String dquote (escape s +:+ String dquote k).

Definition w_field (name value k : string) : string :=
  w_string name (": " +:+ w_string value k).

Definition w_follow_up (fu : FollowUp) (k : string) : string :=
  "{" +:+ w_field "term" (fu_term fu)
    (", " +:+ w_field "question" (fu_question fu)
       (", " +:+ w_field "definition" (fu_definition fu) ("}" +:+ k))).

Fixpoint w_rest (l : list FollowUp) : string :=
  match l with
  | [] => "]"
  | fu :: r => ", " +:+ w_follow_up fu (w_rest r)
  end.

Definition dumps (l : list FollowUp) : string :=
  "[" +:+ match l with
          | [] => "]"
          | fu :: r => w_follow_up fu (w_rest r)
          end.

(** [expect p s]: [s] without its prefix [p]. *)
Fixpoint expect (p s : string) : option string :=
  match p, s with
  | EmptyString, _ => Some s
  | String a p', String b s' => if Ascii.eqb a b then expect p' s' else None
  | String _ _, EmptyString => None
  end.

(** The characters of a string literal up to its closing quote. *)
Fixpoint r_chars (s : string) : option (string * string) :=
  match s with
  | EmptyString => None
  | String c r =>
      if Ascii.eqb c dquote then Some (EmptyString, r)
      else if Ascii.eqb c backslash then
        match r with
        | String d r' =>
            if needs_escape d
            then match r_chars r' with
                 | Some (v, k) => Some (String d v, k)
                 | None => None
                 end
            else None
        | EmptyString => None
        end
      else match r_chars r with
           | Some (v, k) => Some (String c v, k)
           | None => None
           end
  end.

Definition r_string (s : string) : option (string * string) :=
  match s with
  | String c r => if Ascii.eqb c dquote then r_chars r else None
  | EmptyString => None
  end.

(** ["name": "value"] *)
Definition r_field (name s : string) : option (string * string) :=
  '(n, s) ← r_string s;
  if String.eqb n name then s ← expect ": " s; r_string s else None.

Definition r_follow_up (s : string) : option (FollowUp * string) :=
  s ← expect "{" s;
  '(t, s) ← r_field "term" s;
  s ← expect ", " s;
  '(q, s) ← r_field "question" s;
  s ← expect ", " s;
  '(d, s) ← r_field "definition" s;
  s ← expect "}" s;
  Some (mkFollowUp t q d, s).

Fixpoint r_items (fuel : nat) (s : string) : option (list FollowUp) :=
  match fuel with
  | O => None
  | S fuel =>
      '(fu, s) ← r_follow_up s;
      if String.eqb s "]" then Some [fu]
      else s ← expect ", " s; r ← r_items fuel s; Some (fu :: r)
  end.

Definition loads (s : string) : option (list FollowUp) :=
  s ← expect "[" s;
  if String.eqb s "]" then Some [] else r_items (String.length s) s.

End MiniJson.

(** ** What the critique keeps, in the words of the specification

    A critique call answers "relevant" when it returns a critique whose
    [is_relevant] is true; a call that raises counts as not relevant. *)

Definition critique_relevant (env : Env) (n : nat) (term : string) : bool :=
  match llm_critique env n term with
  | Ok (Some c) => is_relevant c
  | _ => false
  end.

(** The candidate terms, each paired with the step of its own critique call
    (the first call is step [n]), filtered by that call's answer; order and
    repetitions of the candidates are kept. *)
Definition kept_by_critique (env : Env) (n : nat) (candidate_terms : list string)
  : list string :=
  map snd
    (List.filter (fun it => critique_relevant env (fst it) (snd it))
       (combine (seq n (length candidate_terms)) candidate_terms)).

(** ** Vocabulary of the promotion properties *)

(** Computations that leave the official table alone. *)
Definition keeps_terminus {A} (m : M A) : Prop :=
  forall env w, terminus (snd (m env w)) = terminus w.

Section PromotionVocabulary.
Context {codec : JsonCodec} {pystr : PyStr}.

(** What follows the Term Store write in [validate_candidate]. *)
Definition after_official_save (key : string) : M terminusAnswer :=
  CandidateterminusService.delete key ;;
  official <- terminusService.get_as_pydantic key ;;
  match official with
  | None => raise (HTTPException 500 "Error saving candidate to official terminus")
  | Some official => ret official
  end.

End PromotionVocabulary.

(** ** Vocabulary of the follow-up cap *)

(** [m] keeps the invariant [I] of the world whether it returns or raises,
    and a returned value satisfies [Q]. *)
Definition triple {A} (I : World -> Prop) (m : M A) (Q : A -> Prop) : Prop :=
  forall env w,
    I w ->
    I (snd (m env w)) /\
    match fst (m env w) with
    | Ok a => Q a
    | Raise _ => True
    end.

Definition anything {A} : A -> Prop := fun _ => True.

Section CapVocabulary.
Context {codec : JsonCodec} {pystr : PyStr}.

(** Every row of either table reads back with at most three follow-ups. *)
Definition follow_ups_capped (w : World) : Prop :=
  (forall k row fus,
     terminus w !! k = Some row ->
     terminusService._deserialize_follow_ups (tr_follow_ups row) = Ok fus ->
     length fus <= 3) /\
  (forall k row fus,
     candidate_terminus w !! k = Some row ->
     CandidateterminusService._deserialize_follow_ups (cr_follow_ups row) = Ok fus ->
     length fus <= 3).

End CapVocabulary.

(** ** Vocabulary of the workflow properties *)

(** A Wikipedia answer the background task goes on with: not empty and
    none of the three messages of [WikipediaService.query]. *)
Definition usable_summary (s : string) : bool :=
  negb (falsy s)
  && negb (startswith s "Could not find")
  && negb (startswith s "An error occurred")
  && negb (startswith s "Please provide").

(** The follow-up generation failed: its call raised, returned [None], or
    returned an answer without follow-ups. *)
Definition enrichment_failed (r : result (option terminusAnswer)) : bool :=
  match r with
  | Raise _ => true
  | Ok None => true
  | Ok (Some a) => empty_list (ta_follow_ups a)
  end.

(** The follow-ups the background task keeps from the answer of the
    follow-up call. *)
Definition follow_ups_of (r : result (option terminusAnswer)) : list FollowUp :=
  match r with
  | Ok (Some a) => ta_follow_ups a
  | _ => []
  end.

(** Events that are neither a store write nor an external call. *)
Definition only_reads (evs : list Event) : bool :=
  forallb (fun ev => negb (is_write ev) && negb (is_external ev)) evs.

(** ** Vocabulary of the further workflow properties *)

(** An invariant that does not look at the trace. *)
Definition log_stable (I : World -> Prop) : Prop :=
  forall ev w, I w -> I (log ev w).

(** A computation that returns on every run. *)
Definition never_raises {A} (m : M A) : Prop :=
  forall env w, exists a, fst (m env w) = Ok a.

(** A computation that changes at most one of the two tables. *)
Definition one_store {A} (m : M A) : Prop :=
  forall env w,
    terminus (snd (m env w)) = terminus w
    \/ candidate_terminus (snd (m env w)) = candidate_terminus w.

(** The four kinds of status the background task gives a candidate. *)
Definition workflow_status (status : string) : bool :=
  startswith status "wikipedia_failed: "
  || startswith status "validation_failed: "
  || startswith status "rejected_llm: "
  || startswith status "save_to_official_error: ".

(** The status of a candidate the LLM judged invalid. *)
Definition rejected_llm_status (reasoning : string) : string :=
  let status_reason := "rejected_llm: " +:+ reasoning in
  if (255 <? String.length status_reason)%nat
  then slice_to 252 status_reason +:+ "..."
  else status_reason.

(** The message [WikipediaService.query] returns for a lookup that found
    no summary, respectively let an exception escape. *)
Definition wikipedia_failure_message (term : string) (r : result (option string))
  : string :=
  match r with
  | Raise _ => "An error occurred while searching Wikipedia for '" +:+ term +:+ "'."
  | Ok _ => "Could not find a relevant Wikipedia page for '" +:+ term +:+ "'."
  end.

(** A lookup without a usable answer: no page, an empty summary, or an
    exception. *)
Definition wikipedia_lookup_failed (r : result (option string)) : bool :=
  match r with
  | Ok (Some s) => falsy s
  | _ => true
  end.

(** When [m] starts in a world with [P] and returns [a], the world it
    leaves satisfies [Q a]. *)
Definition hoare {A} (P : World -> Prop) (m : M A) (Q : A -> World -> Prop) : Prop :=
  forall env w,
    P w ->
    match m env w with
    | (Ok a, w') => Q a w'
    | (Raise _, _) => True
    end.

Section SyncVocabulary.
Context {codec : JsonCodec} {pystr : PyStr}.

(** Every term of the list is a pending candidate. *)
Definition all_pending (added : list string) (w : World) : Prop :=
  forall t, In t added ->
    exists row, candidate_terminus w !! lower t = Some row /\ cr_status row = "pending".

(** A candidate row as the synchronous endpoints write it: pending, with
    at most three follow-ups. *)
Definition pending_capped_row (row : CandidateRow) : Prop :=
  cr_status row = "pending" /\
  exists fus, cr_follow_ups row = Some (json_dumps fus) /\ length fus <= 3.

End SyncVocabulary.

(** ** Concrete environments and worlds for the examples *)

Module Scenario.

Definition no_fault : nat -> bool := fun _ => false.

(** Nothing fails and every collaborator answers with nothing. *)
Definition env_quiet : Env :=
  mkEnv no_fault no_fault (fun _ _ => Ok None) (fun _ _ _ => Ok None) (fun _ _ _ => Ok None)
    (fun _ _ => Ok None) (fun _ _ => Ok None).

Definition empty_world : World := mkWorld ∅ ∅ [].

Definition gdp_text : string := "Gross domestic product is a monetary measure.".

(** "gdp" is an official entry. *)
Definition w_official : World :=
  mkWorld {[ "gdp" := mkterminusRow gdp_text (Some "[]") ]} ∅ [].

(** Rows whose [follow_ups] column is NULL, respectively the empty string. *)
Definition w_null_follow_ups : World :=
  mkWorld {[ "gdp" := mkterminusRow gdp_text None ]}
          {[ "gdp" := mkCandidateRow gdp_text None "pending" ]} [].

Definition w_blank_follow_ups : World :=
  mkWorld {[ "gdp" := mkterminusRow gdp_text (Some "") ]}
          {[ "gdp" := mkCandidateRow gdp_text (Some "") "pending" ]} [].

(** "inflation" is a pending candidate with one follow-up. *)
Definition fu_prices : FollowUp :=
  mkFollowUp "prices" "What is prices?" "What goods cost.".

Definition inflation_text : string := "Inflation is a general rise of prices.".

Definition row_inflation : CandidateRow :=
  mkCandidateRow inflation_text (Some (MiniJson.dumps [fu_prices])) "pending".

Definition w_candidate : World :=
  mkWorld ∅ {[ "inflation" := row_inflation ]} [].

(** The second database statement of the run fails, every other one works. *)
Definition env_second_stmt_fails : Env :=
  mkEnv (fun n => Nat.eqb n 1) (fun n => Nat.eqb n 1) (fun _ _ => Ok None) (fun _ _ _ => Ok None)
    (fun _ _ _ => Ok None) (fun _ _ => Ok None) (fun _ _ => Ok None).

(** Environments for the background task: Wikipedia knows the term, no
    database statement fails. *)
Definition env_workflow
  (validation : nat -> string -> string -> result (option DefinitionValidationResult))
  (followups : nat -> string -> string -> result (option terminusAnswer)) : Env :=
  mkEnv no_fault no_fault (fun _ _ => Ok (Some gdp_text)) followups validation
    (fun _ _ => Ok None) (fun _ _ => Ok None).

Definition connection_refused : exn := APIConnectionError "connection refused".

Definition verdict_valid : DefinitionValidationResult :=
  mkDefinitionValidationResult true "accurate".

(** The LLM cannot be reached for the validation. *)
Definition env_validation_down : Env :=
  env_workflow (fun _ _ _ => Raise connection_refused) (fun _ _ _ => Ok None).

(** The definition is valid, the follow-up call cannot be reached. *)
Definition env_followups_down : Env :=
  env_workflow (fun _ _ _ => Ok (Some verdict_valid))
    (fun _ _ _ => Raise connection_refused).

(** The definition is valid and the LLM answers with four follow-ups. *)
Definition four_follow_ups : list FollowUp :=
  [mkFollowUp "output" "What is output?" "Goods and services produced.";
   mkFollowUp "market value" "What is market value?" "The price in a market.";
   mkFollowUp "economy" "What is an economy?" "Production and trade of a region.";
   mkFollowUp "inflation" "What is inflation?" "A general rise of prices."].

Definition env_four_follow_ups : Env :=
  env_workflow (fun _ _ _ => Ok (Some verdict_valid))
    (fun _ term definition => Ok (Some (mkterminusAnswer term definition four_follow_ups))).

(** Phase 1 proposes five terms, "gdp" twice; the critique rejects "cat"
    and its call for "swap" fails. *)
Definition env_extraction : Env :=
  mkEnv no_fault no_fault (fun _ _ => Ok None) (fun _ _ _ => Ok None) (fun _ _ _ => Ok None)
    (fun _ _ =>
       Ok (Some (mkExtractedTerms
                   (map mkExtractedTerm ["gdp"; "cat"; "gdp"; "bond"; "swap"]))))
    (fun _ t =>
       if String.eqb t "swap" then Raise (APIConnectionError "connection refused")
       else Ok (Some (mkTermCritique t (negb (String.eqb t "cat")) "because"))).

(** Wikipedia knows nothing. *)
Definition env_wikipedia_empty : Env :=
  mkEnv no_fault no_fault (fun _ _ => Ok None) (fun _ _ _ => Ok None) (fun _ _ _ => Ok None)
    (fun _ _ => Ok None) (fun _ _ => Ok None).

(** The LLM judges the definition invalid. *)
Definition verdict_invalid : DefinitionValidationResult :=
  mkDefinitionValidationResult false "This is about geography, not finance.".

Definition env_verdict_invalid : Env :=
  env_workflow (fun _ _ _ => Ok (Some verdict_invalid)) (fun _ _ _ => Ok None).

(** The extraction finds "gdp" in a report and "market" and "gdp" in the
    definition of gdp; the critique accepts every term; Wikipedia answers
    every lookup with the same text. *)
Definition env_precompute : Env :=
  mkEnv no_fault no_fault (fun _ _ => Ok (Some gdp_text)) (fun _ _ _ => Ok None)
    (fun _ _ _ => Ok None)
    (fun _ text =>
       Ok (Some (mkExtractedTerms
                   (map mkExtractedTerm
                      (if String.eqb text "report" then ["gdp"]
                       else if String.eqb text gdp_text then ["market"; "gdp"]
                       else [])))))
    (fun _ t => Ok (Some (mkTermCritique t true "relevant"))).

(** A candidate row whose follow-ups column cannot be decoded. *)
Definition w_malformed : World :=
  mkWorld ∅ {[ "gdp" := mkCandidateRow gdp_text (Some "not json") "pending" ]} [].

(** "gdp" is an official entry and a pending candidate. *)
Definition row_gdp : CandidateRow := mkCandidateRow gdp_text (Some "[]") "pending".

Definition w_gdp_both : World :=
  mkWorld {[ "gdp" := mkterminusRow gdp_text (Some "[]") ]} {[ "gdp" := row_gdp ]} [].

(** "gdp" is official and "inflation" is a candidate. *)
Definition w_both : World :=
  mkWorld {[ "gdp" := mkterminusRow gdp_text (Some "[]") ]}
          {[ "inflation" := row_inflation ]} [].

(** The definition is valid, the LLM gives four follow-ups, and the sixth
    effect of the run -- the write to the Term Store -- fails; [in_flush]
    tells whether it fails in the flush, so that the Session needs a
    rollback, or before it. *)
Definition env_official_save_fails (in_flush : bool) : Env :=
  mkEnv (fun n => Nat.eqb n 5) (fun n => Nat.eqb n 5 && in_flush)
    (fun _ _ => Ok (Some gdp_text))
    (fun _ term definition => Ok (Some (mkterminusAnswer term definition four_follow_ups)))
    (fun _ _ _ => Ok (Some verdict_valid))
    (fun _ _ => Ok None) (fun _ _ => Ok None).

End Scenario.

(** * Properties *)

Example slice_to_3 : slice_to 3 "inflation" = "inf" /\ slice_to 20 "gdp" = "gdp".
Proof. split; reflexivity. Qed.

Example dumps_two :
  MiniJson.loads
    (MiniJson.dumps [mkFollowUp "gdp" "What is gdp?" "a \ b"; mkFollowUp "x" "y" "z"])
  = Some [mkFollowUp "gdp" "What is gdp?" "a \ b"; mkFollowUp "x" "y" "z"].
Proof. vm_compute. reflexivity. Qed.

Example dumps_empty : MiniJson.dumps [] = "[]".
Proof. reflexivity. Qed.

(** ** The ASCII methods satisfy the laws of [str.lower] and [str.strip] *)

Module AsciiStrFacts.
Import AsciiStr.

Lemma lower_char_idem (c : ascii) : lower_char (lower_char c) = lower_char c.
Proof. destruct c as [[] [] [] [] [] [] [] []]; reflexivity. Qed.

Lemma ascii_lower_idem (s : string) : lower (lower s) = lower s.
Proof.
  induction s as [|c r IH]; simpl; [reflexivity|].
  now rewrite lower_char_idem, IH.
Qed.

Lemma is_space_lower_char (c : ascii) : is_space (lower_char c) = is_space c.
Proof. destruct c as [[] [] [] [] [] [] [] []]; reflexivity. Qed.

Lemma lstrip_lower (s : string) : lstrip (lower s) = lower (lstrip s).
Proof.
  induction s as [|c r IH]; simpl; [reflexivity|].
  rewrite is_space_lower_char. destruct (is_space c); [exact IH | reflexivity].
Qed.

Lemma rstrip_lower (s : string) : rstrip (lower s) = lower (rstrip s).
Proof.
  induction s as [|c r IH]; simpl; [reflexivity|].
  rewrite IH, is_space_lower_char.
  destruct (rstrip r); simpl; [destruct (is_space c)|]; reflexivity.
Qed.

Lemma ascii_strip_lower (s : string) : strip (lower s) = lower (strip s).
Proof. unfold strip. now rewrite lstrip_lower, rstrip_lower. Qed.

Lemma lstrip_no_leading_space (s : string) : no_leading_space (lstrip s).
Proof.
  induction s as [|c r IH]; simpl; [exact I|].
  destruct (is_space c) eqn:Hc; [exact IH | exact Hc].
Qed.

Lemma lstrip_fixed (s : string) : no_leading_space s -> lstrip s = s.
Proof. destruct s as [|c r]; simpl; [reflexivity|]. now intros ->. Qed.

Lemma rstrip_no_leading_space (s : string) :
  no_leading_space s -> no_leading_space (rstrip s).
Proof.
  destruct s as [|c r]; simpl; [trivial|]. intros Hc.
  destruct (rstrip r); simpl; [rewrite Hc; simpl|]; exact Hc.
Qed.

Lemma rstrip_idem (s : string) : rstrip (rstrip s) = rstrip s.
Proof.
  induction s as [|c r IH]; simpl; [reflexivity|].
  destruct (rstrip r) as [|d r'] eqn:Hr.
  - destruct (is_space c) eqn:Hc; simpl; [reflexivity|]. now rewrite Hc.
  - cbn [rstrip] in *. now rewrite IH.
Qed.

Lemma ascii_strip_idem (s : string) : strip (strip s) = strip s.
Proof.
  unfold strip.
  rewrite (lstrip_fixed (rstrip (lstrip s))).
  - apply rstrip_idem.
  - apply rstrip_no_leading_space, lstrip_no_leading_space.
Qed.

End AsciiStrFacts.

#[export] Instance ascii_str : PyStr := {|
  lower := AsciiStr.lower;
  strip := AsciiStr.strip;
  lower_idem := AsciiStrFacts.ascii_lower_idem;
  strip_idem := AsciiStrFacts.ascii_strip_idem;
  strip_lower := AsciiStrFacts.ascii_strip_lower;
  lower_empty := eq_refl;
  strip_empty := eq_refl
|}.

Example lower_GDP : lower "  GDP Growth " = "  gdp growth ".
Proof. reflexivity. Qed.

Example strip_GDP : strip "  GDP Growth
 " = "GDP Growth".
Proof. reflexivity. Qed.

(** ** Strings *)

Section Normalization.
Context {pystr : PyStr}.

(** [strip] and [lower] commute, and [strip] is idempotent, so the key
    [term.strip().lower()] is unchanged by a further [strip] or [lower]. *)
Lemma strip_normalized (t : string) : strip (lower (strip t)) = lower (strip t).
Proof. now rewrite strip_lower, strip_idem. Qed.

End Normalization.

(** ** The small JSON codec satisfies the laws of the json module *)

Module MiniJsonFacts.
Import MiniJson.

Lemma string_length_app (a b : string) :
  String.length (a +:+ b) = String.length a + String.length b.
Proof. induction a as [|c a IH]; simpl; [reflexivity|]. now rewrite IH. Qed.

Lemma expect_app (p r : string) : expect p (p +:+ r) = Some r.
Proof.
  induction p as [|c p IH]; simpl; [reflexivity|].
  now rewrite Ascii.eqb_refl.
Qed.

Lemma r_chars_escape (s k : string) :
  r_chars (escape s +:+ String dquote k) = Some (s, k).
Proof.
  induction s as [|c s IH]; simpl.
  - reflexivity.
  - destruct (needs_escape c) eqn:Hc; simpl.
    + rewrite Hc, IH. reflexivity.
    + unfold needs_escape in Hc. apply orb_false_elim in Hc as [Hq Hb].
      rewrite Hq, Hb, IH. reflexivity.
Qed.

Lemma r_string_w (s k : string) : r_string (w_string s k) = Some (s, k).
Proof. unfold r_string, w_string. simpl. apply r_chars_escape. Qed.

Lemma r_field_w (name v k : string) :
  r_field name (w_field name v k) = Some (v, k).
Proof.
  unfold r_field, w_field. rewrite r_string_w. simpl.
  rewrite String.eqb_refl. apply r_string_w.
Qed.

Lemma r_follow_up_w (fu : FollowUp) (k : string) :
  r_follow_up (w_follow_up fu k) = Some (fu, k).
Proof.
  destruct fu as [t q d]. unfold r_follow_up, w_follow_up.
  cbn [fu_term fu_question fu_definition].
  repeat (first [rewrite expect_app | rewrite r_field_w]; cbn [mbind option_bind]).
  reflexivity.
Qed.

Lemma w_string_length (s k : string) :
  String.length (w_string s k) = 2 + String.length (escape s) + String.length k.
Proof. unfold w_string. simpl. rewrite string_length_app. simpl. lia. Qed.

Lemma w_follow_up_length (fu : FollowUp) (k : string) :
  String.length k < String.length (w_follow_up fu k).
Proof.
  unfold w_follow_up, w_field.
  repeat (rewrite string_length_app || rewrite w_string_length).
  lia.
Qed.

Lemma w_rest_length (l : list FollowUp) :
  length l < String.length (w_rest l).
Proof.
  induction l as [|fu l IH]; [simpl; lia|].
  cbn [w_rest length]. rewrite string_length_app.
  pose proof (w_follow_up_length fu (w_rest l)). lia.
Qed.

Lemma r_items_w (l : list FollowUp) : forall (fu : FollowUp) (fuel : nat),
  length l < fuel -> r_items fuel (w_follow_up fu (w_rest l)) = Some (fu :: l).
Proof.
  induction l as [|a l IH]; intros fu fuel Hfuel;
    (destruct fuel as [|fuel]; [simpl in Hfuel; lia|]);
    cbn [r_items]; rewrite r_follow_up_w; cbn [mbind option_bind w_rest].
  - reflexivity.
  - assert (Hne : String.eqb (", " +:+ w_follow_up a (w_rest l)) "]" = false)
      by reflexivity.
    rewrite Hne, expect_app. cbn [mbind option_bind].
    rewrite IH by (simpl in Hfuel; lia). reflexivity.
Qed.

Lemma loads_dumps (l : list FollowUp) : loads (dumps l) = Some l.
Proof.
  destruct l as [|fu l]; [reflexivity|].
  unfold loads, dumps. rewrite expect_app. cbn [mbind option_bind].
  assert (Hne : String.eqb (w_follow_up fu (w_rest l)) "]" = false) by reflexivity.
  rewrite Hne. apply r_items_w.
  pose proof (w_follow_up_length fu (w_rest l)). pose proof (w_rest_length l). lia.
Qed.

Lemma dumps_nonempty (l : list FollowUp) : falsy (dumps l) = false.
Proof. reflexivity. Qed.

End MiniJsonFacts.

#[export] Instance mini_json : JsonCodec := {|
  json_dumps := MiniJson.dumps;
  json_loads := MiniJson.loads;
  json_loads_dumps := MiniJsonFacts.loads_dumps;
  json_dumps_nonempty := MiniJsonFacts.dumps_nonempty
|}.

(** ** Running the store operations *)

Section StoreFacts.
Context {codec : JsonCodec} {pystr : PyStr}.

Lemma terminus_query_first_run (key : string) (env : Env) (w : World) :
  terminusService.query_first key env w =
    (if db_fault env (length (trace w)) then Raise db_error
     else Ok (terminusService.terminus_entry_at w key),
     log (DbRead terminus_table key) w).
Proof.
  unfold terminusService.query_first, bind, db_stmt, effect, get_world, ret.
  destruct (db_fault env (length (trace w))); reflexivity.
Qed.

Lemma candidate_query_first_run (key : string) (env : Env) (w : World) :
  CandidateterminusService.query_first key env w =
    (if db_fault env (length (trace w)) then Raise db_error
     else Ok (CandidateterminusService.candidate_entry_at w key),
     log (DbRead candidate_terminus_table key) w).
Proof.
  unfold CandidateterminusService.query_first, bind, db_stmt, effect, get_world, ret.
  destruct (db_fault env (length (trace w))); reflexivity.
Qed.

Lemma terminus_save_run (term definition : string) (fus : list FollowUp)
  (env : Env) (w : World) :
  terminusService.save term definition fus env w =
    if db_fault env (length (trace w))
    then (Raise db_error, log (DbWrite terminus_table (lower term)) w)
    else (Ok tt,
          set_terminus
            (<[lower term := mkterminusRow definition (Some (json_dumps fus))]>
               (terminus w))
            (log (DbWrite terminus_table (lower term)) w)).
Proof.
  unfold terminusService.save, bind, db_stmt, effect, modify. simpl.
  destruct (db_fault env (length (trace w))); reflexivity.
Qed.

Lemma candidate_save_run (term definition : string) (fus : list FollowUp)
  (status : string) (env : Env) (w : World) :
  CandidateterminusService.save term definition fus status env w =
    if db_fault env (length (trace w))
    then (Raise db_error, log (DbWrite candidate_terminus_table (lower term)) w)
    else (Ok tt,
          set_candidate
            (<[lower term := mkCandidateRow definition (Some (json_dumps fus)) status]>
               (candidate_terminus w))
            (log (DbWrite candidate_terminus_table (lower term)) w)).
Proof.
  unfold CandidateterminusService.save, bind, db_stmt, effect, modify. simpl.
  destruct (db_fault env (length (trace w))); reflexivity.
Qed.

Lemma terminus_exists_run (term : string) (env : Env) (w : World) :
  terminusService.exists_ term env w =
    (if db_fault env (length (trace w)) then Raise db_error
     else Ok (bool_decide (is_Some (terminus w !! lower term))),
     log (DbRead terminus_table (lower term)) w).
Proof.
  unfold terminusService.exists_, bind, db_stmt, effect, get_world, ret.
  destruct (db_fault env (length (trace w))); reflexivity.
Qed.

Lemma candidate_exists_run (term : string) (env : Env) (w : World) :
  CandidateterminusService.exists_ term env w =
    (if db_fault env (length (trace w)) then Raise db_error
     else Ok (bool_decide (is_Some (candidate_terminus w !! lower term))),
     log (DbRead candidate_terminus_table (lower term)) w).
Proof.
  unfold CandidateterminusService.exists_, bind, db_stmt, effect, get_world, ret.
  destruct (db_fault env (length (trace w))); reflexivity.
Qed.

Lemma length_trace_log (ev : Event) (w : World) :
  length (trace (log ev w)) = S (length (trace w)).
Proof. unfold log. simpl. rewrite length_app. simpl. lia. Qed.

Lemma terminus_delete_run (t : string) (env : Env) (w : World) :
  terminusService.delete t env w =
    let n := length (trace w) in
    let w1 := log (DbRead terminus_table (lower t)) w in
    if db_fault env n then (Raise db_error, w1)
    else match terminus w !! lower t with
         | None => (Ok false, w1)
         | Some _ =>
             let w2 := log (DbWrite terminus_table (lower t)) w1 in
             if db_fault env (S n) then (Raise db_error, w2)
             else (Ok true, set_terminus (base.delete (lower t) (terminus w)) w2)
         end.
Proof.
  unfold terminusService.delete. unfold bind at 1.
  rewrite terminus_query_first_run. cbv zeta.
  destruct (db_fault env (length (trace w))); [reflexivity|].
  unfold terminusService.terminus_entry_at.
  destruct (terminus w !! lower t) as [row|]; [|reflexivity].
  unfold bind, db_stmt, effect, modify, ret. cbn [te_term].
  rewrite length_trace_log.
  destruct (db_fault env (S (length (trace w)))); reflexivity.
Qed.

Lemma candidate_delete_run (t : string) (env : Env) (w : World) :
  CandidateterminusService.delete t env w =
    let n := length (trace w) in
    let w1 := log (DbRead candidate_terminus_table (lower t)) w in
    if db_fault env n then (Raise db_error, w1)
    else match candidate_terminus w !! lower t with
         | None => (Ok false, w1)
         | Some _ =>
             let w2 := log (DbWrite candidate_terminus_table (lower t)) w1 in
             if db_fault env (S n) then (Raise db_error, w2)
             else (Ok true,
                   set_candidate (base.delete (lower t) (candidate_terminus w)) w2)
         end.
Proof.
  unfold CandidateterminusService.delete. unfold bind at 1.
  rewrite candidate_query_first_run. cbv zeta.
  destruct (db_fault env (length (trace w))); [reflexivity|].
  unfold CandidateterminusService.candidate_entry_at.
  destruct (candidate_terminus w !! lower t) as [row|]; [|reflexivity].
  unfold bind, db_stmt, effect, modify, ret. cbn [ce_term].
  rewrite length_trace_log.
  destruct (db_fault env (S (length (trace w)))); reflexivity.
Qed.

Lemma candidate_reject_run (t reason : string) (env : Env) (w : World) :
  CandidateterminusService.reject t reason env w =
    let n := length (trace w) in
    let w1 := log (DbRead candidate_terminus_table (lower t)) w in
    if db_fault env n then (Raise db_error, w1)
    else match candidate_terminus w !! lower t with
         | None => (Ok tt, w1)
         | Some row =>
             let w2 := log (DbWrite candidate_terminus_table (lower t)) w1 in
             if db_fault env (S n) then (Raise db_error, w2)
             else (Ok tt,
                   set_candidate
                     (<[lower t := mkCandidateRow (cr_definition row) (cr_follow_ups row)
                                     ("rejected: " +:+ reason)]>
                        (candidate_terminus w)) w2)
         end.
Proof.
  unfold CandidateterminusService.reject. unfold bind at 1.
  rewrite candidate_query_first_run. cbv zeta.
  destruct (db_fault env (length (trace w))); [reflexivity|].
  unfold CandidateterminusService.candidate_entry_at.
  destruct (candidate_terminus w !! lower t) as [row|]; [|reflexivity].
  unfold bind, db_stmt, effect, modify, ret.
  cbn [ce_term ce_definition ce_follow_ups].
  rewrite length_trace_log.
  destruct (db_fault env (S (length (trace w)))); reflexivity.
Qed.

End StoreFacts.

(** ** Reading the follow-ups column *)

Section ReadFollowUps.
Context {codec : JsonCodec} {pystr : PyStr}.

Lemma terminus_get_as_pydantic_run (term : string) (env : Env) (w : World) :
  db_fault env (length (trace w)) = false ->
  terminusService.get_as_pydantic term env w =
    (match terminus w !! lower term with
     | None => Ok None
     | Some row =>
         match terminusService._deserialize_follow_ups (tr_follow_ups row) with
         | Ok fus => Ok (Some (mkterminusAnswer (lower term) (tr_definition row) fus))
         | Raise e => Raise e
         end
     end,
     log (DbRead terminus_table (lower term)) w).
Proof.
  intros Hf. unfold terminusService.get_as_pydantic, bind.
  rewrite terminus_query_first_run, Hf.
  unfold terminusService.terminus_entry_at.
  destruct (terminus w !! lower term) as [row|]; simpl; [|reflexivity].
  destruct (terminusService._deserialize_follow_ups (tr_follow_ups row)); reflexivity.
Qed.

Lemma candidate_get_as_pydantic_run (term : string) (env : Env) (w : World) :
  db_fault env (length (trace w)) = false ->
  CandidateterminusService.get_as_pydantic term env w =
    (match candidate_terminus w !! lower term with
     | None => Ok None
     | Some row =>
         match CandidateterminusService._deserialize_follow_ups (cr_follow_ups row) with
         | Ok fus =>
             Ok (Some (mkCandidateterminusAnswer (lower term) (cr_definition row) fus
                         (cr_status row)))
         | Raise e => Raise e
         end
     end,
     log (DbRead candidate_terminus_table (lower term)) w).
Proof.
  intros Hf. unfold CandidateterminusService.get_as_pydantic, bind.
  rewrite candidate_query_first_run, Hf.
  unfold CandidateterminusService.candidate_entry_at.
  destruct (candidate_terminus w !! lower term) as [row|]; simpl; [|reflexivity].
  destruct (CandidateterminusService._deserialize_follow_ups (cr_follow_ups row));
    reflexivity.
Qed.

(** C10.  In both stores a persisted [follow_ups] that is NULL or the empty
    string deserializes to the empty list, and [get_as_pydantic] on such an
    entry returns the entry with [follow_ups = []] instead of raising. *)
Theorem empty_follow_ups_read_as_nil
  (env : Env) (wt wc : World) (term d st : string) (s : option string)
  (Hs : s = None \/ s = Some "")
  (Hft : db_fault env (length (trace wt)) = false)
  (Hfc : db_fault env (length (trace wc)) = false)
  (Ht : terminus wt !! lower term = Some (mkterminusRow d s))
  (Hc : candidate_terminus wc !! lower term = Some (mkCandidateRow d s st)) :
  terminusService._deserialize_follow_ups s = Ok [] /\
  CandidateterminusService._deserialize_follow_ups s = Ok [] /\
  fst (terminusService.get_as_pydantic term env wt)
    = Ok (Some (mkterminusAnswer (lower term) d [])) /\
  fst (CandidateterminusService.get_as_pydantic term env wc)
    = Ok (Some (mkCandidateterminusAnswer (lower term) d [] st)).
Proof.
  assert (Hd : terminusService._deserialize_follow_ups s = Ok [] /\
               CandidateterminusService._deserialize_follow_ups s = Ok [])
    by (destruct Hs as [-> | ->]; split; reflexivity).
  destruct Hd as [Hd1 Hd2]. repeat split; try assumption.
  - rewrite terminus_get_as_pydantic_run by assumption. rewrite Ht. simpl.
    now rewrite Hd1.
  - rewrite candidate_get_as_pydantic_run by assumption. rewrite Hc. simpl.
    now rewrite Hd2.
Qed.

End ReadFollowUps.

Lemma empty_follow_ups_read_as_nil_witness :
  fst (terminusService.get_as_pydantic "GDP" Scenario.env_quiet Scenario.w_null_follow_ups)
    = Ok (Some (mkterminusAnswer "gdp" Scenario.gdp_text [])) /\
  fst (CandidateterminusService.get_as_pydantic "GDP" Scenario.env_quiet
         Scenario.w_blank_follow_ups)
    = Ok (Some (mkCandidateterminusAnswer "gdp" Scenario.gdp_text [] "pending")).
Proof.
  split.
  - destruct (empty_follow_ups_read_as_nil Scenario.env_quiet
                Scenario.w_null_follow_ups Scenario.w_null_follow_ups
                "GDP" Scenario.gdp_text "pending" None)
      as (_ & _ & Hofficial & _);
      [left; reflexivity | reflexivity | reflexivity | reflexivity | reflexivity
      | exact Hofficial].
  - destruct (empty_follow_ups_read_as_nil Scenario.env_quiet
                Scenario.w_blank_follow_ups Scenario.w_blank_follow_ups
                "GDP" Scenario.gdp_text "pending" (Some ""))
      as (_ & _ & _ & Hcandidate);
      [right; reflexivity | reflexivity | reflexivity | reflexivity | reflexivity
      | exact Hcandidate].
Defined.

(** ** Keys of the store operations *)

Section Keys.
Context {codec : JsonCodec} {pystr : PyStr}.

(** Every operation of the two services looks at its [term] argument only
    through [lower term]. *)
Lemma operations_by_lower_key (t t' : string) :
  lower t = lower t' ->
  terminusService.get t = terminusService.get t' /\
  terminusService.get_as_pydantic t = terminusService.get_as_pydantic t' /\
  (forall d fus, terminusService.save t d fus = terminusService.save t' d fus) /\
  terminusService.delete t = terminusService.delete t' /\
  terminusService.exists_ t = terminusService.exists_ t' /\
  CandidateterminusService.get t = CandidateterminusService.get t' /\
  CandidateterminusService.get_as_pydantic t
    = CandidateterminusService.get_as_pydantic t' /\
  (forall d fus st,
     CandidateterminusService.save t d fus st
       = CandidateterminusService.save t' d fus st) /\
  CandidateterminusService.delete t = CandidateterminusService.delete t' /\
  CandidateterminusService.exists_ t = CandidateterminusService.exists_ t' /\
  (forall reason,
     CandidateterminusService.reject t reason
       = CandidateterminusService.reject t' reason).
Proof.
  intros H.
  unfold terminusService.get, terminusService.get_as_pydantic, terminusService.save,
    terminusService.delete, terminusService.exists_,
    CandidateterminusService.get, CandidateterminusService.get_as_pydantic,
    CandidateterminusService.save, CandidateterminusService.delete,
    CandidateterminusService.exists_, CandidateterminusService.reject.
  rewrite H. repeat split; reflexivity.
Qed.

(** [get_as_pydantic], whether its read fails or not. *)
Lemma terminus_get_as_pydantic_at (term : string) (env : Env) (w : World) :
  terminusService.get_as_pydantic term env w =
    (if db_fault env (length (trace w)) then Raise db_error
     else match terminus w !! lower term with
          | None => Ok None
          | Some row =>
              match terminusService._deserialize_follow_ups (tr_follow_ups row) with
              | Ok fus => Ok (Some (mkterminusAnswer (lower term) (tr_definition row) fus))
              | Raise e => Raise e
              end
          end,
     log (DbRead terminus_table (lower term)) w).
Proof.
  destruct (db_fault env (length (trace w))) eqn:Hf.
  - unfold terminusService.get_as_pydantic, bind.
    now rewrite terminus_query_first_run, Hf.
  - now apply terminus_get_as_pydantic_run.
Qed.

Lemma candidate_get_as_pydantic_at (term : string) (env : Env) (w : World) :
  CandidateterminusService.get_as_pydantic term env w =
    (if db_fault env (length (trace w)) then Raise db_error
     else match candidate_terminus w !! lower term with
          | None => Ok None
          | Some row =>
              match CandidateterminusService._deserialize_follow_ups (cr_follow_ups row) with
              | Ok fus =>
                  Ok (Some (mkCandidateterminusAnswer (lower term) (cr_definition row) fus
                              (cr_status row)))
              | Raise e => Raise e
              end
          end,
     log (DbRead candidate_terminus_table (lower term)) w).
Proof.
  destruct (db_fault env (length (trace w))) eqn:Hf.
  - unfold CandidateterminusService.get_as_pydantic, bind.
    now rewrite candidate_query_first_run, Hf.
  - now apply candidate_get_as_pydantic_run.
Qed.

(** C3, as the code has it.  Every operation of the Term Store and of the
    Candidate Store normalizes its key by lower-casing, and by nothing
    else: applied to a term [t] it is the same computation as applied to
    [lower t].  It does not trim.  In a store that holds the trimmed,
    lower-cased term but not [lower t] itself, and when the statement does
    not fail, [get], [get_as_pydantic] and [exists] on [t] miss, [delete]
    and [reject] on [t] change nothing, and [save] on [t] leaves the
    trimmed entry as it is and puts a second one under [lower t]. *)
Theorem store_operations_lowercase_only (t : string) :
  (terminusService.get t = terminusService.get (lower t) /\
   terminusService.get_as_pydantic t = terminusService.get_as_pydantic (lower t) /\
   (forall d fus, terminusService.save t d fus = terminusService.save (lower t) d fus) /\
   terminusService.delete t = terminusService.delete (lower t) /\
   terminusService.exists_ t = terminusService.exists_ (lower t) /\
   CandidateterminusService.get t = CandidateterminusService.get (lower t) /\
   CandidateterminusService.get_as_pydantic t
     = CandidateterminusService.get_as_pydantic (lower t) /\
   (forall d fus st,
      CandidateterminusService.save t d fus st
        = CandidateterminusService.save (lower t) d fus st) /\
   CandidateterminusService.delete t = CandidateterminusService.delete (lower t) /\
   CandidateterminusService.exists_ t = CandidateterminusService.exists_ (lower t) /\
   (forall reason,
      CandidateterminusService.reject t reason
        = CandidateterminusService.reject (lower t) reason)) /\
  (forall (env : Env) (w : World) (row : terminusRow) (d : string) (fus : list FollowUp),
     db_fault env (length (trace w)) = false ->
     terminus w !! lower (strip t) = Some row ->
     terminus w !! lower t = None ->
     fst (terminusService.get t env w) = Ok None /\
     fst (terminusService.get_as_pydantic t env w) = Ok None /\
     fst (terminusService.exists_ t env w) = Ok false /\
     fst (terminusService.delete t env w) = Ok false /\
     terminus (snd (terminusService.delete t env w)) = terminus w /\
     terminus (snd (terminusService.save t d fus env w)) !! lower (strip t) = Some row /\
     terminus (snd (terminusService.save t d fus env w)) !! lower t
       = Some (mkterminusRow d (Some (json_dumps fus)))) /\
  (forall (env : Env) (w : World) (row : CandidateRow) (d st reason : string)
          (fus : list FollowUp),
     db_fault env (length (trace w)) = false ->
     candidate_terminus w !! lower (strip t) = Some row ->
     candidate_terminus w !! lower t = None ->
     fst (CandidateterminusService.get t env w) = Ok None /\
     fst (CandidateterminusService.get_as_pydantic t env w) = Ok None /\
     fst (CandidateterminusService.exists_ t env w) = Ok false /\
     fst (CandidateterminusService.delete t env w) = Ok false /\
     candidate_terminus (snd (CandidateterminusService.delete t env w))
       = candidate_terminus w /\
     candidate_terminus (snd (CandidateterminusService.reject t reason env w))
       = candidate_terminus w /\
     candidate_terminus (snd (CandidateterminusService.save t d fus st env w))
       !! lower (strip t) = Some row /\
     candidate_terminus (snd (CandidateterminusService.save t d fus st env w)) !! lower t
       = Some (mkCandidateRow d (Some (json_dumps fus)) st)).
Proof.
  split; [apply operations_by_lower_key; symmetry; apply lower_idem|].
  split.
  - intros env w row d fus Hf Hstored Hmiss.
    assert (Hne : lower t <> lower (strip t)) by (intros E; congruence).
    unfold terminusService.get.
    rewrite terminus_query_first_run, terminus_get_as_pydantic_at,
      terminus_exists_run, terminus_delete_run, terminus_save_run.
    cbv zeta. rewrite Hf. unfold terminusService.terminus_entry_at. rewrite Hmiss.
    rewrite bool_decide_eq_false_2 by (intros [? ?]; discriminate).
    cbn [fst snd terminus set_terminus log].
    rewrite (lookup_insert_ne (terminus w)) by exact Hne.
    rewrite (lookup_insert_eq (terminus w)).
    repeat split; try reflexivity. exact Hstored.
  - intros env w row d st reason fus Hf Hstored Hmiss.
    assert (Hne : lower t <> lower (strip t)) by (intros E; congruence).
    unfold CandidateterminusService.get.
    rewrite candidate_query_first_run, candidate_get_as_pydantic_at,
      candidate_exists_run, candidate_delete_run, candidate_reject_run,
      candidate_save_run.
    cbv zeta. rewrite Hf. unfold CandidateterminusService.candidate_entry_at.
    rewrite Hmiss.
    rewrite bool_decide_eq_false_2 by (intros [? ?]; discriminate).
    cbn [fst snd candidate_terminus set_candidate log].
    rewrite (lookup_insert_ne (candidate_terminus w)) by exact Hne.
    rewrite (lookup_insert_eq (candidate_terminus w)).
    repeat split; try reflexivity. exact Hstored.
Qed.

(** C9.  Every store operation addresses the key [term.lower()].  For a
    term [t] and every casing variant [t'] of it -- a term with the same
    lower-cased form -- each operation on [t'] is a statement on the row
    under [lower t] and on no other row: [get], [get_as_pydantic] and
    [exists] answer from that row, [save] puts it, [delete] removes it and
    [reject] changes its status.  The key is a lowercase string, so every
    key that [save] adds to a table is one. *)
Theorem store_keys_case_insensitive
  (t t' : string) (env : Env) (w : World)
  (Hcase : lower t' = lower t) :
  let key := lower t in
  let n := length (trace w) in
  lower key = key /\
  (* the Term Store *)
  terminusService.get t' env w
    = (if db_fault env n then Raise db_error
       else Ok (terminusService.terminus_entry_at w key),
       log (DbRead terminus_table key) w) /\
  terminusService.get_as_pydantic t' env w
    = (if db_fault env n then Raise db_error
       else match terminus w !! key with
            | None => Ok None
            | Some row =>
                match terminusService._deserialize_follow_ups (tr_follow_ups row) with
                | Ok fus => Ok (Some (mkterminusAnswer key (tr_definition row) fus))
                | Raise e => Raise e
                end
            end,
       log (DbRead terminus_table key) w) /\
  terminusService.exists_ t' env w
    = (if db_fault env n then Raise db_error
       else Ok (bool_decide (is_Some (terminus w !! key))),
       log (DbRead terminus_table key) w) /\
  (forall d fus,
     terminusService.save t' d fus env w
       = if db_fault env n
         then (Raise db_error, log (DbWrite terminus_table key) w)
         else (Ok tt,
               set_terminus
                 (<[key := mkterminusRow d (Some (json_dumps fus))]> (terminus w))
                 (log (DbWrite terminus_table key) w))) /\
  terminusService.delete t' env w
    = (let w1 := log (DbRead terminus_table key) w in
       if db_fault env n then (Raise db_error, w1)
       else match terminus w !! key with
            | None => (Ok false, w1)
            | Some _ =>
                let w2 := log (DbWrite terminus_table key) w1 in
                if db_fault env (S n) then (Raise db_error, w2)
                else (Ok true, set_terminus (base.delete key (terminus w)) w2)
            end) /\
  (* the Candidate Store *)
  CandidateterminusService.get t' env w
    = (if db_fault env n then Raise db_error
       else Ok (CandidateterminusService.candidate_entry_at w key),
       log (DbRead candidate_terminus_table key) w) /\
  CandidateterminusService.get_as_pydantic t' env w
    = (if db_fault env n then Raise db_error
       else match candidate_terminus w !! key with
            | None => Ok None
            | Some row =>
                match CandidateterminusService._deserialize_follow_ups
                        (cr_follow_ups row) with
                | Ok fus =>
                    Ok (Some (mkCandidateterminusAnswer key (cr_definition row) fus
                                (cr_status row)))
                | Raise e => Raise e
                end
            end,
       log (DbRead candidate_terminus_table key) w) /\
  CandidateterminusService.exists_ t' env w
    = (if db_fault env n then Raise db_error
       else Ok (bool_decide (is_Some (candidate_terminus w !! key))),
       log (DbRead candidate_terminus_table key) w) /\
  (forall d fus st,
     CandidateterminusService.save t' d fus st env w
       = if db_fault env n
         then (Raise db_error, log (DbWrite candidate_terminus_table key) w)
         else (Ok tt,
               set_candidate
                 (<[key := mkCandidateRow d (Some (json_dumps fus)) st]>
                    (candidate_terminus w))
                 (log (DbWrite candidate_terminus_table key) w))) /\
  CandidateterminusService.delete t' env w
    = (let w1 := log (DbRead candidate_terminus_table key) w in
       if db_fault env n then (Raise db_error, w1)
       else match candidate_terminus w !! key with
            | None => (Ok false, w1)
            | Some _ =>
                let w2 := log (DbWrite candidate_terminus_table key) w1 in
                if db_fault env (S n) then (Raise db_error, w2)
                else (Ok true,
                      set_candidate (base.delete key (candidate_terminus w)) w2)
            end) /\
  (forall reason,
     CandidateterminusService.reject t' reason env w
       = (let w1 := log (DbRead candidate_terminus_table key) w in
          if db_fault env n then (Raise db_error, w1)
          else match candidate_terminus w !! key with
               | None => (Ok tt, w1)
               | Some row =>
                   let w2 := log (DbWrite candidate_terminus_table key) w1 in
                   if db_fault env (S n) then (Raise db_error, w2)
                   else (Ok tt,
                         set_candidate
                           (<[key := mkCandidateRow (cr_definition row)
                                       (cr_follow_ups row) ("rejected: " +:+ reason)]>
                              (candidate_terminus w)) w2)
               end)) /\
  (* the keys that [save] adds *)
  (forall d fus k,
     k ∈ dom (terminus (snd (terminusService.save t' d fus env w))) ->
     k ∈ dom (terminus w) \/ (k = key /\ lower k = k)) /\
  (forall d fus st k,
     k ∈ dom (candidate_terminus
                (snd (CandidateterminusService.save t' d fus st env w))) ->
     k ∈ dom (candidate_terminus w) \/ (k = key /\ lower k = k)).
Proof.
  cbv zeta.
  unfold terminusService.get, CandidateterminusService.get.
  rewrite terminus_query_first_run, terminus_get_as_pydantic_at, terminus_exists_run,
    terminus_delete_run, candidate_query_first_run, candidate_get_as_pydantic_at,
    candidate_exists_run, candidate_delete_run.
  cbv zeta. rewrite !Hcase.
  split; [apply lower_idem|].
  do 3 (split; [reflexivity|]).
  split; [intros d fus; now rewrite terminus_save_run, Hcase|].
  do 4 (split; [reflexivity|]).
  split; [intros d fus st; now rewrite candidate_save_run, Hcase|].
  split; [reflexivity|].
  split; [intros reason; rewrite candidate_reject_run; cbv zeta; now rewrite Hcase|].
  split.
  - intros d fus k. rewrite terminus_save_run, Hcase.
    destruct (db_fault env (length (trace w))); cbn [snd terminus set_terminus log];
      [intros Hk; now left|].
    rewrite dom_insert_L, elem_of_union, elem_of_singleton.
    intros [->|Hk]; [right; split; [reflexivity | apply lower_idem] | now left].
  - intros d fus st k. rewrite candidate_save_run, Hcase.
    destruct (db_fault env (length (trace w)));
      cbn [snd candidate_terminus set_candidate log]; [intros Hk; now left|].
    rewrite dom_insert_L, elem_of_union, elem_of_singleton.
    intros [->|Hk]; [right; split; [reflexivity | apply lower_idem] | now left].
Qed.

End Keys.

Lemma store_keys_case_insensitive_witness :
  lower "Gdp" = lower "GDP" /\
  fst (terminusService.get "Gdp" Scenario.env_quiet Scenario.w_gdp_both)
    = Ok (Some (mkterminusEntry "gdp" Scenario.gdp_text (Some "[]"))) /\
  terminus (snd (terminusService.save "Gdp" "d" [] Scenario.env_quiet
                   Scenario.w_gdp_both))
    = {[ "gdp" := mkterminusRow "d" (Some "[]") ]} /\
  candidate_terminus (snd (CandidateterminusService.delete "Gdp" Scenario.env_quiet
                             Scenario.w_gdp_both))
    = ∅.
Proof.
  split; [reflexivity|].
  pose proof (store_keys_case_insensitive "GDP" "Gdp" Scenario.env_quiet
                Scenario.w_gdp_both eq_refl) as H.
  cbv zeta in H.
  destruct H as (_ & Hget & _ & _ & Hsave & _ & _ & _ & _ & _ & Hdelete & _).
  rewrite Hget, (Hsave "d" []), Hdelete.
  repeat split; vm_compute; reflexivity.
Defined.

Lemma store_operations_lowercase_only_witness :
  terminus Scenario.w_gdp_both !! lower (strip " gdp")
    = Some (mkterminusRow Scenario.gdp_text (Some "[]")) /\
  terminus Scenario.w_gdp_both !! lower " gdp" = None /\
  fst (terminusService.get " gdp" Scenario.env_quiet Scenario.w_gdp_both) = Ok None /\
  fst (CandidateterminusService.exists_ " gdp" Scenario.env_quiet Scenario.w_gdp_both)
    = Ok false /\
  terminus (snd (terminusService.save " gdp" "d" [] Scenario.env_quiet
                   Scenario.w_gdp_both)) !! "gdp"
    = Some (mkterminusRow Scenario.gdp_text (Some "[]")).
Proof.
  split; [reflexivity|]. split; [reflexivity|].
  destruct (store_operations_lowercase_only " gdp") as (_ & Hterm & Hcand).
  destruct (Hterm Scenario.env_quiet Scenario.w_gdp_both
              (mkterminusRow Scenario.gdp_text (Some "[]")) "d" []
              eq_refl eq_refl eq_refl) as (Hget & _ & _ & _ & _ & Hkept & _).
  destruct (Hcand Scenario.env_quiet Scenario.w_gdp_both Scenario.row_gdp
              "d" "pending" "reason" [] eq_refl eq_refl eq_refl)
    as (_ & _ & Hexists & _).
  split; [exact Hget|]. split; [exact Hexists | exact Hkept].
Defined.

(** C3 as stated fails: the services do not trim.  With "gdp" stored in
    both stores, each of [get], [exists], [delete] and [save] of either
    store treats " gdp" differently from the trimmed, lower-cased "gdp":
    the reads miss instead of hitting, [delete] removes nothing, and
    [save] adds a second key with the blank kept instead of replacing the
    entry. *)
Lemma store_operations_do_not_trim :
  lower (strip " gdp") = "gdp" /\
  (* get *)
  fst (terminusService.get " gdp" Scenario.env_quiet Scenario.w_gdp_both) = Ok None /\
  fst (terminusService.get (lower (strip " gdp")) Scenario.env_quiet Scenario.w_gdp_both)
    = Ok (Some (mkterminusEntry "gdp" Scenario.gdp_text (Some "[]"))) /\
  fst (CandidateterminusService.get " gdp" Scenario.env_quiet Scenario.w_gdp_both)
    = Ok None /\
  fst (CandidateterminusService.get (lower (strip " gdp")) Scenario.env_quiet
         Scenario.w_gdp_both)
    = Ok (Some (mkCandidateterminusEntry "gdp" Scenario.gdp_text (Some "[]") "pending")) /\
  (* exists *)
  fst (terminusService.exists_ " gdp" Scenario.env_quiet Scenario.w_gdp_both)
    = Ok false /\
  fst (terminusService.exists_ (lower (strip " gdp")) Scenario.env_quiet
         Scenario.w_gdp_both) = Ok true /\
  fst (CandidateterminusService.exists_ " gdp" Scenario.env_quiet Scenario.w_gdp_both)
    = Ok false /\
  fst (CandidateterminusService.exists_ (lower (strip " gdp")) Scenario.env_quiet
         Scenario.w_gdp_both) = Ok true /\
  (* delete *)
  terminus (snd (terminusService.delete " gdp" Scenario.env_quiet Scenario.w_gdp_both))
    = terminus Scenario.w_gdp_both /\
  terminus (snd (terminusService.delete (lower (strip " gdp")) Scenario.env_quiet
                   Scenario.w_gdp_both)) = ∅ /\
  candidate_terminus
    (snd (CandidateterminusService.delete " gdp" Scenario.env_quiet Scenario.w_gdp_both))
    = candidate_terminus Scenario.w_gdp_both /\
  candidate_terminus
    (snd (CandidateterminusService.delete (lower (strip " gdp")) Scenario.env_quiet
            Scenario.w_gdp_both)) = ∅ /\
  (* save *)
  terminus (snd (terminusService.save " gdp" "d" [] Scenario.env_quiet
                   Scenario.w_gdp_both))
    = {[ "gdp" := mkterminusRow Scenario.gdp_text (Some "[]");
         " gdp" := mkterminusRow "d" (Some "[]") ]} /\
  terminus (snd (terminusService.save (lower (strip " gdp")) "d" [] Scenario.env_quiet
                   Scenario.w_gdp_both))
    = {[ "gdp" := mkterminusRow "d" (Some "[]") ]} /\
  candidate_terminus
    (snd (CandidateterminusService.save " gdp" "d" [] "pending" Scenario.env_quiet
            Scenario.w_gdp_both))
    = {[ "gdp" := Scenario.row_gdp;
         " gdp" := mkCandidateRow "d" (Some "[]") "pending" ]} /\
  candidate_terminus
    (snd (CandidateterminusService.save (lower (strip " gdp")) "d" [] "pending"
            Scenario.env_quiet Scenario.w_gdp_both))
    = {[ "gdp" := mkCandidateRow "d" (Some "[]") "pending" ]} /\
  ~ (forall (t : string) (env : Env) (w : World),
       terminusService.get t env w = terminusService.get (lower (strip t)) env w).
Proof.
  repeat split; try (vm_compute; reflexivity).
  intros H.
  specialize (H " gdp" Scenario.env_quiet Scenario.w_gdp_both).
  apply (f_equal fst) in H. vm_compute in H. discriminate H.
Qed.

(** ** Two-phase extraction *)

Section Extraction.

Lemma critique_term_run (term : string) (env : Env) (w : World) :
  TermExtractionService._critique_term term env w =
    (Ok (critique_relevant env (length (trace w)) term),
     log (LLMCall Critique term) w).
Proof.
  unfold TermExtractionService._critique_term, try_except, bind, effect,
    critique_relevant, ret, raise.
  destruct (llm_critique env (length (trace w)) term) as [[c|]|e]; reflexivity.
Qed.

Lemma kept_by_critique_cons (env : Env) (n : nat) (t : string) (l : list string) :
  kept_by_critique env n (t :: l) =
    (if critique_relevant env n t then [t] else []) ++ kept_by_critique env (S n) l.
Proof.
  unfold kept_by_critique. simpl.
  destruct (critique_relevant env n t); reflexivity.
Qed.

(** The loop never raises; it appends to [validated] what the critique keeps. *)
Lemma critique_loop_run (l : list string) : forall (validated : list string)
  (env : Env) (w : World),
  fst (TermExtractionService.critique_loop l validated env w)
    = Ok (validated ++ kept_by_critique env (length (trace w)) l).
Proof.
  induction l as [|t l IH]; intros validated env w.
  - simpl. unfold kept_by_critique. simpl. now rewrite app_nil_r.
  - cbn [TermExtractionService.critique_loop]. unfold bind at 1.
    rewrite critique_term_run, IH, length_trace_log, kept_by_critique_cons.
    destruct (critique_relevant env (length (trace w)) t); simpl.
    + now rewrite <- app_assoc.
    + reflexivity.
Qed.

(** C8.  When phase 1 returns its candidate terms, [validate_terms] returns
    without raising exactly the candidates whose own critique call succeeded
    and answered relevant, in the order of phase 1 and with repetitions
    kept; a critique call that raises drops its term. *)
Theorem validate_terms_filters_in_order
  (text : string) (env : Env) (w : World) (r : ExtractedTerms)
  (Hphase1 : llm_extraction env (length (trace w)) text = Ok (Some r)) :
  fst (TermExtractionService.validate_terms text env w)
    = Ok (kept_by_critique env (S (length (trace w))) (map et_term (terms r))).
Proof.
  unfold TermExtractionService.validate_terms, bind at 1.
  unfold BaseLLMService.generate_response, try_except, effect.
  rewrite Hphase1.
  rewrite critique_loop_run, length_trace_log. reflexivity.
Qed.

End Extraction.

Lemma validate_terms_filters_in_order_witness :
  llm_extraction Scenario.env_extraction 0 "some text"
    = Ok (Some (mkExtractedTerms
                  (map mkExtractedTerm ["gdp"; "cat"; "gdp"; "bond"; "swap"]))) /\
  fst (TermExtractionService.validate_terms "some text" Scenario.env_extraction
         Scenario.empty_world)
    = Ok ["gdp"; "gdp"; "bond"].
Proof.
  split; [reflexivity|].
  apply (validate_terms_filters_in_order "some text" Scenario.env_extraction
           Scenario.empty_world
           (mkExtractedTerms (map mkExtractedTerm ["gdp"; "cat"; "gdp"; "bond"; "swap"]))).
  reflexivity.
Defined.

(** ** Candidate promotion *)

Section Promotion.
Context {codec : JsonCodec} {pystr : PyStr}.

Lemma keeps_terminus_bind {A B} (m : M A) (k : A -> M B) :
  keeps_terminus m -> (forall a, keeps_terminus (k a)) -> keeps_terminus (bind m k).
Proof.
  intros Hm Hk env w. unfold bind. specialize (Hm env w).
  destruct (m env w) as [[a|e] w']; simpl in *; [|assumption].
  now rewrite Hk.
Qed.

Lemma keeps_terminus_ret {A} (a : A) : keeps_terminus (ret a).
Proof. intros env w. reflexivity. Qed.

Lemma keeps_terminus_raise {A} (e : exn) : keeps_terminus (@raise A e).
Proof. intros env w. reflexivity. Qed.

Lemma keeps_terminus_candidate_delete (t : string) :
  keeps_terminus (CandidateterminusService.delete t).
Proof.
  intros env w. rewrite candidate_delete_run. cbv zeta.
  destruct (db_fault env (length (trace w))); [reflexivity|].
  destruct (candidate_terminus w !! lower t); [|reflexivity].
  destruct (db_fault env (S (length (trace w)))); reflexivity.
Qed.

Lemma keeps_terminus_get_as_pydantic (t : string) :
  keeps_terminus (terminusService.get_as_pydantic t).
Proof.
  unfold terminusService.get_as_pydantic.
  apply keeps_terminus_bind.
  - intros env w. now rewrite terminus_query_first_run.
  - intros [db_obj|]; [|apply keeps_terminus_ret].
    destruct (terminusService._deserialize_follow_ups (te_follow_ups db_obj));
      [apply keeps_terminus_ret | apply keeps_terminus_raise].
Qed.

Lemma keeps_terminus_after_official_save (key : string) :
  keeps_terminus (after_official_save key).
Proof.
  unfold after_official_save.
  apply keeps_terminus_bind; [apply keeps_terminus_candidate_delete|]. intros _.
  apply keeps_terminus_bind; [apply keeps_terminus_get_as_pydantic|].
  intros [o|]; [apply keeps_terminus_ret | apply keeps_terminus_raise].
Qed.

(** The approval path, up to and including the Term Store write. *)
Lemma validate_candidate_approve_run (T reason : string) (env : Env) (w : World)
  (row : CandidateRow) :
  candidate_terminus w !! lower T = Some row ->
  validate_candidate (mkCandidateValidation T true reason) env w =
    let n := length (trace w) in
    let w1 := log (DbRead candidate_terminus_table (lower T)) w in
    if db_fault env n then (Raise db_error, w1)
    else match CandidateterminusService._deserialize_follow_ups (cr_follow_ups row) with
         | Raise e => (Raise e, w1)
         | Ok F =>
             let w2 := log (DbWrite terminus_table (lower T)) w1 in
             if db_fault env (S n) then (Raise db_error, w2)
             else after_official_save (lower T) env
                    (set_terminus
                       (<[lower T := mkterminusRow (cr_definition row)
                                       (Some (json_dumps F))]> (terminus w)) w2)
         end.
Proof.
  intros Hcand. unfold validate_candidate. cbn [cv_term cv_approve].
  unfold bind at 1. unfold CandidateterminusService.get. rewrite candidate_query_first_run. cbv zeta.
  destruct (db_fault env (length (trace w))); [reflexivity|].
  unfold CandidateterminusService.candidate_entry_at. rewrite Hcand.
  cbn [cv_approve negb ce_follow_ups ce_term ce_definition].
  destruct (CandidateterminusService._deserialize_follow_ups (cr_follow_ups row))
    as [F|e]; [|reflexivity].
  unfold bind at 1. rewrite terminus_save_run, length_trace_log, lower_idem.
  destruct (db_fault env (S (length (trace w)))); reflexivity.
Qed.

Lemma deserialize_dumps (F : list FollowUp) :
  terminusService._deserialize_follow_ups (Some (json_dumps F)) = Ok F /\
  CandidateterminusService._deserialize_follow_ups (Some (json_dumps F)) = Ok F.
Proof.
  unfold terminusService._deserialize_follow_ups,
    CandidateterminusService._deserialize_follow_ups.
  now rewrite json_dumps_nonempty, json_loads_dumps.
Qed.

(** C1.  Approving a candidate [T] with definition [D] and follow-ups [F]
    returns the new official entry (T, D, F); the Term Store then holds
    [T] with the same [D] and [F], the Candidate Store no longer holds
    [T], and the official write happens before the candidate delete. *)
Theorem promotion_round_trip
  (env : Env) (w : World) (T reason D st : string) (raw : option string)
  (F : list FollowUp)
  (Hok : forall n, db_fault env n = false)
  (Hcand : candidate_terminus w !! lower T = Some (mkCandidateRow D raw st))
  (HF : CandidateterminusService._deserialize_follow_ups raw = Ok F) :
  exists w',
    validate_candidate (mkCandidateValidation T true reason) env w
      = (Ok (mkterminusAnswer (lower T) D F), w') /\
    terminus w' = <[lower T := mkterminusRow D (Some (json_dumps F))]> (terminus w) /\
    candidate_terminus w' = base.delete (lower T) (candidate_terminus w) /\
    fst (terminusService.get_as_pydantic T env w')
      = Ok (Some (mkterminusAnswer (lower T) D F)) /\
    fst (CandidateterminusService.get T env w') = Ok None /\
    trace w' = trace w ++ [DbRead candidate_terminus_table (lower T);
                           DbWrite terminus_table (lower T);
                           DbRead candidate_terminus_table (lower T);
                           DbWrite candidate_terminus_table (lower T);
                           DbRead terminus_table (lower T)].
Proof.
  eexists.
  rewrite (validate_candidate_approve_run T reason env w _ Hcand). cbv zeta.
  rewrite !Hok. cbn [cr_follow_ups cr_definition]. rewrite HF.
  unfold after_official_save. unfold bind at 1.
  rewrite candidate_delete_run. cbv zeta. rewrite !Hok, lower_idem.
  cbn [candidate_terminus set_terminus log]. rewrite Hcand.
  unfold bind at 1.
  rewrite terminus_get_as_pydantic_run by apply Hok. rewrite lower_idem.
  cbn [terminus set_terminus set_candidate log candidate_terminus trace].
  rewrite (lookup_insert_eq (terminus w) (lower T)). cbn [tr_follow_ups tr_definition].
  destruct (deserialize_dumps F) as [HdT _]. rewrite HdT.
  split; [reflexivity|].
  cbn [terminus set_terminus set_candidate log candidate_terminus trace].
  split; [reflexivity|]. split; [reflexivity|].
  split.
  { rewrite terminus_get_as_pydantic_run by apply Hok.
    cbn [terminus set_terminus set_candidate log candidate_terminus trace fst].
    rewrite (lookup_insert_eq (terminus w) (lower T)).
    cbn [tr_follow_ups tr_definition]. now rewrite HdT. }
  split.
  { unfold CandidateterminusService.get. rewrite candidate_query_first_run, Hok.
    unfold CandidateterminusService.candidate_entry_at.
    cbn [terminus set_terminus set_candidate log candidate_terminus trace fst].
    now rewrite (lookup_delete_eq (candidate_terminus w) (lower T)). }
  now rewrite <- !app_assoc.
Qed.

(** C5.  While approving a candidate: if the Term Store write fails, the
    database error reaches the caller and both tables are as before, so the
    candidate entry is intact; and whichever statement fails, the run never
    ends with the candidate gone and no official entry for the term. *)
Theorem promotion_failure_keeps_candidate
  (env : Env) (w : World) (T reason : string) (row : CandidateRow)
  (Hcand : candidate_terminus w !! lower T = Some row) :
  (forall F,
     db_fault env (length (trace w)) = false ->
     CandidateterminusService._deserialize_follow_ups (cr_follow_ups row) = Ok F ->
     db_fault env (S (length (trace w))) = true ->
     fst (validate_candidate (mkCandidateValidation T true reason) env w)
       = Raise db_error /\
     candidate_terminus (snd (validate_candidate (mkCandidateValidation T true reason) env w))
       = candidate_terminus w /\
     terminus (snd (validate_candidate (mkCandidateValidation T true reason) env w))
       = terminus w) /\
  ~ (candidate_terminus (snd (validate_candidate (mkCandidateValidation T true reason) env w))
       !! lower T = None /\
     terminus (snd (validate_candidate (mkCandidateValidation T true reason) env w))
       !! lower T = None).
Proof.
  rewrite (validate_candidate_approve_run T reason env w _ Hcand). cbv zeta.
  split.
  - intros F Hget HF Hsave. rewrite Hget, HF, Hsave. repeat split; reflexivity.
  - destruct (db_fault env (length (trace w)));
      [cbn; rewrite Hcand; intros [? _]; discriminate|].
    destruct (CandidateterminusService._deserialize_follow_ups (cr_follow_ups row))
      as [F|e]; [|cbn; rewrite Hcand; intros [? _]; discriminate].
    destruct (db_fault env (S (length (trace w))));
      [cbn; rewrite Hcand; intros [? _]; discriminate|].
    rewrite keeps_terminus_after_official_save. cbn [terminus set_terminus].
    rewrite (lookup_insert_eq (terminus w) (lower T)). intros [_ ?]; discriminate.
Qed.

End Promotion.

Lemma promotion_round_trip_witness :
  exists w',
    validate_candidate (mkCandidateValidation "Inflation" true "reviewed")
      Scenario.env_quiet Scenario.w_candidate
      = (Ok (mkterminusAnswer "inflation" Scenario.inflation_text [Scenario.fu_prices]),
         w') /\
    terminus w' !! "inflation"
      = Some (mkterminusRow Scenario.inflation_text
                (Some (MiniJson.dumps [Scenario.fu_prices]))) /\
    candidate_terminus w' !! "inflation" = None.
Proof.
  assert (HF : CandidateterminusService._deserialize_follow_ups
                 (Some (MiniJson.dumps [Scenario.fu_prices]))
               = Ok [Scenario.fu_prices]) by (vm_compute; reflexivity).
  assert (Hcand : candidate_terminus Scenario.w_candidate !! lower "Inflation"
                  = Some (mkCandidateRow Scenario.inflation_text
                            (Some (MiniJson.dumps [Scenario.fu_prices])) "pending"))
    by (vm_compute; reflexivity).
  destruct (promotion_round_trip Scenario.env_quiet Scenario.w_candidate
              "Inflation" "reviewed" Scenario.inflation_text "pending"
              (Some (MiniJson.dumps [Scenario.fu_prices])) [Scenario.fu_prices]
              (fun _ => eq_refl) Hcand HF)
    as (w' & Hrun & Hofficial & Hcandidate & _).
  exists w'. rewrite Hofficial, Hcandidate.
  split; [exact Hrun|]. split; vm_compute; reflexivity.
Defined.

Lemma promotion_failure_keeps_candidate_witness :
  candidate_terminus Scenario.w_candidate !! lower "Inflation"
    = Some Scenario.row_inflation /\
  fst (validate_candidate (mkCandidateValidation "Inflation" true "reviewed")
         Scenario.env_second_stmt_fails Scenario.w_candidate)
    = Raise db_error /\
  candidate_terminus
    (snd (validate_candidate (mkCandidateValidation "Inflation" true "reviewed")
            Scenario.env_second_stmt_fails Scenario.w_candidate))
    !! "inflation" = Some Scenario.row_inflation.
Proof.
  assert (Hcand : candidate_terminus Scenario.w_candidate !! lower "Inflation"
                  = Some Scenario.row_inflation) by (vm_compute; reflexivity).
  split; [exact Hcand|].
  destruct (promotion_failure_keeps_candidate Scenario.env_second_stmt_fails
              Scenario.w_candidate "Inflation" "reviewed" Scenario.row_inflation
              Hcand) as [Hfail _].
  assert (HF : CandidateterminusService._deserialize_follow_ups
                 (cr_follow_ups Scenario.row_inflation)
               = Ok [Scenario.fu_prices]) by (vm_compute; reflexivity).
  destruct (Hfail [Scenario.fu_prices] eq_refl HF eq_refl)
    as (Hraise & Hcandidate & _).
  split; [exact Hraise|]. rewrite Hcandidate. reflexivity.
Defined.

(** ** The background resolution workflow *)

Section Workflow.
Context {codec : JsonCodec} {pystr : PyStr}.

Lemma wikipedia_query_run (term s : string) (env : Env) (w : World) :
  falsy (strip term) = false ->
  wikipedia_lookup env (length (trace w)) (strip term) = Ok (Some s) ->
  falsy s = false ->
  WikipediaService.query term env w = (Ok s, log (WikipediaCall (strip term)) w).
Proof.
  intros Hterm Hlookup Hs. unfold WikipediaService.query. cbv zeta.
  rewrite Hterm. unfold try_except, bind, effect. rewrite Hlookup, Hs. reflexivity.
Qed.

(** [validate_definition] never raises: whatever goes wrong in the LLM
    call, a connection error included, comes back as [None]. *)
Lemma validate_definition_run (term summary : string) (env : Env) (w : World) :
  falsy term = false -> falsy summary = false ->
  DefinitionValidationService.validate_definition term summary env w =
    (Ok match llm_validation env (length (trace w)) term summary with
        | Ok (Some r) => Some r
        | _ => None
        end,
     log (LLMCall Validation term) w).
Proof.
  intros Hterm Hsummary. unfold DefinitionValidationService.validate_definition.
  rewrite Hterm, Hsummary. cbn [orb].
  unfold BaseLLMService.generate_response, BaseLLMService.response_model_no_args,
    try_except, bind, effect, ret, raise.
  destruct (llm_validation env (length (trace w)) term summary) as [[r|]|[]];
    reflexivity.
Qed.

(** Step 3 has two outcomes only: the verdict is processed, or the
    candidate is stored as "validation_failed". *)
Lemma validate_and_store_run (term summary : string) (env : Env) (w : World) :
  falsy term = false -> falsy summary = false ->
  validate_and_store term summary env w =
    match llm_validation env (length (trace w)) term summary with
    | Ok (Some vr) =>
        store_validated term summary vr env (log (LLMCall Validation term) w)
    | _ =>
        CandidateterminusService.save term summary []
          "validation_failed: LLM returned no result" env
          (log (LLMCall Validation term) w)
    end.
Proof.
  intros Hterm Hsummary. unfold validate_and_store, bind, attempt.
  rewrite validate_definition_run by assumption.
  destruct (llm_validation env (length (trace w)) term summary) as [[r|]|e];
    reflexivity.
Qed.

(** Steps 4a and 4b for a valid verdict: the follow-ups of the answer are
    saved as they come, or none when the follow-up call failed; when the
    official write fails, the fallback runs on the Session of that write. *)
Lemma store_validated_valid_run (term summary : string)
  (vr : DefinitionValidationResult) (env : Env) (w : World) :
  is_valid vr = true ->
  store_validated term summary vr env w =
    let fus := follow_ups_of (llm_followups env (length (trace w)) term summary) in
    let w1 := log (LLMCall Followups term) w in
    let w2 := log (DbWrite terminus_table (lower term)) w1 in
    if db_fault env (S (length (trace w)))
    then after_failed_statement
           (CandidateterminusService.save term summary fus
              ("save_to_official_error: " +:+ slice_to 200 (str_exn db_error))) env w2
    else (Ok tt,
          set_terminus
            (<[lower term := mkterminusRow summary (Some (json_dumps fus))]>
               (terminus w)) w2).
Proof.
  intros Hvalid. unfold store_validated. rewrite Hvalid. cbv zeta.
  unfold bind at 1.
  assert (Hfus :
    try_except
      (llm_answer <- FUService.generate_followups term summary ;;
       match llm_answer with
       | Some a => if empty_list (ta_follow_ups a) then ret [] else ret (ta_follow_ups a)
       | None => ret []
       end)
      (fun _ => ret []) env w
    = (Ok (follow_ups_of (llm_followups env (length (trace w)) term summary)),
       log (LLMCall Followups term) w)).
  { unfold FUService.generate_followups, BaseLLMService.generate_response,
      BaseLLMService.response_model_no_args, try_except, bind, effect, ret, raise,
      follow_ups_of.
    destruct (llm_followups env (length (trace w)) term summary) as [[a|]|[]];
      try reflexivity.
    destruct (ta_follow_ups a); reflexivity. }
  rewrite Hfus. unfold try_except.
  rewrite terminus_save_run, length_trace_log.
  destruct (db_fault env (S (length (trace w)))); reflexivity.
Qed.

Lemma fetch_and_validate_run (term s : string) (env : Env) (w : World) :
  falsy (strip term) = false ->
  wikipedia_lookup env (length (trace w)) (strip term) = Ok (Some s) ->
  usable_summary s = true ->
  fetch_and_validate term env w =
    validate_and_store term s env (log (WikipediaCall (strip term)) w).
Proof.
  intros Hterm Hlookup Huse. unfold usable_summary in Huse.
  apply andb_prop in Huse as [Huse Hp3]. apply andb_prop in Huse as [Huse Hp2].
  apply andb_prop in Huse as [Hne Hp1].
  apply negb_true_iff in Hne, Hp1, Hp2, Hp3.
  unfold fetch_and_validate, bind, attempt.
  rewrite (wikipedia_query_run term s) by assumption.
  now rewrite Hp1, Hp2, Hp3.
Qed.

(** Both pre-checks miss and neither read fails: the task goes on to the
    Wikipedia lookup. *)
Lemma workflow_fresh_run (term : string) (env : Env) (w : World) :
  terminus w !! lower (strip term) = None ->
  candidate_terminus w !! lower (strip term) = None ->
  db_fault env (length (trace w)) = false ->
  db_fault env (S (length (trace w))) = false ->
  _fetch_validate_and_store_definition term env w =
    try_except (fetch_and_validate (lower (strip term))) (fun _ => ret tt) env
      (log (DbRead candidate_terminus_table (lower (strip term)))
         (log (DbRead terminus_table (lower (strip term))) w)).
Proof.
  unfold _fetch_validate_and_store_definition. cbv zeta.
  pose proof (lower_idem (strip term)) as Hkey.
  set (key := lower (strip term)) in *.
  intros Ht Hc Hf0 Hf1. unfold try_except, bind.
  rewrite terminus_exists_run, Hf0, Hkey, Ht.
  rewrite bool_decide_eq_false_2 by (intros [? ?]; discriminate).
  rewrite candidate_exists_run, length_trace_log, Hf1, Hkey.
  cbn [candidate_terminus log]. rewrite Hc.
  rewrite bool_decide_eq_false_2 by (intros [? ?]; discriminate).
  reflexivity.
Qed.

Local Abbreviation key_of term := (lower (strip term)).

(** C2.  When the normalized term is already in the Term Store or in the
    Candidate Store, the workflow returns after its pre-checks: both tables
    are unchanged, and everything it did is database reads -- no store
    write, no Wikipedia query, no LLM call -- whatever fails on the way. *)
Theorem resolution_short_circuit (term : string) (env : Env) (w : World)
  (Hpresent : is_Some (terminus w !! key_of term)
              \/ is_Some (candidate_terminus w !! key_of term)) :
  fst (_fetch_validate_and_store_definition term env w) = Ok tt /\
  terminus (snd (_fetch_validate_and_store_definition term env w)) = terminus w /\
  candidate_terminus (snd (_fetch_validate_and_store_definition term env w))
    = candidate_terminus w /\
  exists reads,
    trace (snd (_fetch_validate_and_store_definition term env w)) = trace w ++ reads /\
    only_reads reads = true.
Proof.
  unfold _fetch_validate_and_store_definition. cbv zeta.
  pose proof (lower_idem (strip term)) as Hkey.
  set (key := lower (strip term)) in *.
  unfold try_except, bind. rewrite terminus_exists_run, Hkey.
  destruct (db_fault env (length (trace w))).
  { repeat split; try reflexivity. eexists [_]. split; reflexivity. }
  destruct (terminus w !! key) as [row|] eqn:Ht.
  { rewrite bool_decide_eq_true_2 by eauto.
    repeat split; try reflexivity. eexists [_]. split; reflexivity. }
  rewrite bool_decide_eq_false_2 by (intros [? ?]; discriminate).
  destruct Hpresent as [[? ?]|Hc]; [discriminate|].
  rewrite candidate_exists_run, Hkey. cbn [candidate_terminus log].
  destruct (db_fault env _).
  { repeat split; try reflexivity. eexists [_; _]. unfold ret. cbn [trace log snd].
    split; [now rewrite <- app_assoc | reflexivity]. }
  rewrite bool_decide_eq_true_2 by exact Hc.
  repeat split; try reflexivity. eexists [_; _]. unfold ret. cbn [trace log snd].
  split; [now rewrite <- app_assoc | reflexivity].
Qed.

(** The run up to the verdict, when the term is new, no database statement
    fails and Wikipedia has a usable summary. *)
Lemma workflow_to_validation_run (term summary : string) (env : Env) (w : World) :
  (forall n, db_fault env n = false) ->
  falsy (key_of term) = false ->
  terminus w !! key_of term = None ->
  candidate_terminus w !! key_of term = None ->
  wikipedia_lookup env (2 + length (trace w)) (key_of term) = Ok (Some summary) ->
  usable_summary summary = true ->
  _fetch_validate_and_store_definition term env w =
    try_except (validate_and_store (key_of term) summary) (fun _ => ret tt) env
      (log (WikipediaCall (key_of term))
         (log (DbRead candidate_terminus_table (key_of term))
            (log (DbRead terminus_table (key_of term)) w))).
Proof.
  intros Hok Hkey Ht Hc Hwiki Huse.
  rewrite workflow_fresh_run by auto.
  unfold try_except.
  rewrite (fetch_and_validate_run (key_of term) summary);
    rewrite ?strip_normalized, ?length_trace_log; auto.
Qed.

Lemma usable_summary_nonempty (s : string) : usable_summary s = true -> falsy s = false.
Proof.
  unfold usable_summary. intros H.
  repeat (apply andb_prop in H as [H _]). now apply negb_true_iff in H.
Qed.

(** C6, as the code has it.  When the LLM validation call fails with a
    connection error, [validate_definition] returns [None]; the workflow
    then stores the candidate with the status "validation_failed: LLM
    returned no result" and stops, without any Term Store write. *)
Theorem validation_transport_failure_recorded
  (term summary msg : string) (env : Env) (w : World)
  (Hok : forall n, db_fault env n = false)
  (Hkey : falsy (key_of term) = false)
  (Ht : terminus w !! key_of term = None)
  (Hc : candidate_terminus w !! key_of term = None)
  (Hwiki : wikipedia_lookup env (2 + length (trace w)) (key_of term) = Ok (Some summary))
  (Huse : usable_summary summary = true)
  (Hllm : llm_validation env (3 + length (trace w)) (key_of term) summary
          = Raise (APIConnectionError msg)) :
  fst (DefinitionValidationService.validate_definition (key_of term) summary env
         (log (WikipediaCall (key_of term))
            (log (DbRead candidate_terminus_table (key_of term))
               (log (DbRead terminus_table (key_of term)) w))))
    = Ok None /\
  fst (_fetch_validate_and_store_definition term env w) = Ok tt /\
  candidate_terminus (snd (_fetch_validate_and_store_definition term env w))
    = <[key_of term := mkCandidateRow summary (Some (json_dumps []))
                         "validation_failed: LLM returned no result"]>
        (candidate_terminus w) /\
  terminus (snd (_fetch_validate_and_store_definition term env w)) = terminus w /\
  trace (snd (_fetch_validate_and_store_definition term env w))
    = trace w ++ [DbRead terminus_table (key_of term);
                  DbRead candidate_terminus_table (key_of term);
                  WikipediaCall (key_of term);
                  LLMCall Validation (key_of term);
                  DbWrite candidate_terminus_table (key_of term)].
Proof.
  pose proof (usable_summary_nonempty summary Huse) as Hne.
  pose proof Hllm as Hllm'. cbn [Nat.add] in Hllm'.
  split.
  { rewrite validate_definition_run by assumption.
    rewrite !length_trace_log. cbn [fst]. now rewrite Hllm'. }
  rewrite (workflow_to_validation_run term summary) by assumption.
  unfold try_except. rewrite validate_and_store_run by assumption.
  rewrite !length_trace_log, Hllm'.
  rewrite candidate_save_run, Hok, lower_idem.
  cbn [fst snd candidate_terminus terminus set_candidate log trace].
  repeat split; try reflexivity. now rewrite <- !app_assoc.
Qed.

(** The run for a valid verdict: the official row carries the follow-ups
    of the follow-up call exactly as they came. *)
Lemma workflow_valid_run (term summary : string) (vr : DefinitionValidationResult)
  (env : Env) (w : World) :
  (forall n, db_fault env n = false) ->
  falsy (key_of term) = false ->
  terminus w !! key_of term = None ->
  candidate_terminus w !! key_of term = None ->
  wikipedia_lookup env (2 + length (trace w)) (key_of term) = Ok (Some summary) ->
  usable_summary summary = true ->
  llm_validation env (3 + length (trace w)) (key_of term) summary = Ok (Some vr) ->
  is_valid vr = true ->
  fst (_fetch_validate_and_store_definition term env w) = Ok tt /\
  terminus (snd (_fetch_validate_and_store_definition term env w))
    = <[key_of term :=
          mkterminusRow summary
            (Some (json_dumps
                     (follow_ups_of
                        (llm_followups env (4 + length (trace w)) (key_of term)
                           summary))))]>
        (terminus w) /\
  candidate_terminus (snd (_fetch_validate_and_store_definition term env w))
    = candidate_terminus w /\
  trace (snd (_fetch_validate_and_store_definition term env w))
    = trace w ++ [DbRead terminus_table (key_of term);
                  DbRead candidate_terminus_table (key_of term);
                  WikipediaCall (key_of term);
                  LLMCall Validation (key_of term);
                  LLMCall Followups (key_of term);
                  DbWrite terminus_table (key_of term)].
Proof.
  intros Hok Hkey Ht Hc Hwiki Huse Hllm Hvalid.
  pose proof (usable_summary_nonempty summary Huse) as Hne.
  pose proof Hllm as Hllm'. cbn [Nat.add] in Hllm'.
  rewrite (workflow_to_validation_run term summary) by assumption.
  unfold try_except. rewrite validate_and_store_run by assumption.
  rewrite !length_trace_log, Hllm'.
  rewrite store_validated_valid_run by assumption. cbv zeta.
  rewrite !length_trace_log, Hok, lower_idem.
  cbn [fst snd candidate_terminus terminus set_terminus log trace].
  repeat split; try reflexivity. now rewrite <- !app_assoc.
Qed.

Lemma enrichment_failed_no_follow_ups (r : result (option terminusAnswer)) :
  enrichment_failed r = true -> follow_ups_of r = [].
Proof.
  destruct r as [[a|]|e]; simpl; try reflexivity.
  destruct (ta_follow_ups a); [reflexivity | discriminate].
Qed.

(** C7.  When the definition passed the LLM validation, a failed follow-up
    generation (its call raised, returned [None], or returned no follow-up)
    still ends in a Term Store write of the term with the validated
    definition and the empty follow-up list; the Candidate Store is not
    touched. *)
Theorem enrichment_failure_keeps_definition
  (term summary : string) (vr : DefinitionValidationResult) (env : Env) (w : World)
  (Hok : forall n, db_fault env n = false)
  (Hkey : falsy (key_of term) = false)
  (Ht : terminus w !! key_of term = None)
  (Hc : candidate_terminus w !! key_of term = None)
  (Hwiki : wikipedia_lookup env (2 + length (trace w)) (key_of term) = Ok (Some summary))
  (Huse : usable_summary summary = true)
  (Hllm : llm_validation env (3 + length (trace w)) (key_of term) summary
          = Ok (Some vr))
  (Hvalid : is_valid vr = true)
  (Hfail : enrichment_failed
             (llm_followups env (4 + length (trace w)) (key_of term) summary) = true) :
  fst (_fetch_validate_and_store_definition term env w) = Ok tt /\
  terminus (snd (_fetch_validate_and_store_definition term env w))
    = <[key_of term := mkterminusRow summary (Some (json_dumps []))]> (terminus w) /\
  candidate_terminus (snd (_fetch_validate_and_store_definition term env w))
    = candidate_terminus w /\
  fst (terminusService.get_as_pydantic (key_of term) env
         (snd (_fetch_validate_and_store_definition term env w)))
    = Ok (Some (mkterminusAnswer (key_of term) summary [])).
Proof.
  destruct (workflow_valid_run term summary vr env w) as (Hr & Hterm & Hcand & _);
    try assumption.
  rewrite (enrichment_failed_no_follow_ups _ Hfail) in Hterm.
  repeat split; try assumption.
  rewrite terminus_get_as_pydantic_run by apply Hok.
  rewrite lower_idem, Hterm. cbn [fst].
  rewrite (lookup_insert_eq (terminus w) (key_of term)).
  cbn [tr_follow_ups tr_definition].
  destruct (deserialize_dumps []) as [Hd _]. now rewrite Hd.
Qed.

End Workflow.

Lemma resolution_short_circuit_witness :
  is_Some (terminus Scenario.w_official !! lower (strip " GDP ")) /\
  fst (_fetch_validate_and_store_definition " GDP " Scenario.env_four_follow_ups
         Scenario.w_official) = Ok tt /\
  terminus (snd (_fetch_validate_and_store_definition " GDP "
                   Scenario.env_four_follow_ups Scenario.w_official))
    = terminus Scenario.w_official.
Proof.
  assert (Hpresent : is_Some (terminus Scenario.w_official !! lower (strip " GDP ")))
    by (eexists; reflexivity).
  split; [exact Hpresent|].
  destruct (resolution_short_circuit " GDP " Scenario.env_four_follow_ups
              Scenario.w_official (or_introl Hpresent)) as (Hr & Hterm & _).
  split; assumption.
Defined.

Lemma validation_transport_failure_recorded_witness :
  llm_validation Scenario.env_validation_down 3 "gdp" Scenario.gdp_text
    = Raise (APIConnectionError "connection refused") /\
  candidate_terminus
    (snd (_fetch_validate_and_store_definition " GDP " Scenario.env_validation_down
            Scenario.empty_world))
    = <["gdp" := mkCandidateRow Scenario.gdp_text (Some "[]")
                   "validation_failed: LLM returned no result"]> ∅.
Proof.
  split; [reflexivity|].
  destruct (validation_transport_failure_recorded " GDP " Scenario.gdp_text
              "connection refused" Scenario.env_validation_down Scenario.empty_world)
    as (_ & _ & Hcandidate & _);
    [intros n; reflexivity | reflexivity | reflexivity | reflexivity
    | reflexivity | vm_compute; reflexivity | reflexivity | exact Hcandidate].
Defined.

(** C6 as stated fails: with the LLM unreachable for the validation of
    "gdp", the stored status is "validation_failed: LLM returned no
    result", which does not begin with "validation_error:". *)
Lemma validation_transport_failure_status :
  llm_validation Scenario.env_validation_down 3 "gdp" Scenario.gdp_text
    = Raise (APIConnectionError "connection refused") /\
  exists row,
    candidate_terminus
      (snd (_fetch_validate_and_store_definition "gdp" Scenario.env_validation_down
              Scenario.empty_world)) !! "gdp" = Some row /\
    cr_status row = "validation_failed: LLM returned no result" /\
    startswith (cr_status row) "validation_error:" = false.
Proof.
  split; [reflexivity|].
  eexists. split; [vm_compute; reflexivity|]. split; reflexivity.
Qed.

Lemma enrichment_failure_keeps_definition_witness :
  enrichment_failed (llm_followups Scenario.env_followups_down 4 "gdp" Scenario.gdp_text)
    = true /\
  terminus
    (snd (_fetch_validate_and_store_definition " GDP " Scenario.env_followups_down
            Scenario.empty_world))
    = <["gdp" := mkterminusRow Scenario.gdp_text (Some "[]")]> ∅.
Proof.
  split; [reflexivity|].
  destruct (enrichment_failure_keeps_definition " GDP " Scenario.gdp_text
              Scenario.verdict_valid Scenario.env_followups_down Scenario.empty_world)
    as (_ & Hofficial & _);
    [intros n; reflexivity | reflexivity | reflexivity | reflexivity
    | reflexivity | vm_compute; reflexivity | reflexivity | reflexivity | reflexivity
    | exact Hofficial].
Defined.

(** ** The follow-up cap on the synchronous write paths *)

Section Triples.
Context {A B : Type} (I : World -> Prop).

Lemma triple_ret (a : A) (Q : A -> Prop) : Q a -> triple I (ret a) Q.
Proof. intros HQ env w HI. split; assumption. Qed.

Lemma triple_raise (e : exn) (Q : A -> Prop) : triple I (raise e) Q.
Proof. intros env w HI. split; [assumption | exact Logic.I]. Qed.

Lemma triple_bind (m : M A) (k : A -> M B) (Q1 : A -> Prop) (Q2 : B -> Prop) :
  triple I m Q1 -> (forall a, Q1 a -> triple I (k a) Q2) -> triple I (bind m k) Q2.
Proof.
  intros Hm Hk env w HI. unfold bind.
  destruct (Hm env w HI) as [HI' HQ].
  destruct (m env w) as [[a|e] w']; simpl in *.
  - apply (Hk a HQ env w' HI').
  - split; [assumption | exact Logic.I].
Qed.

Lemma triple_try_except (m : M A) (h : exn -> M A) (Q : A -> Prop) :
  triple I m Q -> (forall e, triple I (h e) Q) -> triple I (try_except m h) Q.
Proof.
  intros Hm Hh env w HI. unfold try_except.
  destruct (Hm env w HI) as [HI' HQ].
  destruct (m env w) as [[a|e] w']; simpl in *.
  - split; assumption.
  - apply (Hh e env w' HI').
Qed.

Lemma triple_weaken (m : M A) (Q Q' : A -> Prop) :
  (forall a, Q a -> Q' a) -> triple I m Q -> triple I m Q'.
Proof.
  intros HQQ Hm env w HI. destruct (Hm env w HI) as [HI' HQ].
  split; [assumption|]. destruct (fst (m env w)); [now apply HQQ | exact Logic.I].
Qed.

Lemma triple_after_failed_statement (m : M A) (Q : A -> Prop) :
  triple I m Q -> triple I (after_failed_statement m) Q.
Proof.
  intros Hm env w HI. unfold after_failed_statement.
  destruct (needs_rollback env (length (trace w) - 1)); [|now apply Hm].
  split; [assumption | exact Logic.I].
Qed.

Lemma triple_effect (ev : Event) (answer : Env -> nat -> result A) :
  (forall ev w, I w -> I (log ev w)) -> triple I (effect ev answer) anything.
Proof.
  intros Hlog env w HI. unfold effect. simpl. split; [now apply Hlog|].
  destruct (answer env (length (trace w))); exact Logic.I.
Qed.

End Triples.

Section Cap.
Context {codec : JsonCodec} {pystr : PyStr}.

Lemma capped_log (ev : Event) (w : World) :
  follow_ups_capped w -> follow_ups_capped (log ev w).
Proof. intros H. exact H. Qed.

Lemma deserialize_dumps_inv (fus fus' : list FollowUp) :
  CandidateterminusService._deserialize_follow_ups (Some (json_dumps fus)) = Ok fus' ->
  fus' = fus.
Proof.
  destruct (deserialize_dumps fus) as [_ H]. rewrite H. now intros [= ->].
Qed.

Abbreviation quiet m := (triple follow_ups_capped m anything).

Lemma quiet_effect {A} (ev : Event) (answer : Env -> nat -> result A) :
  quiet (effect ev answer).
Proof. apply triple_effect. exact capped_log. Qed.

Lemma quiet_db_stmt (ev : Event) : quiet (db_stmt ev).
Proof. apply quiet_effect. Qed.

Lemma quiet_ret {A} (a : A) : quiet (ret a).
Proof. now apply triple_ret. Qed.

Lemma quiet_bind {A B} (m : M A) (k : A -> M B) :
  quiet m -> (forall a, quiet (k a)) -> quiet (bind m k).
Proof. intros Hm Hk. apply (triple_bind _ m k anything); auto. Qed.

Lemma quiet_of_triple {A} (m : M A) (Q : A -> Prop) :
  triple follow_ups_capped m Q -> quiet m.
Proof. apply triple_weaken. intros; exact Logic.I. Qed.

Lemma quiet_get_world : quiet get_world.
Proof. intros env w HI. split; [assumption | exact Logic.I]. Qed.

Lemma quiet_terminus_get (t : string) : quiet (terminusService.get t).
Proof.
  unfold terminusService.get, terminusService.query_first.
  apply quiet_bind; [apply quiet_db_stmt|]. intros _.
  apply quiet_bind; [apply quiet_get_world|]. intros w. apply quiet_ret.
Qed.

Lemma quiet_candidate_get (t : string) : quiet (CandidateterminusService.get t).
Proof.
  unfold CandidateterminusService.get, CandidateterminusService.query_first.
  apply quiet_bind; [apply quiet_db_stmt|]. intros _.
  apply quiet_bind; [apply quiet_get_world|]. intros w. apply quiet_ret.
Qed.

Lemma quiet_candidate_get_as_pydantic (t : string) :
  quiet (CandidateterminusService.get_as_pydantic t).
Proof.
  unfold CandidateterminusService.get_as_pydantic.
  apply quiet_bind; [apply (quiet_candidate_get t)|].
  intros [db_obj|]; [|apply quiet_ret].
  destruct (CandidateterminusService._deserialize_follow_ups (ce_follow_ups db_obj));
    [apply quiet_ret | apply triple_raise].
Qed.

Lemma quiet_wikipedia_query (t : string) : quiet (WikipediaService.query t).
Proof.
  unfold WikipediaService.query. cbv zeta.
  destruct (falsy (strip t)); [apply quiet_ret|].
  apply triple_try_except; [|intros e; apply quiet_ret].
  apply quiet_bind; [apply quiet_effect|].
  intros [summary|]; [destruct (falsy summary)|]; apply quiet_ret.
Qed.

Lemma quiet_generate_response {A} (create : M (option A)) :
  quiet create -> quiet (BaseLLMService.generate_response create).
Proof.
  intros H. unfold BaseLLMService.generate_response.
  apply triple_try_except; [exact H|].
  intros []; apply triple_raise.
Qed.

Lemma quiet_critique_term (t : string) : quiet (TermExtractionService._critique_term t).
Proof.
  unfold TermExtractionService._critique_term.
  apply triple_try_except; [|intros e; apply quiet_ret].
  apply quiet_bind; [apply quiet_effect|].
  intros [c|]; [apply quiet_ret | apply triple_raise].
Qed.

Lemma quiet_critique_loop (l : list string) : forall validated,
  quiet (TermExtractionService.critique_loop l validated).
Proof.
  induction l as [|t l IH]; intros validated; cbn [TermExtractionService.critique_loop].
  - apply quiet_ret.
  - apply quiet_bind; [apply quiet_critique_term|]. intros keep. apply IH.
Qed.

Lemma quiet_validate_terms (text : string) :
  quiet (TermExtractionService.validate_terms text).
Proof.
  unfold TermExtractionService.validate_terms.
  apply quiet_bind; [apply quiet_generate_response, quiet_effect|].
  intros [r|]; [apply quiet_critique_loop | apply quiet_ret].
Qed.

(** Saving at most three follow-ups keeps the cap. *)
Lemma quiet_candidate_save (t d st : string) (fus : list FollowUp) :
  length fus <= 3 -> quiet (CandidateterminusService.save t d fus st).
Proof.
  intros Hlen env w [Ht Hc]. rewrite candidate_save_run.
  destruct (db_fault env (length (trace w))); (split; [|exact Logic.I]).
  - split; assumption.
  - split; [exact Ht|]. intros k row fus' Hk Hd.
    cbn [snd candidate_terminus set_candidate] in Hk.
    destruct (decide (k = lower t)) as [->|Hne].
    + rewrite (lookup_insert_eq (candidate_terminus w) (lower t)) in Hk.
      injection Hk as <-. cbn [cr_follow_ups] in Hd.
      apply deserialize_dumps_inv in Hd. now subst.
    + rewrite (lookup_insert_ne (candidate_terminus w)) in Hk by congruence.
      eapply Hc; eassumption.
Qed.

(** The loop of [create_candidate] adds at most one follow-up per sub-term. *)
Lemma candidate_follow_ups_triple (l : list string) : forall acc,
  triple follow_ups_capped (candidate_follow_ups l acc)
    (fun fus => length fus <= length acc + length l).
Proof.
  induction l as [|t l IH]; intros acc; cbn [candidate_follow_ups].
  - apply triple_ret. simpl. lia.
  - apply (triple_bind _ _ _ anything); [apply quiet_terminus_get|]. intros official _.
    apply (triple_bind _ _ _ anything).
    + destruct official as [sub_entry|]; [apply quiet_ret|].
      apply quiet_bind; [apply quiet_candidate_get|].
      intros [sub_entry|]; [apply quiet_ret|].
      apply triple_try_except; [|intros e; apply quiet_ret].
      apply quiet_bind; [apply quiet_wikipedia_query|]. intros d. apply quiet_ret.
    + intros [sub_def|] _.
      * eapply triple_weaken; [|apply IH]. intros fus. rewrite length_app. simpl. lia.
      * eapply triple_weaken; [|apply IH]. intros fus. simpl. lia.
Qed.

(** POST /candidates keeps the cap: what it saves has at most 3 follow-ups. *)
Lemma create_candidate_keeps_cap (entry : terminusEntryCreate) (env : Env) (w : World) :
  follow_ups_capped w -> follow_ups_capped (snd (create_candidate entry env w)).
Proof.
  intros HI. cut (quiet (create_candidate entry)).
  { intros Hq. exact (proj1 (Hq env w HI)). }
  unfold create_candidate.
  apply quiet_bind; [apply quiet_terminus_get|]. intros official.
  destruct (bool_decide (is_Some official)); [apply triple_raise|].
  apply quiet_bind; [apply quiet_candidate_get|]. intros candidate.
  destruct (bool_decide (is_Some candidate)); [apply triple_raise|].
  apply quiet_bind.
  { destruct (falsy (ec_definition entry));
      [apply quiet_wikipedia_query | apply quiet_ret]. }
  intros definition.
  apply quiet_bind; [apply quiet_validate_terms|]. intros sub_terms.
  eapply triple_bind; [apply candidate_follow_ups_triple|].
  intros follow_ups Hlen. cbn beta in Hlen.
  assert (length follow_ups <= 3).
  { rewrite length_take in Hlen. cbn [length Nat.add] in Hlen. lia. }
  apply quiet_bind; [now apply quiet_candidate_save|]. intros _.
  apply quiet_candidate_get_as_pydantic.
Qed.

(** The loop of [precompute_terms] adds at most one follow-up per sub-term. *)
Lemma precompute_follow_ups_triple (term : string) (l : list string) : forall acc,
  triple follow_ups_capped (precompute_follow_ups term l acc)
    (fun fus => length fus <= length acc + length l).
Proof.
  induction l as [|t l IH]; intros acc; cbn [precompute_follow_ups].
  - apply triple_ret. simpl. lia.
  - destruct (String.eqb (lower t) (lower term)).
    + eapply triple_weaken; [|apply IH]. intros fus. simpl. lia.
    + apply (triple_bind _ _ _ anything); [apply quiet_wikipedia_query|].
      intros sub_def _.
      eapply triple_weaken; [|apply IH]. intros fus. rewrite length_app. simpl. lia.
Qed.

Lemma quiet_precompute_loop (l : list string) : forall added,
  quiet (precompute_loop l added).
Proof.
  induction l as [|term l IH]; intros added; cbn [precompute_loop].
  - apply quiet_ret.
  - apply quiet_bind; [apply quiet_terminus_get|]. intros official.
    apply quiet_bind.
    { destruct (bool_decide (is_Some official)); [apply quiet_ret|].
      apply quiet_bind; [apply quiet_candidate_get|]. intros c. apply quiet_ret. }
    intros [|]; [apply IH|].
    apply quiet_bind; [apply quiet_wikipedia_query|]. intros definition.
    apply quiet_bind; [apply quiet_validate_terms|]. intros related_terms.
    eapply triple_bind; [apply precompute_follow_ups_triple|].
    intros follow_ups Hlen. cbn beta in Hlen.
    assert (length follow_ups <= 3).
    { rewrite length_take in Hlen. cbn [length Nat.add] in Hlen. lia. }
    apply quiet_bind; [now apply quiet_candidate_save|]. intros _. apply IH.
Qed.

(** POST /terms/precompute keeps the cap as well. *)
Lemma precompute_terms_keeps_cap (text : string) (env : Env) (w : World) :
  follow_ups_capped w -> follow_ups_capped (snd (precompute_terms text env w)).
Proof.
  intros HI. cut (quiet (precompute_terms text)).
  { intros Hq. exact (proj1 (Hq env w HI)). }
  unfold precompute_terms.
  apply quiet_bind; [apply quiet_validate_terms|]. intros validated_terms.
  apply quiet_precompute_loop.
Qed.

End Cap.

(** C4 fails on the background task.  Both stores are empty, so the cap
    holds.  The LLM answers the follow-up call for "gdp" with four
    follow-ups; the task saves all four to the Term Store, reading the
    entry back returns four follow-ups, and the cap no longer holds. *)
Theorem workflow_persists_four_follow_ups :
  follow_ups_capped Scenario.empty_world /\
  length Scenario.four_follow_ups = 4 /\
  fst (terminusService.get_as_pydantic "gdp" Scenario.env_four_follow_ups
         (snd (_fetch_validate_and_store_definition "gdp" Scenario.env_four_follow_ups
                 Scenario.empty_world)))
    = Ok (Some (mkterminusAnswer "gdp" Scenario.gdp_text Scenario.four_follow_ups)) /\
  ~ follow_ups_capped
      (snd (_fetch_validate_and_store_definition "gdp" Scenario.env_four_follow_ups
              Scenario.empty_world)).
Proof.
  split.
  { split; intros k row fus Hk; cbn in Hk; rewrite lookup_empty in Hk; discriminate. }
  split; [reflexivity|].
  split; [vm_compute; reflexivity|].
  intros [Hofficial _].
  assert (Hlen : length Scenario.four_follow_ups <= 3).
  { apply (Hofficial "gdp"
             (mkterminusRow Scenario.gdp_text
                (Some (MiniJson.dumps Scenario.four_follow_ups))));
      vm_compute; reflexivity. }
  simpl in Hlen. lia.
Qed.

(** * Further properties of the stores and the endpoints *)

(** ** Laws of the two stores *)

Section StoreLaws.
Context {codec : JsonCodec} {pystr : PyStr}.

(** What [save] stored is what [get_as_pydantic] returns, in both stores
    and for any spelling of the term that differs in letter case only: the
    key lower-cased, the definition, the follow-ups in their order (and the
    status). *)
Theorem save_then_read_back
  (t t' d st : string) (fus : list FollowUp) (env : Env) (w : World)
  (Hcase : lower t' = lower t)
  (H0 : db_fault env (length (trace w)) = false)
  (H1 : db_fault env (S (length (trace w))) = false) :
  fst ((terminusService.save t d fus ;; terminusService.get_as_pydantic t') env w)
    = Ok (Some (mkterminusAnswer (lower t) d fus)) /\
  fst ((CandidateterminusService.save t d fus st ;;
        CandidateterminusService.get_as_pydantic t') env w)
    = Ok (Some (mkCandidateterminusAnswer (lower t) d fus st)).
Proof.
  destruct (deserialize_dumps fus) as [HdT HdC].
  split; unfold bind.
  - rewrite terminus_save_run, H0.
    rewrite terminus_get_as_pydantic_run
      by (cbn [trace set_terminus]; now rewrite length_trace_log).
    rewrite Hcase. cbn [fst terminus set_terminus].
    rewrite (lookup_insert_eq (terminus w) (lower t)).
    cbn [tr_follow_ups tr_definition]. now rewrite HdT.
  - rewrite candidate_save_run, H0.
    rewrite candidate_get_as_pydantic_run
      by (cbn [trace set_candidate]; now rewrite length_trace_log).
    rewrite Hcase. cbn [fst candidate_terminus set_candidate].
    rewrite (lookup_insert_eq (candidate_terminus w) (lower t)).
    cbn [cr_follow_ups cr_definition cr_status]. now rewrite HdC.
Qed.

(** [save] is an upsert that replaces the whole entry: after two saves
    under the same key the table is the original one with the second
    entry put under the key; nothing of the first save is left, the
    candidate's status included. *)
Theorem save_replaces_whole_entry
  (t t' d1 d2 st1 st2 : string) (fus1 fus2 : list FollowUp) (env : Env) (w : World)
  (Hcase : lower t' = lower t)
  (H0 : db_fault env (length (trace w)) = false)
  (H1 : db_fault env (S (length (trace w))) = false) :
  terminus (snd ((terminusService.save t d1 fus1 ;;
                  terminusService.save t' d2 fus2) env w))
    = <[lower t := mkterminusRow d2 (Some (json_dumps fus2))]> (terminus w) /\
  candidate_terminus
    (snd ((CandidateterminusService.save t d1 fus1 st1 ;;
           CandidateterminusService.save t' d2 fus2 st2) env w))
    = <[lower t := mkCandidateRow d2 (Some (json_dumps fus2)) st2]>
        (candidate_terminus w).
Proof.
  split; unfold bind.
  - rewrite terminus_save_run, H0, terminus_save_run.
    cbn [trace set_terminus]. rewrite length_trace_log, H1, Hcase.
    cbn [snd terminus set_terminus log]. apply insert_insert_eq.
  - rewrite candidate_save_run, H0, candidate_save_run.
    cbn [trace set_candidate]. rewrite length_trace_log, H1, Hcase.
    cbn [snd candidate_terminus set_candidate log]. apply insert_insert_eq.
Qed.

(** [reject] on a stored candidate changes its status to "rejected: "
    followed by the reason and keeps its definition and follow-ups; on a
    term that is no candidate it does nothing and issues no write. *)
Theorem reject_changes_status_only
  (t reason : string) (env : Env) (w : World)
  (H0 : db_fault env (length (trace w)) = false)
  (H1 : db_fault env (S (length (trace w))) = false) :
  (candidate_terminus w !! lower t = None ->
   CandidateterminusService.reject t reason env w
     = (Ok tt, log (DbRead candidate_terminus_table (lower t)) w)) /\
  (forall row,
     candidate_terminus w !! lower t = Some row ->
     fst (CandidateterminusService.reject t reason env w) = Ok tt /\
     candidate_terminus (snd (CandidateterminusService.reject t reason env w))
       = <[lower t := mkCandidateRow (cr_definition row) (cr_follow_ups row)
                        ("rejected: " +:+ reason)]> (candidate_terminus w) /\
     terminus (snd (CandidateterminusService.reject t reason env w)) = terminus w).
Proof.
  rewrite candidate_reject_run. cbv zeta. rewrite H0, H1.
  split.
  - intros ->. reflexivity.
  - intros row ->. repeat split; reflexivity.
Qed.

(** A stored candidate whose follow-ups column is neither empty nor
    decodable: the raw [get] still returns the row, [get_as_pydantic]
    raises, and an approval raises after its first read, before any
    write. *)
Theorem malformed_follow_ups_raise
  (t d st s reason : string) (env : Env) (w : World)
  (Hs : falsy s = false)
  (Hbad : json_loads s = None)
  (H0 : db_fault env (length (trace w)) = false)
  (Hc : candidate_terminus w !! lower t = Some (mkCandidateRow d (Some s) st)) :
  fst (CandidateterminusService.get t env w)
    = Ok (Some (mkCandidateterminusEntry (lower t) d (Some s) st)) /\
  (exists e, fst (CandidateterminusService.get_as_pydantic t env w) = Raise e) /\
  (exists e,
     validate_candidate (mkCandidateValidation t true reason) env w
       = (Raise e, log (DbRead candidate_terminus_table (lower t)) w)).
Proof.
  assert (Hd : CandidateterminusService._deserialize_follow_ups (Some s)
               = Raise (ValueError "malformed follow_ups")).
  { unfold CandidateterminusService._deserialize_follow_ups. now rewrite Hs, Hbad. }
  split.
  { unfold CandidateterminusService.get. rewrite candidate_query_first_run, H0.
    unfold CandidateterminusService.candidate_entry_at. now rewrite Hc. }
  split.
  { eexists. rewrite candidate_get_as_pydantic_run by assumption.
    rewrite Hc. cbn [fst cr_follow_ups]. now rewrite Hd. }
  eexists. rewrite (validate_candidate_approve_run t reason env w _ Hc). cbv zeta.
  rewrite H0. cbn [cr_follow_ups]. rewrite Hd. reflexivity.
Qed.

End StoreLaws.

(** ** The endpoints over the stores *)

Section Endpoints.
Context {codec : JsonCodec} {pystr : PyStr}.

(** DELETE /definition/{term} and DELETE /candidates/{term}: 404 without
    any write when the term is not in the endpoint's own store; otherwise
    204, the entry is gone from that store, and the other store is left as
    it was, an entry under the same term included. *)
Theorem delete_endpoints_outcomes (t : string) (env : Env) (w : World)
  (Hok : forall n, db_fault env n = false) :
  (terminus w !! lower t = None ->
   delete_definition t env w
     = (Raise (HTTPException 404 "Term not found"),
        log (DbRead terminus_table (lower t)) w)) /\
  (is_Some (terminus w !! lower t) ->
   fst (delete_definition t env w) = Ok 204 /\
   terminus (snd (delete_definition t env w)) = base.delete (lower t) (terminus w) /\
   candidate_terminus (snd (delete_definition t env w)) = candidate_terminus w) /\
  (candidate_terminus w !! lower t = None ->
   delete_candidate t env w
     = (Raise (HTTPException 404 "Candidate not found"),
        log (DbRead candidate_terminus_table (lower t)) w)) /\
  (is_Some (candidate_terminus w !! lower t) ->
   fst (delete_candidate t env w) = Ok 204 /\
   candidate_terminus (snd (delete_candidate t env w))
     = base.delete (lower t) (candidate_terminus w) /\
   terminus (snd (delete_candidate t env w)) = terminus w).
Proof.
  unfold delete_definition, delete_candidate, bind.
  rewrite terminus_delete_run, candidate_delete_run. cbv zeta. rewrite !Hok.
  repeat split.
  - now intros ->.
  - destruct H as [row ->]. reflexivity.
  - destruct H as [row ->]. reflexivity.
  - destruct H as [row ->]. reflexivity.
  - now intros ->.
  - destruct H as [row ->]. reflexivity.
  - destruct H as [row ->]. reflexivity.
  - destruct H as [row ->]. reflexivity.
Qed.

(** POST /candidates/validate for a term that is no candidate: 404 after
    one read, whatever the decision is; nothing is written. *)
Theorem validate_candidate_not_found
  (validation : CandidateValidation) (env : Env) (w : World)
  (H0 : db_fault env (length (trace w)) = false)
  (Habsent : candidate_terminus w !! lower (cv_term validation) = None) :
  validate_candidate validation env w
    = (Raise (HTTPException 404 "Candidate not found"),
       log (DbRead candidate_terminus_table (lower (cv_term validation))) w).
Proof.
  unfold validate_candidate, bind, CandidateterminusService.get.
  rewrite candidate_query_first_run, H0.
  unfold CandidateterminusService.candidate_entry_at. now rewrite Habsent.
Qed.

(** POST /candidates/validate with approve=false: the caller gets 400, the
    candidate stays with its definition and follow-ups and the status
    "rejected: Disapproved by user" -- the reason sent by the caller is not
    used -- and the Term Store is untouched. *)
Theorem validate_candidate_rejection
  (T reason : string) (row : CandidateRow) (env : Env) (w : World)
  (Hok : forall n, db_fault env n = false)
  (Hcand : candidate_terminus w !! lower T = Some row) :
  fst (validate_candidate (mkCandidateValidation T false reason) env w)
    = Raise (HTTPException 400 "Candidate rejected") /\
  candidate_terminus (snd (validate_candidate (mkCandidateValidation T false reason) env w))
    = <[lower T := mkCandidateRow (cr_definition row) (cr_follow_ups row)
                     "rejected: Disapproved by user"]> (candidate_terminus w) /\
  terminus (snd (validate_candidate (mkCandidateValidation T false reason) env w))
    = terminus w.
Proof.
  assert (Hrun :
    validate_candidate (mkCandidateValidation T false reason) env w
      = (Raise (HTTPException 400 "Candidate rejected"),
         set_candidate
           (<[lower T := mkCandidateRow (cr_definition row) (cr_follow_ups row)
                           "rejected: Disapproved by user"]> (candidate_terminus w))
           (log (DbWrite candidate_terminus_table (lower T))
              (log (DbRead candidate_terminus_table (lower T))
                 (log (DbRead candidate_terminus_table (lower T)) w))))).
  { unfold validate_candidate. cbn [cv_term cv_approve]. unfold bind at 1.
    unfold CandidateterminusService.get. rewrite candidate_query_first_run, Hok.
    unfold CandidateterminusService.candidate_entry_at. rewrite Hcand. cbn [negb].
    unfold bind. rewrite candidate_reject_run. cbv zeta. rewrite !Hok.
    cbn [candidate_terminus log]. rewrite Hcand. reflexivity. }
  rewrite Hrun. repeat split; reflexivity.
Qed.

(** POST /candidates for a term that is already official, or already a
    candidate: 409 after the one or two reads that find it; no write and
    no call to Wikipedia or the LLM. *)
Theorem create_candidate_conflict (entry : terminusEntryCreate) (env : Env) (w : World)
  (H0 : db_fault env (length (trace w)) = false)
  (H1 : db_fault env (S (length (trace w))) = false) :
  (is_Some (terminus w !! lower (ec_term entry)) ->
   create_candidate entry env w
     = (Raise (HTTPException 409 "Term already in official terminus"),
        log (DbRead terminus_table (lower (ec_term entry))) w)) /\
  (terminus w !! lower (ec_term entry) = None ->
   is_Some (candidate_terminus w !! lower (ec_term entry)) ->
   create_candidate entry env w
     = (Raise (HTTPException 409 "Candidate already exists"),
        log (DbRead candidate_terminus_table (lower (ec_term entry)))
          (log (DbRead terminus_table (lower (ec_term entry))) w))).
Proof.
  split.
  - intros [row Hrow]. unfold create_candidate. unfold bind at 1.
    unfold terminusService.get. rewrite terminus_query_first_run, H0.
    unfold terminusService.terminus_entry_at. rewrite Hrow. reflexivity.
  - intros Hnone [row Hrow]. unfold create_candidate. unfold bind at 1.
    unfold terminusService.get. rewrite terminus_query_first_run, H0.
    unfold terminusService.terminus_entry_at. rewrite Hnone.
    rewrite bool_decide_eq_false_2 by (intros [? ?]; discriminate).
    unfold bind at 1. unfold CandidateterminusService.get.
    rewrite candidate_query_first_run, length_trace_log, H1.
    unfold CandidateterminusService.candidate_entry_at.
    cbn [candidate_terminus log]. rewrite Hrow. reflexivity.
Qed.

(** GET /candidates/{term}: the stored candidate with its status, or 404. *)
Theorem get_candidate_outcomes (t : string) (env : Env) (w : World)
  (H0 : db_fault env (length (trace w)) = false) :
  (candidate_terminus w !! lower t = None ->
   fst (get_candidate t env w) = Raise (HTTPException 404 "Candidate not found")) /\
  (forall row fus,
     candidate_terminus w !! lower t = Some row ->
     CandidateterminusService._deserialize_follow_ups (cr_follow_ups row) = Ok fus ->
     fst (get_candidate t env w)
       = Ok (mkCandidateterminusAnswer (lower t) (cr_definition row) fus (cr_status row))).
Proof.
  unfold get_candidate, bind.
  rewrite candidate_get_as_pydantic_run by assumption.
  split.
  - now intros ->.
  - intros row fus -> Hd. now rewrite Hd.
Qed.

Lemma get_definition_run (term : string) (tasks : list string) (env : Env) (w : World) :
  (forall n, db_fault env n = false) ->
  get_definition term tasks env w =
    let key := lower (strip term) in
    let w1 := log (DbRead terminus_table key) w in
    match terminus w !! key with
    | Some row =>
        match terminusService._deserialize_follow_ups (tr_follow_ups row) with
        | Ok fus => (Ok (mkterminusAnswer key (tr_definition row) fus, tasks), w1)
        | Raise e => (Raise e, w1)
        end
    | None =>
        let w2 := log (DbRead candidate_terminus_table key) w1 in
        match candidate_terminus w !! key with
        | Some crow =>
            match CandidateterminusService._deserialize_follow_ups (cr_follow_ups crow) with
            | Ok _ => (Ok (placeholder key, tasks), w2)
            | Raise e => (Raise e, w2)
            end
        | None => (Ok (placeholder key, tasks ++ [key]), w2)
        end
    end.
Proof.
  intros Hok. unfold get_definition. cbv zeta.
  pose proof (lower_idem (strip term)) as Hkey.
  set (key := lower (strip term)) in *.
  unfold bind at 1.
  rewrite terminus_get_as_pydantic_run by apply Hok. rewrite Hkey.
  destruct (terminus w !! key) as [row|].
  - destruct (terminusService._deserialize_follow_ups (tr_follow_ups row)); reflexivity.
  - unfold bind. rewrite candidate_get_as_pydantic_run by apply Hok. rewrite Hkey.
    cbn [candidate_terminus log].
    destruct (candidate_terminus w !! key) as [crow|]; [|reflexivity].
    destruct (CandidateterminusService._deserialize_follow_ups (cr_follow_ups crow));
      reflexivity.
Qed.

(** GET /definition/{term} reads only.  An official entry is returned as
    stored; a candidate of any status gives the placeholder; in both cases
    nothing is queued.  A term in neither store gives the placeholder and
    queues one background task, for the trimmed, lower-cased term. *)
Theorem get_definition_outcomes
  (term : string) (tasks : list string) (env : Env) (w : World)
  (Hok : forall n, db_fault env n = false) :
  (forall row fus,
     terminus w !! lower (strip term) = Some row ->
     terminusService._deserialize_follow_ups (tr_follow_ups row) = Ok fus ->
     fst (get_definition term tasks env w)
       = Ok (mkterminusAnswer (lower (strip term)) (tr_definition row) fus, tasks)) /\
  (forall row fus,
     terminus w !! lower (strip term) = None ->
     candidate_terminus w !! lower (strip term) = Some row ->
     CandidateterminusService._deserialize_follow_ups (cr_follow_ups row) = Ok fus ->
     fst (get_definition term tasks env w)
       = Ok (placeholder (lower (strip term)), tasks)) /\
  (terminus w !! lower (strip term) = None ->
   candidate_terminus w !! lower (strip term) = None ->
   fst (get_definition term tasks env w)
     = Ok (placeholder (lower (strip term)), tasks ++ [lower (strip term)])) /\
  terminus (snd (get_definition term tasks env w)) = terminus w /\
  candidate_terminus (snd (get_definition term tasks env w)) = candidate_terminus w.
Proof.
  rewrite (get_definition_run term tasks env w Hok). cbv zeta.
  split; [|split; [|split]].
  - intros row fus -> Hd. now rewrite Hd.
  - intros row fus -> -> Hd. now rewrite Hd.
  - now intros -> ->.
  - destruct (terminus w !! lower (strip term)) as [row|].
    + destruct (terminusService._deserialize_follow_ups (tr_follow_ups row));
        split; reflexivity.
    + destruct (candidate_terminus w !! lower (strip term)) as [crow|];
        [|split; reflexivity].
      destruct (CandidateterminusService._deserialize_follow_ups (cr_follow_ups crow));
        split; reflexivity.
Qed.

End Endpoints.

(** ** Invariants through the services *)

Section Stable.
Context {codec : JsonCodec} {pystr : PyStr} (I : World -> Prop) (Hlog : log_stable I).

Abbreviation stable m := (triple I m anything).

Lemma stable_effect {A} (ev : Event) (answer : Env -> nat -> result A) :
  stable (effect ev answer).
Proof. apply triple_effect. exact Hlog. Qed.

Lemma stable_ret {A} (a : A) : stable (ret a).
Proof. now apply triple_ret. Qed.

Lemma stable_bind {A B} (m : M A) (k : A -> M B) :
  stable m -> (forall a, stable (k a)) -> stable (bind m k).
Proof. intros Hm Hk. apply (triple_bind _ m k anything); auto. Qed.

Lemma stable_get_world : stable get_world.
Proof. intros env w HI. split; [assumption | exact Logic.I]. Qed.

Lemma stable_attempt {A} (m : M A) : stable m -> stable (attempt m).
Proof.
  intros Hm env w HI. unfold attempt. destruct (Hm env w HI) as [HI' _].
  destruct (m env w) as [r w']. split; [exact HI' | exact Logic.I].
Qed.

(** What [attempt] hands on is a returned value when the computation
    cannot raise. *)
Lemma attempt_never_raises {A} (m : M A) :
  stable m -> never_raises m ->
  triple I (attempt m) (fun r => exists a, r = Ok a).
Proof.
  intros Hm Hnr env w HI. unfold attempt.
  destruct (Hm env w HI) as [HI' _]. destruct (Hnr env w) as [a Ha].
  destruct (m env w) as [r w']. simpl in *. split; [exact HI'|]. now exists a.
Qed.

Lemma stable_terminus_query_first (key : string) :
  stable (terminusService.query_first key).
Proof.
  unfold terminusService.query_first.
  apply stable_bind; [apply stable_effect|]. intros _.
  apply stable_bind; [apply stable_get_world|]. intros w. apply stable_ret.
Qed.

Lemma stable_candidate_query_first (key : string) :
  stable (CandidateterminusService.query_first key).
Proof.
  unfold CandidateterminusService.query_first.
  apply stable_bind; [apply stable_effect|]. intros _.
  apply stable_bind; [apply stable_get_world|]. intros w. apply stable_ret.
Qed.

Lemma stable_terminus_exists (t : string) : stable (terminusService.exists_ t).
Proof.
  unfold terminusService.exists_. cbv zeta.
  apply stable_bind; [apply stable_effect|]. intros _.
  apply stable_bind; [apply stable_get_world|]. intros w. apply stable_ret.
Qed.

Lemma stable_candidate_exists (t : string) :
  stable (CandidateterminusService.exists_ t).
Proof.
  unfold CandidateterminusService.exists_. cbv zeta.
  apply stable_bind; [apply stable_effect|]. intros _.
  apply stable_bind; [apply stable_get_world|]. intros w. apply stable_ret.
Qed.

Lemma stable_wikipedia_query (t : string) : stable (WikipediaService.query t).
Proof.
  unfold WikipediaService.query. cbv zeta.
  destruct (falsy (strip t)); [apply stable_ret|].
  apply triple_try_except; [|intros e; apply stable_ret].
  apply stable_bind; [apply stable_effect|].
  intros [summary|]; [destruct (falsy summary)|]; apply stable_ret.
Qed.

Lemma stable_generate_response {A} (create : M (option A)) :
  stable create -> stable (BaseLLMService.generate_response create).
Proof.
  intros H. unfold BaseLLMService.generate_response.
  apply triple_try_except; [exact H|].
  intros []; apply triple_raise.
Qed.

Lemma stable_validate_definition (term summary : string) :
  stable (DefinitionValidationService.validate_definition term summary).
Proof.
  unfold DefinitionValidationService.validate_definition.
  destruct (falsy term || falsy summary); [apply stable_ret|].
  apply triple_try_except; [|intros []; apply stable_ret].
  apply stable_bind; [apply stable_generate_response, stable_effect|].
  intros [r|]; apply stable_ret.
Qed.

Lemma stable_generate_followups (term definition : string) :
  stable (FUService.generate_followups term definition).
Proof. apply stable_generate_response, stable_effect. Qed.

(** The two [save]s keep an invariant that putting the row keeps. *)
Lemma stable_terminus_save (t d : string) (fus : list FollowUp) :
  (forall w,
     I w ->
     I (set_terminus
          (<[lower t := mkterminusRow d (Some (json_dumps fus))]> (terminus w)) w)) ->
  stable (terminusService.save t d fus).
Proof.
  intros Hput env w HI. rewrite terminus_save_run.
  destruct (db_fault env (length (trace w))); (split; [|exact Logic.I]).
  - now apply Hlog.
  - apply (Hput (log _ w)). now apply Hlog.
Qed.

Lemma stable_candidate_save (t d st : string) (fus : list FollowUp) :
  (forall w,
     I w ->
     I (set_candidate
          (<[lower t := mkCandidateRow d (Some (json_dumps fus)) st]>
             (candidate_terminus w)) w)) ->
  stable (CandidateterminusService.save t d fus st).
Proof.
  intros Hput env w HI. rewrite candidate_save_run.
  destruct (db_fault env (length (trace w))); (split; [|exact Logic.I]).
  - now apply Hlog.
  - apply (Hput (log _ w)). now apply Hlog.
Qed.

End Stable.

(** ** What the background task can and cannot do *)

Section WorkflowLaws.
Context {codec : JsonCodec} {pystr : PyStr}.

Lemma wikipedia_query_never_raises (t : string) :
  never_raises (WikipediaService.query t).
Proof.
  intros env w. unfold WikipediaService.query. cbv zeta.
  destruct (falsy (strip t)); [now eexists|].
  unfold try_except, bind, effect, ret.
  destruct (wikipedia_lookup env (length (trace w)) (strip t)) as [[s|]|e];
    [destruct (falsy s)| |]; now eexists.
Qed.

Lemma validate_definition_never_raises (term summary : string) :
  never_raises (DefinitionValidationService.validate_definition term summary).
Proof.
  intros env w. unfold DefinitionValidationService.validate_definition.
  destruct (falsy term || falsy summary); [now eexists|].
  unfold BaseLLMService.generate_response, BaseLLMService.response_model_no_args,
    try_except, bind, effect, ret, raise.
  destruct (llm_validation env (length (trace w)) term summary) as [[r|]|[]];
    now eexists.
Qed.

Lemma startswith_app (p r : string) : startswith (p +:+ r) p = true.
Proof.
  unfold startswith. induction p as [|c p IH]; simpl.
  - now destruct r.
  - destruct (ascii_dec c c); [exact IH | congruence].
Qed.

Lemma rejected_llm_status_prefix (reasoning : string) :
  startswith (rejected_llm_status reasoning) "rejected_llm: " = true.
Proof.
  unfold rejected_llm_status. cbv zeta.
  destruct (255 <? String.length ("rejected_llm: " +:+ reasoning))%nat.
  - change (slice_to 252 ("rejected_llm: " +:+ reasoning) +:+ "...")
      with ("rejected_llm: " +:+ (slice_to 238 reasoning +:+ "...")).
    apply startswith_app.
  - apply startswith_app.
Qed.

Lemma rejected_llm_status_workflow (reasoning : string) :
  workflow_status (rejected_llm_status reasoning) = true.
Proof.
  unfold workflow_status. rewrite rejected_llm_status_prefix.
  now rewrite !orb_true_r.
Qed.

Lemma workflow_status_prefixed (p x : string) :
  workflow_status p = true -> workflow_status (p +:+ x) = true.
Proof.
  unfold workflow_status, startswith. intros H.
  assert (Hmono : forall q, String.prefix q p = true -> String.prefix q (p +:+ x) = true).
  { clear H. intros q. revert p. induction q as [|c q IH]; intros p.
    - now destruct (p +:+ x).
    - destruct p as [|d p]; simpl; [discriminate|].
      destruct (ascii_dec c d); [apply IH | discriminate]. }
  repeat (apply orb_prop in H as [H|H]);
    rewrite (Hmono _ H); now rewrite ?orb_true_r.
Qed.

(** The background task keeps every invariant that is kept by putting a
    row under the task's key into the Term Store, and by putting a row
    with one of the four statuses under that key into the Candidate Store;
    and it returns normally. *)
Lemma workflow_triple (I : World -> Prop) (term : string) :
  log_stable I ->
  (forall w row,
     I w -> I (set_terminus (<[lower (strip term) := row]> (terminus w)) w)) ->
  (forall w d fus st,
     workflow_status st = true ->
     I w ->
     I (set_candidate
          (<[lower (strip term) := mkCandidateRow d fus st]> (candidate_terminus w)) w)) ->
  triple I (_fetch_validate_and_store_definition term) (fun _ => True).
Proof.
  intros Hlog HputT HputC.
  unfold _fetch_validate_and_store_definition. cbv zeta.
  pose proof (lower_idem (strip term)) as Hkey.
  set (key := lower (strip term)) in *.
  assert (Hsave : forall d fus st, workflow_status st = true ->
            triple I (CandidateterminusService.save key d fus st) anything).
  { intros d fus st Hst. apply stable_candidate_save; [exact Hlog|].
    rewrite Hkey. intros w. now apply HputC. }
  assert (Hst : forall p x, workflow_status p = true ->
            forall d fus, triple I (CandidateterminusService.save key d fus (p +:+ x))
                            anything).
  { intros p x Hp d fus. apply Hsave. now apply workflow_status_prefixed. }
  apply triple_try_except; [|intros e; now apply triple_ret].
  apply (stable_bind I); [now apply stable_terminus_exists|].
  intros [|]; [now apply triple_ret|].
  apply (stable_bind I); [now apply stable_candidate_exists|].
  intros [|]; [now apply triple_ret|].
  (* step 2 *)
  unfold fetch_and_validate.
  eapply triple_bind.
  { apply attempt_never_raises;
      [now apply stable_wikipedia_query | apply wikipedia_query_never_raises]. }
  intros [summary|e] [s Hs]; [|discriminate].
  destruct (startswith summary "Could not find"
            || startswith summary "An error occurred").
  { now apply Hst. }
  destruct (startswith summary "Please provide"); [now apply triple_ret|].
  (* step 3 *)
  unfold validate_and_store.
  eapply triple_bind.
  { apply attempt_never_raises;
      [now apply stable_validate_definition | apply validate_definition_never_raises]. }
  intros [[vr|]|e] [r Hr]; [| now apply Hsave | discriminate].
  (* steps 4 and 5 *)
  unfold store_validated.
  destruct (is_valid vr).
  - apply (stable_bind I).
    { apply triple_try_except; [|intros e; now apply stable_ret].
      apply (stable_bind I); [now apply stable_generate_followups|].
      intros [a|]; [destruct (empty_list (ta_follow_ups a))|]; now apply stable_ret. }
    intros fus.
    apply triple_try_except.
    + apply stable_terminus_save; [exact Hlog|]. rewrite Hkey. intros w. apply HputT.
    + intros e. apply triple_after_failed_statement. now apply Hst.
  - apply triple_try_except; [|intros e; now apply stable_ret].
    apply Hsave. apply rejected_llm_status_workflow.
Qed.

Lemma workflow_returns (term : string) (env : Env) (w : World) :
  fst (_fetch_validate_and_store_definition term env w) = Ok tt.
Proof.
  unfold _fetch_validate_and_store_definition, try_except. cbv zeta.
  match goal with |- context [let (r, w') := ?m env w in _] =>
    destruct (m env w) as [[[]|e] w'] end; reflexivity.
Qed.

(** The background task returns normally on every run, and whatever the
    collaborators answer and whichever statement fails, it changes no
    entry of either store other than the one under its own trimmed,
    lower-cased term. *)
Theorem workflow_touches_only_its_key
  (term k : string) (env : Env) (w : World)
  (Hk : k <> lower (strip term)) :
  fst (_fetch_validate_and_store_definition term env w) = Ok tt /\
  terminus (snd (_fetch_validate_and_store_definition term env w)) !! k
    = terminus w !! k /\
  candidate_terminus (snd (_fetch_validate_and_store_definition term env w)) !! k
    = candidate_terminus w !! k.
Proof.
  split; [apply workflow_returns|].
  refine (proj1 (workflow_triple
            (fun w' => terminus w' !! k = terminus w !! k /\
                       candidate_terminus w' !! k = candidate_terminus w !! k)
            term _ _ _ env w (conj eq_refl eq_refl))).
  - intros ev w' H. exact H.
  - intros w' row [Ht Hc]. cbn [terminus candidate_terminus set_terminus].
    split; [|exact Hc].
    now rewrite (lookup_insert_ne (terminus w')) by congruence.
  - intros w' d fus st _ [Ht Hc]. cbn [terminus candidate_terminus set_candidate].
    split; [exact Ht|].
    now rewrite (lookup_insert_ne (candidate_terminus w')) by congruence.
Qed.

(** Every candidate the background task writes lies under its own key
    and carries a status of one of four kinds: "wikipedia_failed: ",
    "validation_failed: ", "rejected_llm: " or "save_to_official_error: ".
    The statuses "wikipedia_error: " and "validation_error: " of its two
    exception handlers are never written, because the Wikipedia service
    and the validation service turn every failure into a value. *)
Theorem workflow_candidate_statuses
  (term k : string) (row : CandidateRow) (env : Env) (w : World)
  (Hrow : candidate_terminus (snd (_fetch_validate_and_store_definition term env w)) !! k
          = Some row) :
  candidate_terminus w !! k = Some row
  \/ (k = lower (strip term) /\ workflow_status (cr_status row) = true).
Proof.
  revert k row Hrow.
  refine (proj1 (workflow_triple
            (fun w' => forall k row,
               candidate_terminus w' !! k = Some row ->
               candidate_terminus w !! k = Some row
               \/ (k = lower (strip term) /\ workflow_status (cr_status row) = true))
            term _ _ _ env w _)).
  - intros ev w' H. exact H.
  - intros w' row' H. exact H.
  - intros w' d fus st Hst H k row. cbn [candidate_terminus set_candidate].
    destruct (decide (k = lower (strip term))) as [->|Hne].
    + rewrite (lookup_insert_eq (candidate_terminus w')). intros [= <-].
      right. split; [reflexivity | exact Hst].
    + rewrite (lookup_insert_ne (candidate_terminus w')) by congruence. apply H.
  - intros k row H. now left.
Qed.

Lemma one_store_bind {A B} (m : M A) (k : A -> M B) :
  (forall T C,
     triple (fun w => terminus w = T /\ candidate_terminus w = C) m anything) ->
  (forall a, one_store (k a)) -> one_store (bind m k).
Proof.
  intros Hm Hk env w. unfold bind.
  destruct (Hm (terminus w) (candidate_terminus w) env w (conj eq_refl eq_refl))
    as [[Ht Hc] _].
  destruct (m env w) as [[a|e] w']; simpl in *; [|now left].
  destruct (Hk a env w') as [H|H]; [left | right]; congruence.
Qed.

Lemma one_store_try_except_ret {A} (m : M A) (a : A) :
  one_store m -> one_store (try_except m (fun _ => ret a)).
Proof.
  intros Hm env w. unfold try_except. specialize (Hm env w).
  destruct (m env w) as [[x|e] w']; exact Hm.
Qed.

Lemma one_store_ret {A} (a : A) : one_store (ret a).
Proof. intros env w. now left. Qed.

Lemma one_store_candidate_save (t d st : string) (fus : list FollowUp) :
  one_store (CandidateterminusService.save t d fus st).
Proof.
  intros env w. left. rewrite candidate_save_run.
  destruct (db_fault env (length (trace w))); reflexivity.
Qed.

Lemma both_kept_log (T : gmap string terminusRow) (C : gmap string CandidateRow) :
  log_stable (fun w => terminus w = T /\ candidate_terminus w = C).
Proof. intros ev w H. exact H. Qed.

(** A run of the background task changes at most one of the two tables:
    an entry is written to the Term Store or to the Candidate Store,
    never to both. *)
Theorem workflow_writes_one_store (term : string) :
  one_store (_fetch_validate_and_store_definition term).
Proof.
  unfold _fetch_validate_and_store_definition. cbv zeta.
  apply one_store_try_except_ret.
  apply one_store_bind.
  { intros T C. apply stable_terminus_exists, both_kept_log. }
  intros [|]; [apply one_store_ret|].
  apply one_store_bind.
  { intros T C. apply stable_candidate_exists, both_kept_log. }
  intros [|]; [apply one_store_ret|].
  unfold fetch_and_validate.
  apply one_store_bind.
  { intros T C. apply stable_attempt, stable_wikipedia_query, both_kept_log. }
  intros [summary|e]; [|apply one_store_candidate_save].
  destruct (startswith summary "Could not find"
            || startswith summary "An error occurred");
    [apply one_store_candidate_save|].
  destruct (startswith summary "Please provide"); [apply one_store_ret|].
  unfold validate_and_store.
  apply one_store_bind.
  { intros T C. apply stable_attempt, stable_validate_definition, both_kept_log. }
  intros [[vr|]|e]; try apply one_store_candidate_save.
  unfold store_validated.
  destruct (is_valid vr).
  - apply one_store_bind.
    { intros T C. apply triple_try_except; [|intros e; now apply stable_ret].
      apply (stable_bind _);
        [apply stable_generate_followups, both_kept_log|].
      intros [a|]; [destruct (empty_list (ta_follow_ups a))|]; now apply stable_ret. }
    intros fus env w. unfold try_except. rewrite terminus_save_run.
    destruct (db_fault env (length (trace w))).
    + left. unfold after_failed_statement.
      destruct (needs_rollback env _); [reflexivity|].
      rewrite candidate_save_run. cbn [trace log].
      destruct (db_fault env _); reflexivity.
    + now right.
  - apply one_store_try_except_ret, one_store_candidate_save.
Qed.

End WorkflowLaws.

(** ** The failure paths of the background task *)

Section WorkflowPaths.
Context {codec : JsonCodec} {pystr : PyStr}.

Local Abbreviation key_of term := (lower (strip term)).

Lemma str_length_app (a b : string) :
  String.length (a +:+ b) = String.length a + String.length b.
Proof. induction a as [|c a IH]; simpl; [reflexivity|]. now rewrite IH. Qed.

Lemma slice_to_length (n : nat) (s : string) : String.length (slice_to n s) <= n.
Proof.
  revert s. induction n as [|n IH]; intros [|c s]; simpl; try lia.
  specialize (IH s). lia.
Qed.

Lemma rejected_llm_status_length (reasoning : string) :
  String.length (rejected_llm_status reasoning) <= 255.
Proof.
  unfold rejected_llm_status. cbv zeta.
  destruct (255 <? String.length ("rejected_llm: " +:+ reasoning))%nat eqn:Hlen.
  - rewrite str_length_app.
    pose proof (slice_to_length 252 ("rejected_llm: " +:+ reasoning)).
    change (String.length "...") with 3. lia.
  - apply Nat.ltb_ge in Hlen. exact Hlen.
Qed.

Lemma wikipedia_query_blank (t : string) (env : Env) (w : World) :
  strip t = EmptyString ->
  WikipediaService.query t env w = (Ok "Please provide a term to search.", w).
Proof. intros Ht. unfold WikipediaService.query. cbv zeta. now rewrite Ht. Qed.

(** [query] never raises and never returns the empty string; a term of
    whitespace only is answered without any lookup. *)
Theorem wikipedia_query_total (t : string) (env : Env) (w : World) :
  (exists s, fst (WikipediaService.query t env w) = Ok s /\ falsy s = false) /\
  (strip t = EmptyString ->
   WikipediaService.query t env w = (Ok "Please provide a term to search.", w)).
Proof.
  unfold WikipediaService.query. cbv zeta. split.
  - destruct (falsy (strip t)); [now eexists|].
    unfold try_except, bind, effect, ret.
    destruct (wikipedia_lookup env (length (trace w)) (strip t)) as [[s|]|e].
    + destruct (falsy s) eqn:Hs; eexists; (split; [reflexivity|]);
        [reflexivity | exact Hs].
    + now eexists.
    + now eexists.
  - apply wikipedia_query_blank.
Qed.

Lemma wikipedia_query_failed_run (term : string) (env : Env) (w : World) :
  falsy (strip term) = false ->
  wikipedia_lookup_failed (wikipedia_lookup env (length (trace w)) (strip term)) = true ->
  WikipediaService.query term env w =
    (Ok (wikipedia_failure_message (strip term)
           (wikipedia_lookup env (length (trace w)) (strip term))),
     log (WikipediaCall (strip term)) w).
Proof.
  intros Hterm Hfail. unfold WikipediaService.query. cbv zeta. rewrite Hterm.
  unfold try_except, bind, effect, ret.
  destruct (wikipedia_lookup env (length (trace w)) (strip term)) as [[s|]|e];
    simpl in Hfail; [rewrite Hfail|..]; reflexivity.
Qed.

Lemma wikipedia_failure_message_prefix (term : string) (r : result (option string)) :
  startswith (wikipedia_failure_message term r) "Could not find"
  || startswith (wikipedia_failure_message term r) "An error occurred" = true.
Proof.
  destruct r as [o|e]; unfold wikipedia_failure_message.
  - change ("Could not find a relevant Wikipedia page for '" +:+ term +:+ "'.")
      with ("Could not find" +:+ (" a relevant Wikipedia page for '" +:+ term +:+ "'.")).
    now rewrite startswith_app.
  - change ("An error occurred while searching Wikipedia for '" +:+ term +:+ "'.")
      with ("An error occurred" +:+ (" while searching Wikipedia for '" +:+ term +:+ "'.")).
    rewrite startswith_app. apply orb_true_r.
Qed.

(** A new term for which the Wikipedia lookup finds no page, finds an
    empty summary or fails: the task stores a candidate whose definition
    is the service's message and whose status is "wikipedia_failed: "
    followed by the first 200 characters of that message, with no
    follow-ups; it calls no LLM and leaves the Term Store as it was. *)
Theorem wikipedia_failure_recorded (term : string) (env : Env) (w : World)
  (Hok : forall n, db_fault env n = false)
  (Hkey : falsy (key_of term) = false)
  (Ht : terminus w !! key_of term = None)
  (Hc : candidate_terminus w !! key_of term = None)
  (Hfail : wikipedia_lookup_failed
             (wikipedia_lookup env (2 + length (trace w)) (key_of term)) = true) :
  candidate_terminus (snd (_fetch_validate_and_store_definition term env w))
    = <[key_of term :=
          mkCandidateRow
            (wikipedia_failure_message (key_of term)
               (wikipedia_lookup env (2 + length (trace w)) (key_of term)))
            (Some (json_dumps []))
            ("wikipedia_failed: " +:+
             slice_to 200
               (wikipedia_failure_message (key_of term)
                  (wikipedia_lookup env (2 + length (trace w)) (key_of term))))]>
        (candidate_terminus w) /\
  terminus (snd (_fetch_validate_and_store_definition term env w)) = terminus w /\
  trace (snd (_fetch_validate_and_store_definition term env w))
    = trace w ++ [DbRead terminus_table (key_of term);
                  DbRead candidate_terminus_table (key_of term);
                  WikipediaCall (key_of term);
                  DbWrite candidate_terminus_table (key_of term)].
Proof.
  rewrite workflow_fresh_run by auto.
  unfold try_except, fetch_and_validate, bind, attempt.
  rewrite wikipedia_query_failed_run;
    rewrite ?strip_normalized, ?length_trace_log; try assumption.
  cbn [Nat.add] in *.
  rewrite wikipedia_failure_message_prefix.
  rewrite candidate_save_run, Hok, lower_idem.
  cbn [fst snd candidate_terminus terminus set_candidate log trace].
  repeat split; try reflexivity. now rewrite <- !app_assoc.
Qed.

(** A new term whose definition the LLM judges invalid: the task stores a
    candidate with the fetched summary, no follow-ups and the status
    "rejected_llm: " followed by the reasoning, cut to 252 characters plus
    "..." when longer than 255; the status never exceeds 255 characters.
    No follow-up call is made and the Term Store is left as it was. *)
Theorem invalid_verdict_recorded
  (term summary : string) (vr : DefinitionValidationResult) (env : Env) (w : World)
  (Hok : forall n, db_fault env n = false)
  (Hkey : falsy (key_of term) = false)
  (Ht : terminus w !! key_of term = None)
  (Hc : candidate_terminus w !! key_of term = None)
  (Hwiki : wikipedia_lookup env (2 + length (trace w)) (key_of term) = Ok (Some summary))
  (Huse : usable_summary summary = true)
  (Hllm : llm_validation env (3 + length (trace w)) (key_of term) summary
          = Ok (Some vr))
  (Hinvalid : is_valid vr = false) :
  candidate_terminus (snd (_fetch_validate_and_store_definition term env w))
    = <[key_of term :=
          mkCandidateRow summary (Some (json_dumps []))
            (rejected_llm_status (reasoning vr))]> (candidate_terminus w) /\
  String.length (rejected_llm_status (reasoning vr)) <= 255 /\
  startswith (rejected_llm_status (reasoning vr)) "rejected_llm: " = true /\
  terminus (snd (_fetch_validate_and_store_definition term env w)) = terminus w /\
  trace (snd (_fetch_validate_and_store_definition term env w))
    = trace w ++ [DbRead terminus_table (key_of term);
                  DbRead candidate_terminus_table (key_of term);
                  WikipediaCall (key_of term);
                  LLMCall Validation (key_of term);
                  DbWrite candidate_terminus_table (key_of term)].
Proof.
  pose proof (usable_summary_nonempty summary Huse) as Hne.
  pose proof Hllm as Hllm'. cbn [Nat.add] in Hllm'.
  rewrite (workflow_to_validation_run term summary) by assumption.
  unfold try_except. rewrite validate_and_store_run by assumption.
  rewrite !length_trace_log, Hllm'.
  unfold store_validated. rewrite Hinvalid. cbv zeta. unfold try_except.
  rewrite candidate_save_run, Hok, lower_idem.
  cbn [fst snd candidate_terminus terminus set_candidate log trace].
  split; [reflexivity|].
  split; [apply rejected_llm_status_length|].
  split; [apply rejected_llm_status_prefix|].
  split; [reflexivity|]. now rewrite <- !app_assoc.
Qed.

(** A new term with a valid definition whose Term Store write fails.  The
    task returns normally and the Term Store is left as it was.  When the
    write failed before the flush, the Session is still usable and the
    task falls back to the Candidate Store: unless that write fails too,
    it stores the summary and the follow-ups it had for the official entry
    with the status "save_to_official_error: " followed by the error text.
    When the write failed in the flush or in the COMMIT, the Session
    refuses the fallback: no further statement is issued, the Candidate
    Store is left as it was as well, and the validated definition is
    lost. *)
Theorem official_save_failure_falls_back
  (term summary : string) (vr : DefinitionValidationResult) (env : Env) (w : World)
  (H0 : db_fault env (length (trace w)) = false)
  (H1 : db_fault env (1 + length (trace w)) = false)
  (H5 : db_fault env (5 + length (trace w)) = true)
  (Hkey : falsy (key_of term) = false)
  (Ht : terminus w !! key_of term = None)
  (Hc : candidate_terminus w !! key_of term = None)
  (Hwiki : wikipedia_lookup env (2 + length (trace w)) (key_of term) = Ok (Some summary))
  (Huse : usable_summary summary = true)
  (Hllm : llm_validation env (3 + length (trace w)) (key_of term) summary
          = Ok (Some vr))
  (Hvalid : is_valid vr = true) :
  let refused := needs_rollback env (5 + length (trace w)) in
  fst (_fetch_validate_and_store_definition term env w) = Ok tt /\
  terminus (snd (_fetch_validate_and_store_definition term env w)) = terminus w /\
  candidate_terminus (snd (_fetch_validate_and_store_definition term env w))
    = (if refused || db_fault env (6 + length (trace w))
       then candidate_terminus w
       else <[key_of term :=
                mkCandidateRow summary
                  (Some (json_dumps
                           (follow_ups_of
                              (llm_followups env (4 + length (trace w)) (key_of term)
                                 summary))))
                  ("save_to_official_error: " +:+ slice_to 200 (str_exn db_error))]>
              (candidate_terminus w)) /\
  trace (snd (_fetch_validate_and_store_definition term env w))
    = trace w ++ [DbRead terminus_table (key_of term);
                  DbRead candidate_terminus_table (key_of term);
                  WikipediaCall (key_of term);
                  LLMCall Validation (key_of term);
                  LLMCall Followups (key_of term);
                  DbWrite terminus_table (key_of term)]
              ++ (if refused then []
                  else [DbWrite candidate_terminus_table (key_of term)]).
Proof.
  pose proof (usable_summary_nonempty summary Huse) as Hne.
  cbn [Nat.add] in *. cbv zeta.
  split; [apply workflow_returns|].
  rewrite workflow_fresh_run by assumption.
  unfold try_except.
  rewrite (fetch_and_validate_run (key_of term) summary);
    rewrite ?strip_normalized, ?length_trace_log; try assumption.
  rewrite validate_and_store_run by assumption.
  rewrite !length_trace_log, Hllm.
  rewrite store_validated_valid_run by assumption. cbv zeta.
  rewrite !length_trace_log, H5, lower_idem.
  unfold after_failed_statement. rewrite !length_trace_log.
  cbn [Nat.sub].
  destruct (needs_rollback env (S (S (S (S (S (length (trace w)))))))).
  { unfold ret. cbn [orb fst snd terminus candidate_terminus trace log].
    repeat split; try reflexivity. now rewrite <- !app_assoc. }
  rewrite candidate_save_run, !length_trace_log, lower_idem. cbn [orb].
  destruct (db_fault env (S (S (S (S (S (S (length (trace w))))))))).
  - unfold ret. cbn [fst snd terminus candidate_terminus trace log].
    repeat split; try reflexivity. now rewrite <- !app_assoc.
  - cbn [fst snd terminus candidate_terminus set_candidate trace log].
    repeat split; try reflexivity. now rewrite <- !app_assoc.
Qed.

(** A term of whitespace only: whatever the stores hold and whatever
    fails, the task writes nothing and calls neither Wikipedia nor the
    LLM; all it does is read the stores. *)
Theorem blank_term_persists_nothing (term : string) (env : Env) (w : World)
  (Hblank : strip term = EmptyString) :
  fst (_fetch_validate_and_store_definition term env w) = Ok tt /\
  terminus (snd (_fetch_validate_and_store_definition term env w)) = terminus w /\
  candidate_terminus (snd (_fetch_validate_and_store_definition term env w))
    = candidate_terminus w /\
  exists reads,
    trace (snd (_fetch_validate_and_store_definition term env w)) = trace w ++ reads /\
    only_reads reads = true.
Proof.
  unfold _fetch_validate_and_store_definition. cbv zeta. rewrite Hblank.
  rewrite lower_empty. unfold try_except, bind.
  rewrite terminus_exists_run, lower_empty.
  destruct (db_fault env (length (trace w))).
  { repeat split; try reflexivity. eexists [_]. split; reflexivity. }
  destruct (bool_decide (is_Some (terminus w !! EmptyString))).
  { repeat split; try reflexivity. eexists [_]. split; reflexivity. }
  rewrite candidate_exists_run, lower_empty. cbn [candidate_terminus log].
  destruct (db_fault env _).
  { repeat split; try reflexivity. eexists [_; _]. unfold ret. cbn [trace log snd].
    split; [now rewrite <- app_assoc | reflexivity]. }
  destruct (bool_decide (is_Some (candidate_terminus w !! EmptyString))).
  { repeat split; try reflexivity. eexists [_; _]. unfold ret. cbn [trace log snd].
    split; [now rewrite <- app_assoc | reflexivity]. }
  unfold fetch_and_validate, bind, attempt.
  rewrite (wikipedia_query_blank EmptyString) by apply strip_empty. cbn.
  repeat split; try reflexivity. eexists [_; _].
  split; [now rewrite <- app_assoc | reflexivity].
Qed.

(** The endpoint and the background task normalize by themselves: started
    with the trimmed, lower-cased term they are the same computations as
    started with the raw term. *)
Theorem normalization_is_idempotent (term : string) :
  lower (strip (key_of term)) = key_of term /\
  _fetch_validate_and_store_definition (key_of term)
    = _fetch_validate_and_store_definition term /\
  (forall tasks, get_definition (key_of term) tasks = get_definition term tasks).
Proof.
  assert (H : lower (strip (key_of term)) = key_of term)
    by now rewrite strip_normalized, lower_idem.
  split; [exact H|].
  unfold _fetch_validate_and_store_definition, get_definition. cbv zeta.
  rewrite H. split; reflexivity.
Qed.

(** After a resolution that ended in the Term Store, GET /definition
    returns the stored definition with the follow-ups the LLM gave, and
    queues nothing. *)
Theorem resolved_definition_is_served
  (term summary : string) (vr : DefinitionValidationResult) (tasks : list string)
  (env : Env) (w : World)
  (Hok : forall n, db_fault env n = false)
  (Hkey : falsy (key_of term) = false)
  (Ht : terminus w !! key_of term = None)
  (Hc : candidate_terminus w !! key_of term = None)
  (Hwiki : wikipedia_lookup env (2 + length (trace w)) (key_of term) = Ok (Some summary))
  (Huse : usable_summary summary = true)
  (Hllm : llm_validation env (3 + length (trace w)) (key_of term) summary
          = Ok (Some vr))
  (Hvalid : is_valid vr = true) :
  fst (get_definition term tasks env
         (snd (_fetch_validate_and_store_definition term env w)))
    = Ok (mkterminusAnswer (key_of term) summary
            (follow_ups_of
               (llm_followups env (4 + length (trace w)) (key_of term) summary)),
          tasks).
Proof.
  destruct (workflow_valid_run term summary vr env w) as (_ & Hterm & _);
    try assumption.
  rewrite get_definition_run by assumption. cbv zeta. rewrite Hterm.
  rewrite (lookup_insert_eq (terminus w) (key_of term)).
  cbn [tr_follow_ups tr_definition fst].
  destruct (deserialize_dumps
              (follow_ups_of
                 (llm_followups env (4 + length (trace w)) (key_of term) summary)))
    as [Hd _].
  now rewrite Hd.
Qed.

End WorkflowPaths.

(** ** The LLM services *)

Section LLMLaws.

(** [validate_definition] fails soft.  It never raises; with an empty term
    or an empty summary it returns [None] without calling the LLM; and
    when the LLM call raises, a connection error included, it returns
    [None] as well. *)
Theorem validate_definition_fails_soft
  (term summary : string) (env : Env) (w : World) :
  (exists r,
     fst (DefinitionValidationService.validate_definition term summary env w) = Ok r) /\
  (falsy term || falsy summary = true ->
   DefinitionValidationService.validate_definition term summary env w = (Ok None, w)) /\
  (falsy term || falsy summary = false ->
   forall e,
     llm_validation env (length (trace w)) term summary = Raise e ->
     DefinitionValidationService.validate_definition term summary env w
       = (Ok None, log (LLMCall Validation term) w)).
Proof.
  split; [apply validate_definition_never_raises|].
  unfold DefinitionValidationService.validate_definition.
  split.
  - intros ->. reflexivity.
  - intros -> e He.
    unfold BaseLLMService.generate_response, BaseLLMService.response_model_no_args,
      try_except, bind, effect, ret, raise.
    rewrite He. destruct e; reflexivity.
Qed.

(** Phase 1 of [validate_terms] is not fail-soft.  When the extraction call
    raises, [validate_terms] raises after that one call -- a connection
    error as it is, anything else as the validation error of the empty
    response model -- and no critique call is made.  When the call returns
    no response, the result is the empty list. *)
Theorem validate_terms_phase1_outcomes (text : string) (env : Env) (w : World) :
  (llm_extraction env (length (trace w)) text = Ok None ->
   TermExtractionService.validate_terms text env w
     = (Ok [], log (LLMCall Extraction text) w)) /\
  (forall e,
     llm_extraction env (length (trace w)) text = Raise e ->
     TermExtractionService.validate_terms text env w
       = (Raise match e with
                | APIConnectionError _ => e
                | _ => ValidationError "Field required"
                end,
          log (LLMCall Extraction text) w)).
Proof.
  unfold TermExtractionService.validate_terms, BaseLLMService.generate_response,
    BaseLLMService.response_model_no_args, try_except, bind, effect, ret, raise.
  split.
  - intros ->. reflexivity.
  - intros e ->. destruct e; reflexivity.
Qed.

Lemma critique_loop_world (l : list string) : forall validated env w,
  snd (TermExtractionService.critique_loop l validated env w)
    = mkWorld (terminus w) (candidate_terminus w)
        (trace w ++ map (LLMCall Critique) l).
Proof.
  induction l as [|t l IH]; intros validated env w.
  - simpl. rewrite app_nil_r. now destruct w.
  - cbn [TermExtractionService.critique_loop]. unfold bind at 1.
    rewrite critique_term_run, IH. cbn [terminus candidate_terminus trace log map].
    now rewrite <- app_assoc.
Qed.

(** [validate_terms] makes one extraction call and then exactly one
    critique call per candidate term, in the order of phase 1 and once
    more for each repetition; it touches neither store. *)
Theorem validate_terms_calls
  (text : string) (env : Env) (w : World) (r : ExtractedTerms)
  (Hphase1 : llm_extraction env (length (trace w)) text = Ok (Some r)) :
  trace (snd (TermExtractionService.validate_terms text env w))
    = trace w ++ LLMCall Extraction text
                 :: map (LLMCall Critique) (map et_term (terms r)) /\
  terminus (snd (TermExtractionService.validate_terms text env w)) = terminus w /\
  candidate_terminus (snd (TermExtractionService.validate_terms text env w))
    = candidate_terminus w.
Proof.
  assert (Hrun :
    snd (TermExtractionService.validate_terms text env w)
      = mkWorld (terminus w) (candidate_terminus w)
          ((trace w ++ [LLMCall Extraction text])
             ++ map (LLMCall Critique) (map et_term (terms r)))).
  { unfold TermExtractionService.validate_terms, bind.
    unfold BaseLLMService.generate_response, try_except, effect.
    rewrite Hphase1. now rewrite critique_loop_world. }
  rewrite Hrun. cbn [trace terminus candidate_terminus].
  split; [now rewrite <- app_assoc|]. split; reflexivity.
Qed.

End LLMLaws.

(** ** What the synchronous write paths write *)

Section SyncWrites.
Context {codec : JsonCodec} {pystr : PyStr} (I : World -> Prop) (Hlog : log_stable I).

Lemma stable_terminus_get (t : string) : triple I (terminusService.get t) anything.
Proof. apply stable_terminus_query_first, Hlog. Qed.

Lemma stable_candidate_get (t : string) :
  triple I (CandidateterminusService.get t) anything.
Proof. apply stable_candidate_query_first, Hlog. Qed.

Lemma stable_candidate_get_as_pydantic (t : string) :
  triple I (CandidateterminusService.get_as_pydantic t) anything.
Proof.
  unfold CandidateterminusService.get_as_pydantic.
  apply (stable_bind I); [apply stable_candidate_query_first, Hlog|].
  intros [db_obj|]; [|now apply stable_ret].
  destruct (CandidateterminusService._deserialize_follow_ups (ce_follow_ups db_obj));
    [now apply stable_ret | apply triple_raise].
Qed.

Lemma stable_critique_loop (l : list string) : forall validated,
  triple I (TermExtractionService.critique_loop l validated) anything.
Proof.
  induction l as [|t l IH]; intros validated; cbn [TermExtractionService.critique_loop].
  - now apply stable_ret.
  - apply (stable_bind I); [|intros keep; apply IH].
    unfold TermExtractionService._critique_term.
    apply triple_try_except; [|intros e; now apply stable_ret].
    apply (stable_bind I); [now apply stable_effect|].
    intros [c|]; [now apply stable_ret | apply triple_raise].
Qed.

Lemma stable_validate_terms (text : string) :
  triple I (TermExtractionService.validate_terms text) anything.
Proof.
  unfold TermExtractionService.validate_terms.
  apply (stable_bind I);
    [apply stable_generate_response; now apply stable_effect|].
  intros [r|]; [apply stable_critique_loop | now apply stable_ret].
Qed.

Lemma candidate_follow_ups_stable (l : list string) : forall acc,
  triple I (candidate_follow_ups l acc)
    (fun fus => length fus <= length acc + length l).
Proof.
  induction l as [|t l IH]; intros acc; cbn [candidate_follow_ups].
  - apply triple_ret. simpl. lia.
  - apply (triple_bind _ _ _ anything); [apply stable_terminus_get|]. intros official _.
    apply (triple_bind _ _ _ anything).
    + destruct official as [sub_entry|]; [now apply stable_ret|].
      apply (stable_bind I); [apply stable_candidate_get|].
      intros [sub_entry|]; [now apply stable_ret|].
      apply triple_try_except; [|intros e; now apply stable_ret].
      apply (stable_bind I); [now apply stable_wikipedia_query|].
      intros d. now apply stable_ret.
    + intros [sub_def|] _.
      * eapply triple_weaken; [|apply IH]. intros fus. rewrite length_app. simpl. lia.
      * eapply triple_weaken; [|apply IH]. intros fus. simpl. lia.
Qed.

Lemma precompute_follow_ups_stable (term : string) (l : list string) : forall acc,
  triple I (precompute_follow_ups term l acc)
    (fun fus => length fus <= length acc + length l).
Proof.
  induction l as [|t l IH]; intros acc; cbn [precompute_follow_ups].
  - apply triple_ret. simpl. lia.
  - destruct (String.eqb (lower t) (lower term)).
    + eapply triple_weaken; [|apply IH]. intros fus. simpl. lia.
    + apply (triple_bind _ _ _ anything); [now apply stable_wikipedia_query|].
      intros sub_def _.
      eapply triple_weaken; [|apply IH]. intros fus. rewrite length_app. simpl. lia.
Qed.

(** POST /candidates keeps an invariant that is kept by putting a pending
    row with at most three follow-ups under the entry's key. *)
Lemma create_candidate_triple (entry : terminusEntryCreate) :
  (forall w d fus,
     length fus <= 3 ->
     I w ->
     I (set_candidate
          (<[lower (ec_term entry) := mkCandidateRow d (Some (json_dumps fus)) "pending"]>
             (candidate_terminus w)) w)) ->
  triple I (create_candidate entry) anything.
Proof.
  intros Hput. unfold create_candidate.
  apply (stable_bind I); [apply stable_terminus_get|]. intros official.
  destruct (bool_decide (is_Some official)); [apply triple_raise|].
  apply (stable_bind I); [apply stable_candidate_get|]. intros candidate.
  destruct (bool_decide (is_Some candidate)); [apply triple_raise|].
  apply (stable_bind I).
  { destruct (falsy (ec_definition entry));
      [now apply stable_wikipedia_query | now apply stable_ret]. }
  intros definition.
  apply (stable_bind I); [apply stable_validate_terms|]. intros sub_terms.
  eapply triple_bind; [apply candidate_follow_ups_stable|].
  intros follow_ups Hlen. cbn beta in Hlen.
  assert (length follow_ups <= 3).
  { rewrite length_take in Hlen. cbn [length Nat.add] in Hlen. lia. }
  apply (stable_bind I).
  { apply stable_candidate_save; [exact Hlog|]. intros w. now apply Hput. }
  intros _. apply stable_candidate_get_as_pydantic.
Qed.

(** POST /terms/precompute likewise, for the keys of all its terms. *)
Lemma precompute_terms_triple (text : string) :
  (forall w t d fus,
     length fus <= 3 ->
     I w ->
     I (set_candidate
          (<[lower t := mkCandidateRow d (Some (json_dumps fus)) "pending"]>
             (candidate_terminus w)) w)) ->
  triple I (precompute_terms text) anything.
Proof.
  intros Hput. unfold precompute_terms.
  apply (stable_bind I); [apply stable_validate_terms|]. intros validated_terms.
  generalize (@nil string) as added.
  induction validated_terms as [|term l IH]; intros added; cbn [precompute_loop].
  - now apply stable_ret.
  - apply (stable_bind I); [apply stable_terminus_get|]. intros official.
    apply (stable_bind I).
    { destruct (bool_decide (is_Some official)); [now apply stable_ret|].
      apply (stable_bind I); [apply stable_candidate_get|].
      intros c. now apply stable_ret. }
    intros [|]; [apply IH|].
    apply (stable_bind I); [now apply stable_wikipedia_query|]. intros definition.
    apply (stable_bind I); [apply stable_validate_terms|]. intros related_terms.
    eapply triple_bind; [apply precompute_follow_ups_stable|].
    intros follow_ups Hlen. cbn beta in Hlen.
    assert (length follow_ups <= 3).
    { rewrite length_take in Hlen. cbn [length Nat.add] in Hlen. lia. }
    apply (stable_bind I).
    { apply stable_candidate_save; [exact Hlog|]. intros w. now apply Hput. }
    intros _. apply IH.
Qed.

End SyncWrites.

Section SyncWritesLaws.
Context {codec : JsonCodec} {pystr : PyStr}.

(** POST /candidates and POST /terms/precompute never change the Term
    Store, on any run.  Every candidate row found after a run was either
    there before or is a row the run wrote: status "pending" and at most
    three follow-ups; POST /candidates writes under its own term's key
    only. *)
Theorem synchronous_writes_are_pending_candidates
  (k : string) (row : CandidateRow) (env : Env) (w : World) :
  (forall entry,
     terminus (snd (create_candidate entry env w)) = terminus w /\
     (candidate_terminus (snd (create_candidate entry env w)) !! k = Some row ->
      candidate_terminus w !! k = Some row
      \/ (k = lower (ec_term entry) /\ pending_capped_row row))) /\
  (forall text,
     terminus (snd (precompute_terms text env w)) = terminus w /\
     (candidate_terminus (snd (precompute_terms text env w)) !! k = Some row ->
      candidate_terminus w !! k = Some row \/ pending_capped_row row)).
Proof.
  split.
  - intros entry.
    refine (match proj1 (create_candidate_triple
              (fun w' => terminus w' = terminus w /\
                 forall k row,
                   candidate_terminus w' !! k = Some row ->
                   candidate_terminus w !! k = Some row
                   \/ (k = lower (ec_term entry) /\ pending_capped_row row))
              _ entry _ env w _) with conj Ht Hc => conj Ht (Hc k row) end).
    + intros ev w' H. exact H.
    + intros w' d fus Hlen [Ht Hc]. split; [exact Ht|].
      intros k' row'. cbn [candidate_terminus set_candidate].
      destruct (decide (k' = lower (ec_term entry))) as [->|Hne].
      * rewrite (lookup_insert_eq (candidate_terminus w')). intros [= <-].
        right. split; [reflexivity|]. split; [reflexivity|]. now exists fus.
      * rewrite (lookup_insert_ne (candidate_terminus w')) by congruence. apply Hc.
    + split; [reflexivity|]. intros k' row' H. now left.
  - intros text.
    refine (match proj1 (precompute_terms_triple
              (fun w' => terminus w' = terminus w /\
                 forall k row,
                   candidate_terminus w' !! k = Some row ->
                   candidate_terminus w !! k = Some row \/ pending_capped_row row)
              _ text _ env w _) with conj Ht Hc => conj Ht (Hc k row) end).
    + intros ev w' H. exact H.
    + intros w' t d fus Hlen [Ht Hc]. split; [exact Ht|].
      intros k' row'. cbn [candidate_terminus set_candidate].
      destruct (decide (k' = lower t)) as [->|Hne].
      * rewrite (lookup_insert_eq (candidate_terminus w')). intros [= <-].
        right. split; [reflexivity|]. now exists fus.
      * rewrite (lookup_insert_ne (candidate_terminus w')) by congruence. apply Hc.
    + split; [reflexivity|]. intros k' row' H. now left.
Qed.

End SyncWritesLaws.

(** ** What POST /candidates returns *)

Section Hoare.
Context {A B : Type}.

Lemma hoare_ret (P : World -> Prop) (a : A) (Q : A -> World -> Prop) :
  (forall w, P w -> Q a w) -> hoare P (ret a) Q.
Proof. intros H env w HP. now apply H. Qed.

Lemma hoare_raise (P : World -> Prop) (e : exn) (Q : A -> World -> Prop) :
  hoare P (raise e) Q.
Proof. intros env w HP. exact Logic.I. Qed.

Lemma hoare_any (P : World -> Prop) (m : M A) : hoare P m (fun _ _ => True).
Proof. intros env w HP. now destruct (m env w) as [[a|e] w']. Qed.

Lemma hoare_bind (P : World -> Prop) (m : M A) (k : A -> M B)
  (Q1 : A -> World -> Prop) (Q2 : B -> World -> Prop) :
  hoare P m Q1 -> (forall a, hoare (Q1 a) (k a) Q2) -> hoare P (bind m k) Q2.
Proof.
  intros Hm Hk env w HP. unfold bind. specialize (Hm env w HP).
  destruct (m env w) as [[a|e] w']; [|exact Logic.I].
  apply (Hk a env w' Hm).
Qed.

Lemma hoare_post (P : World -> Prop) (m : M A) (Q Q' : A -> World -> Prop) :
  (forall a w, Q a w -> Q' a w) -> hoare P m Q -> hoare P m Q'.
Proof.
  intros HQ Hm env w HP. specialize (Hm env w HP).
  destruct (m env w) as [[a|e] w']; [now apply HQ | exact Logic.I].
Qed.

(** A precondition that does not depend on the world is a hypothesis. *)
Lemma hoare_pure (phi : Prop) (m : M A) (Q : A -> World -> Prop) :
  (phi -> hoare (fun _ => True) m Q) -> hoare (fun _ => phi) m Q.
Proof. intros H env w Hphi. now apply H. Qed.

Lemma hoare_of_triple (m : M A) (Q : A -> Prop) :
  triple (fun _ => True) m Q -> hoare (fun _ => True) m (fun a _ => Q a).
Proof.
  intros Hm env w _. destruct (Hm env w Logic.I) as [_ HQ].
  now destruct (m env w) as [[a|e] w'].
Qed.

End Hoare.

Section CreateCandidate.
Context {codec : JsonCodec} {pystr : PyStr}.

(** The last two steps of [create_candidate]: when they return, the row
    is stored and the answer is that row. *)
Lemma save_and_return_candidate (t d : string) (fus : list FollowUp) :
  hoare (fun _ => True)
    (CandidateterminusService.save t d fus "pending" ;;
     CandidateterminusService.get_as_pydantic t)
    (fun answer w' =>
       answer = Some (mkCandidateterminusAnswer (lower t) d fus "pending") /\
       candidate_terminus w' !! lower t
         = Some (mkCandidateRow d (Some (json_dumps fus)) "pending")).
Proof.
  intros env w _. unfold bind. rewrite candidate_save_run.
  destruct (db_fault env (length (trace w))); [exact Logic.I|].
  destruct (db_fault env (S (length (trace w)))) eqn:H1.
  - unfold CandidateterminusService.get_as_pydantic, bind.
    rewrite candidate_query_first_run. cbn [trace set_candidate].
    rewrite length_trace_log, H1. exact Logic.I.
  - rewrite candidate_get_as_pydantic_run
      by (cbn [trace set_candidate]; now rewrite length_trace_log).
    cbn [candidate_terminus set_candidate log].
    rewrite (lookup_insert_eq (candidate_terminus w) (lower t)).
    cbn [cr_follow_ups cr_definition cr_status].
    destruct (deserialize_dumps fus) as [_ Hd]. rewrite Hd.
    split; reflexivity.
Qed.

(** When POST /candidates returns, it returns the candidate it stored:
    the term lower-cased, status "pending", at most three follow-ups, and
    as definition the caller's one when that was not empty; the row is in
    the Candidate Store under the lower-cased term. *)
Theorem create_candidate_returns_stored_candidate
  (entry : terminusEntryCreate) (answer : option CandidateterminusAnswer)
  (env : Env) (w : World)
  (Hrun : fst (create_candidate entry env w) = Ok answer) :
  exists d fus,
    answer = Some (mkCandidateterminusAnswer (lower (ec_term entry)) d fus "pending") /\
    candidate_terminus (snd (create_candidate entry env w)) !! lower (ec_term entry)
      = Some (mkCandidateRow d (Some (json_dumps fus)) "pending") /\
    length fus <= 3 /\
    (falsy (ec_definition entry) = false -> d = ec_definition entry).
Proof.
  assert (H : hoare (fun _ => True) (create_candidate entry)
                (fun answer w' =>
                   exists d fus,
                     answer = Some (mkCandidateterminusAnswer (lower (ec_term entry))
                                      d fus "pending") /\
                     candidate_terminus w' !! lower (ec_term entry)
                       = Some (mkCandidateRow d (Some (json_dumps fus)) "pending") /\
                     length fus <= 3 /\
                     (falsy (ec_definition entry) = false -> d = ec_definition entry))).
  { unfold create_candidate.
    eapply hoare_bind; [apply hoare_any|]. intros official.
    destruct (bool_decide (is_Some official)); [apply hoare_raise|].
    eapply hoare_bind; [apply hoare_any|]. intros candidate.
    destruct (bool_decide (is_Some candidate)); [apply hoare_raise|].
    apply (hoare_bind _ _ _
             (fun d _ => falsy (ec_definition entry) = false -> d = ec_definition entry)).
    { destruct (falsy (ec_definition entry)).
      - eapply hoare_post; [|apply hoare_any]. intros; discriminate.
      - apply hoare_ret. reflexivity. }
    intros d. apply hoare_pure. intros Hd.
    eapply hoare_bind; [apply hoare_any|]. intros sub_terms.
    eapply hoare_bind.
    { apply hoare_of_triple. apply candidate_follow_ups_stable. intros ev w' H. exact H. }
    intros fus. cbn beta. apply hoare_pure. intros Hlen.
    eapply hoare_post; [|apply save_and_return_candidate].
    intros a w' [Ha Hrow]. exists d, fus.
    rewrite length_take in Hlen. cbn [length Nat.add] in Hlen.
    repeat split; try assumption. lia. }
  specialize (H env w Logic.I).
  destruct (create_candidate entry env w) as [[a|e] w']; simpl in Hrun; [|discriminate].
  injection Hrun as ->. exact H.
Qed.

End CreateCandidate.

(** ** What POST /terms/precompute reports *)

Section Precompute.
Context {codec : JsonCodec} {pystr : PyStr}.

(** Sequencing after a step that keeps the precondition. *)
Lemma hoare_bind_inv {A B} (I : World -> Prop) (m : M A) (k : A -> M B)
  (Q1 : A -> Prop) (Q : B -> World -> Prop) :
  triple I m Q1 -> (forall a, Q1 a -> hoare I (k a) Q) -> hoare I (bind m k) Q.
Proof.
  intros Hm Hk env w HI. unfold bind. destruct (Hm env w HI) as [HI' HQ].
  destruct (m env w) as [[a|e] w']; simpl in *; [|exact Logic.I].
  apply (Hk a HQ env w' HI').
Qed.

Lemma all_pending_log (added : list string) : log_stable (all_pending added).
Proof. intros ev w H. exact H. Qed.

Lemma all_pending_save (added : list string) (term d : string) (fus : list FollowUp) :
  hoare (all_pending added)
    (CandidateterminusService.save term d fus "pending")
    (fun _ w' => all_pending (added ++ [term]) w').
Proof.
  intros env w H. rewrite candidate_save_run.
  destruct (db_fault env (length (trace w))); [exact Logic.I|].
  intros t Ht. cbn [candidate_terminus set_candidate log].
  destruct (decide (lower t = lower term)) as [->|Hne].
  - rewrite (lookup_insert_eq (candidate_terminus w)). now eexists.
  - rewrite (lookup_insert_ne (candidate_terminus w)) by congruence.
    apply in_app_or in Ht as [Ht|[->|[]]]; [now apply H | congruence].
Qed.

Lemma precompute_loop_hoare (l : list string) : forall added,
  hoare (all_pending added) (precompute_loop l added)
    (fun added' w' => all_pending added' w').
Proof.
  induction l as [|term l IH]; intros added; cbn [precompute_loop].
  - apply hoare_ret. auto.
  - pose proof (all_pending_log added) as Hlog.
    apply (hoare_bind_inv _ _ _ anything); [now apply stable_terminus_get|].
    intros official _.
    apply (hoare_bind_inv _ _ _ anything).
    { destruct (bool_decide (is_Some official)); [now apply stable_ret|].
      apply (stable_bind _); [now apply stable_candidate_get|].
      intros c. now apply stable_ret. }
    intros [|] _; [apply IH|].
    apply (hoare_bind_inv _ _ _ anything); [now apply stable_wikipedia_query|].
    intros definition _.
    apply (hoare_bind_inv _ _ _ anything); [now apply stable_validate_terms|].
    intros related_terms _.
    eapply hoare_bind_inv; [now apply precompute_follow_ups_stable|].
    intros follow_ups _.
    eapply hoare_bind; [apply all_pending_save|].
    intros []. apply IH.
Qed.

(** When POST /terms/precompute returns, every term it reports in
    [added_terms] is in the Candidate Store with status "pending". *)
Theorem precompute_reports_pending_candidates
  (text term : string) (added : list string) (env : Env) (w : World)
  (Hrun : fst (precompute_terms text env w) = Ok added)
  (Hin : In term added) :
  exists row,
    candidate_terminus (snd (precompute_terms text env w)) !! lower term = Some row /\
    cr_status row = "pending".
Proof.
  assert (H : hoare (fun _ => True) (precompute_terms text)
                (fun added' w' => all_pending added' w')).
  { unfold precompute_terms.
    eapply hoare_bind; [apply hoare_any|]. intros validated_terms.
    intros env0 w0 _. apply (precompute_loop_hoare validated_terms [] env0 w0).
    intros t []. }
  specialize (H env w Logic.I).
  destruct (precompute_terms text env w) as [[a|e] w']; simpl in Hrun; [|discriminate].
  injection Hrun as ->. now apply H.
Qed.

End Precompute.

(** ** The further properties at concrete inputs *)

Lemma save_then_read_back_witness :
  lower "GDP" = lower "Gdp" /\
  fst ((CandidateterminusService.save "Gdp" Scenario.gdp_text [Scenario.fu_prices]
          "pending" ;;
        CandidateterminusService.get_as_pydantic "GDP")
         Scenario.env_quiet Scenario.empty_world)
    = Ok (Some (mkCandidateterminusAnswer "gdp" Scenario.gdp_text [Scenario.fu_prices]
                  "pending")).
Proof.
  split; [reflexivity|].
  destruct (save_then_read_back (pystr:=ascii_str) "Gdp" "GDP" Scenario.gdp_text "pending"
              [Scenario.fu_prices] Scenario.env_quiet Scenario.empty_world
              eq_refl eq_refl eq_refl) as [_ Hcandidate].
  exact Hcandidate.
Defined.

Lemma save_replaces_whole_entry_witness :
  terminus (snd ((terminusService.save "gdp" "first" [Scenario.fu_prices] ;;
                  terminusService.save "GDP" "second" [])
                   Scenario.env_quiet Scenario.w_official))
    = <["gdp" := mkterminusRow "second" (Some "[]")]> (terminus Scenario.w_official).
Proof.
  destruct (save_replaces_whole_entry (pystr:=ascii_str) "gdp" "GDP" "first" "second" "pending" "pending"
              [Scenario.fu_prices] [] Scenario.env_quiet Scenario.w_official
              eq_refl eq_refl eq_refl) as [Hofficial _].
  exact Hofficial.
Defined.

Lemma reject_changes_status_only_witness :
  candidate_terminus
    (snd (CandidateterminusService.reject "Inflation" "too vague" Scenario.env_quiet
            Scenario.w_candidate))
    = <["inflation" := mkCandidateRow Scenario.inflation_text
                         (Some (MiniJson.dumps [Scenario.fu_prices]))
                         "rejected: too vague"]>
        (candidate_terminus Scenario.w_candidate).
Proof.
  destruct (reject_changes_status_only (pystr:=ascii_str) "Inflation" "too vague" Scenario.env_quiet
              Scenario.w_candidate eq_refl eq_refl) as [_ Hpresent].
  destruct (Hpresent Scenario.row_inflation eq_refl) as (_ & Hrow & _).
  exact Hrow.
Defined.

Lemma malformed_follow_ups_raise_witness :
  json_loads "not json" = None /\
  exists e,
    validate_candidate (mkCandidateValidation "gdp" true "reviewed") Scenario.env_quiet
      Scenario.w_malformed
    = (Raise e, log (DbRead candidate_terminus_table "gdp") Scenario.w_malformed).
Proof.
  assert (Hbad : json_loads "not json" = None) by (vm_compute; reflexivity).
  split; [exact Hbad|].
  destruct (malformed_follow_ups_raise (pystr:=ascii_str) "gdp" Scenario.gdp_text "pending" "not json"
              "reviewed" Scenario.env_quiet Scenario.w_malformed
              eq_refl Hbad eq_refl eq_refl) as (_ & _ & Hraise).
  exact Hraise.
Defined.

Lemma delete_endpoints_outcomes_witness :
  fst (delete_definition "GDP" Scenario.env_quiet Scenario.w_both) = Ok 204 /\
  candidate_terminus (snd (delete_definition "GDP" Scenario.env_quiet Scenario.w_both))
    = candidate_terminus Scenario.w_both /\
  fst (delete_candidate "GDP" Scenario.env_quiet Scenario.w_both)
    = Raise (HTTPException 404 "Candidate not found").
Proof.
  destruct (delete_endpoints_outcomes (pystr:=ascii_str) "GDP" Scenario.env_quiet Scenario.w_both
              (fun _ => eq_refl)) as (_ & Hdel & Hmiss & _).
  destruct Hdel as (Hcode & _ & Hcand); [eexists; reflexivity|].
  split; [exact Hcode|]. split; [exact Hcand|].
  now rewrite (Hmiss eq_refl).
Defined.

Lemma validate_candidate_not_found_witness :
  validate_candidate (mkCandidateValidation "GDP" true "reviewed") Scenario.env_quiet
    Scenario.w_candidate
  = (Raise (HTTPException 404 "Candidate not found"),
     log (DbRead candidate_terminus_table "gdp") Scenario.w_candidate).
Proof.
  apply (validate_candidate_not_found (pystr:=ascii_str) (mkCandidateValidation "GDP" true "reviewed")
           Scenario.env_quiet Scenario.w_candidate); reflexivity.
Defined.

Lemma validate_candidate_rejection_witness :
  fst (validate_candidate (mkCandidateValidation "Inflation" false "too vague")
         Scenario.env_quiet Scenario.w_candidate)
    = Raise (HTTPException 400 "Candidate rejected") /\
  candidate_terminus
    (snd (validate_candidate (mkCandidateValidation "Inflation" false "too vague")
            Scenario.env_quiet Scenario.w_candidate))
    = <["inflation" := mkCandidateRow Scenario.inflation_text
                         (Some (MiniJson.dumps [Scenario.fu_prices]))
                         "rejected: Disapproved by user"]>
        (candidate_terminus Scenario.w_candidate).
Proof.
  destruct (validate_candidate_rejection (pystr:=ascii_str) "Inflation" "too vague" Scenario.row_inflation
              Scenario.env_quiet Scenario.w_candidate (fun _ => eq_refl) eq_refl)
    as (Hcode & Hrow & _).
  split; [exact Hcode | exact Hrow].
Defined.

Lemma create_candidate_conflict_witness :
  create_candidate (mkterminusEntryCreate "GDP" "") Scenario.env_quiet Scenario.w_both
  = (Raise (HTTPException 409 "Term already in official terminus"),
     log (DbRead terminus_table "gdp") Scenario.w_both).
Proof.
  destruct (create_candidate_conflict (pystr:=ascii_str) (mkterminusEntryCreate "GDP" "")
              Scenario.env_quiet Scenario.w_both eq_refl eq_refl) as [Hofficial _].
  apply Hofficial. eexists. reflexivity.
Defined.

Lemma get_definition_outcomes_witness :
  fst (get_definition " Inflation " [] Scenario.env_quiet Scenario.w_both)
    = Ok (placeholder "inflation", []) /\
  fst (get_definition " Bond " [] Scenario.env_quiet Scenario.w_both)
    = Ok (placeholder "bond", ["bond"]).
Proof.
  destruct (get_definition_outcomes (pystr:=ascii_str) " Inflation " [] Scenario.env_quiet Scenario.w_both
              (fun _ => eq_refl)) as (_ & Hcandidate & _).
  destruct (get_definition_outcomes (pystr:=ascii_str) " Bond " [] Scenario.env_quiet Scenario.w_both
              (fun _ => eq_refl)) as (_ & _ & Hmiss & _).
  split.
  - apply (Hcandidate Scenario.row_inflation [Scenario.fu_prices]);
      [reflexivity | reflexivity | vm_compute; reflexivity].
  - apply Hmiss; reflexivity.
Defined.

Lemma workflow_touches_only_its_key_witness :
  "inflation" <> lower (strip " GDP ") /\
  candidate_terminus
    (snd (_fetch_validate_and_store_definition " GDP " Scenario.env_validation_down
            Scenario.w_candidate)) !! "inflation"
    = Some Scenario.row_inflation.
Proof.
  assert (Hk : "inflation" <> lower (strip " GDP ")) by discriminate.
  split; [exact Hk|].
  destruct (workflow_touches_only_its_key (pystr:=ascii_str) " GDP " "inflation"
              Scenario.env_validation_down Scenario.w_candidate Hk) as (_ & _ & Hc).
  rewrite Hc. reflexivity.
Defined.

Lemma workflow_candidate_statuses_witness :
  candidate_terminus
    (snd (_fetch_validate_and_store_definition "gdp" Scenario.env_validation_down
            Scenario.empty_world)) !! "gdp"
    = Some (mkCandidateRow Scenario.gdp_text (Some "[]")
              "validation_failed: LLM returned no result") /\
  (candidate_terminus Scenario.empty_world !! "gdp"
     = Some (mkCandidateRow Scenario.gdp_text (Some "[]")
               "validation_failed: LLM returned no result")
   \/ ("gdp" = lower (strip "gdp") /\
       workflow_status "validation_failed: LLM returned no result" = true)).
Proof.
  assert (Hrow :
    candidate_terminus
      (snd (_fetch_validate_and_store_definition "gdp" Scenario.env_validation_down
              Scenario.empty_world)) !! "gdp"
      = Some (mkCandidateRow Scenario.gdp_text (Some "[]")
                "validation_failed: LLM returned no result"))
    by (vm_compute; reflexivity).
  split; [exact Hrow|].
  exact (workflow_candidate_statuses (pystr:=ascii_str) "gdp" "gdp" _ Scenario.env_validation_down
           Scenario.empty_world Hrow).
Defined.

Lemma wikipedia_failure_recorded_witness :
  wikipedia_lookup_failed (wikipedia_lookup Scenario.env_wikipedia_empty 2 "xyzzy123")
    = true /\
  candidate_terminus
    (snd (_fetch_validate_and_store_definition "xyzzy123" Scenario.env_wikipedia_empty
            Scenario.empty_world))
    = <["xyzzy123" :=
          mkCandidateRow "Could not find a relevant Wikipedia page for 'xyzzy123'."
            (Some "[]")
            "wikipedia_failed: Could not find a relevant Wikipedia page for 'xyzzy123'."]>
        ∅.
Proof.
  split; [reflexivity|].
  destruct (wikipedia_failure_recorded (pystr:=ascii_str) "xyzzy123" Scenario.env_wikipedia_empty
              Scenario.empty_world) as (Hrow & _);
    [intros n; reflexivity | reflexivity | reflexivity | reflexivity | reflexivity
    | exact Hrow].
Defined.

Lemma invalid_verdict_recorded_witness :
  is_valid Scenario.verdict_invalid = false /\
  candidate_terminus
    (snd (_fetch_validate_and_store_definition " GDP " Scenario.env_verdict_invalid
            Scenario.empty_world))
    = <["gdp" := mkCandidateRow Scenario.gdp_text (Some "[]")
                   "rejected_llm: This is about geography, not finance."]> ∅.
Proof.
  split; [reflexivity|].
  destruct (invalid_verdict_recorded (pystr:=ascii_str) " GDP " Scenario.gdp_text Scenario.verdict_invalid
              Scenario.env_verdict_invalid Scenario.empty_world) as (Hrow & _);
    [intros n; reflexivity | reflexivity | reflexivity | reflexivity | reflexivity
    | vm_compute; reflexivity | reflexivity | reflexivity | exact Hrow].
Defined.

Lemma blank_term_persists_nothing_witness :
  strip "   " = EmptyString /\
  candidate_terminus
    (snd (_fetch_validate_and_store_definition "   " Scenario.env_four_follow_ups
            Scenario.w_candidate))
    = candidate_terminus Scenario.w_candidate.
Proof.
  split; [reflexivity|].
  destruct (blank_term_persists_nothing (pystr:=ascii_str) "   " Scenario.env_four_follow_ups
              Scenario.w_candidate eq_refl) as (_ & _ & Hc & _).
  exact Hc.
Defined.

Lemma resolved_definition_is_served_witness :
  fst (get_definition "GDP" [] Scenario.env_four_follow_ups
         (snd (_fetch_validate_and_store_definition "GDP" Scenario.env_four_follow_ups
                 Scenario.empty_world)))
    = Ok (mkterminusAnswer "gdp" Scenario.gdp_text Scenario.four_follow_ups, []).
Proof.
  apply (resolved_definition_is_served (pystr:=ascii_str) "GDP" Scenario.gdp_text Scenario.verdict_valid []
           Scenario.env_four_follow_ups Scenario.empty_world);
    [intros n; reflexivity | reflexivity | reflexivity | reflexivity | reflexivity
    | vm_compute; reflexivity | reflexivity | reflexivity].
Defined.

Lemma validate_terms_calls_witness :
  trace (snd (TermExtractionService.validate_terms "some text" Scenario.env_extraction
                Scenario.empty_world))
    = [LLMCall Extraction "some text"; LLMCall Critique "gdp"; LLMCall Critique "cat";
       LLMCall Critique "gdp"; LLMCall Critique "bond"; LLMCall Critique "swap"].
Proof.
  destruct (validate_terms_calls "some text" Scenario.env_extraction Scenario.empty_world
              (mkExtractedTerms
                 (map mkExtractedTerm ["gdp"; "cat"; "gdp"; "bond"; "swap"]))
              eq_refl) as (Htrace & _).
  exact Htrace.
Defined.

Lemma create_candidate_returns_stored_candidate_witness :
  fst (create_candidate (mkterminusEntryCreate "GDP" Scenario.gdp_text)
         Scenario.env_precompute Scenario.empty_world)
    = Ok (Some (mkCandidateterminusAnswer "gdp" Scenario.gdp_text
                  [mkFollowUp "market" "What is market?" Scenario.gdp_text;
                   mkFollowUp "gdp" "What is gdp?" Scenario.gdp_text]
                  "pending")) /\
  exists d fus,
    candidate_terminus
      (snd (create_candidate (mkterminusEntryCreate "GDP" Scenario.gdp_text)
              Scenario.env_precompute Scenario.empty_world)) !! "gdp"
      = Some (mkCandidateRow d (Some (json_dumps fus)) "pending") /\
    length fus <= 3.
Proof.
  assert (Hrun :
    fst (create_candidate (mkterminusEntryCreate "GDP" Scenario.gdp_text)
           Scenario.env_precompute Scenario.empty_world)
      = Ok (Some (mkCandidateterminusAnswer "gdp" Scenario.gdp_text
                    [mkFollowUp "market" "What is market?" Scenario.gdp_text;
                     mkFollowUp "gdp" "What is gdp?" Scenario.gdp_text]
                    "pending")))
    by (vm_compute; reflexivity).
  split; [exact Hrun|].
  destruct (create_candidate_returns_stored_candidate (pystr:=ascii_str) _ _ _ _ Hrun)
    as (d & fus & _ & Hrow & Hlen & _).
  exists d, fus. split; [exact Hrow | exact Hlen].
Defined.

Lemma precompute_reports_pending_candidates_witness :
  fst (precompute_terms "report" Scenario.env_precompute Scenario.empty_world)
    = Ok ["gdp"] /\
  exists row,
    candidate_terminus
      (snd (precompute_terms "report" Scenario.env_precompute Scenario.empty_world))
      !! "gdp" = Some row /\
    cr_status row = "pending".
Proof.
  assert (Hrun :
    fst (precompute_terms "report" Scenario.env_precompute Scenario.empty_world)
      = Ok ["gdp"]) by (vm_compute; reflexivity).
  split; [exact Hrun|].
  exact (precompute_reports_pending_candidates (pystr:=ascii_str) "report" "gdp" ["gdp"]
           Scenario.env_precompute Scenario.empty_world Hrun (or_introl eq_refl)).
Defined.

(** ** The choices of the Wikipedia service *)

Section WikipediaChoices.
Context {pystr : PyStr}.
Variable topic_pattern_search : string -> bool.

Lemma first_topic_result_filter (l : list string) :
  WikipediaSelection.first_topic_result topic_pattern_search l
    = head (List.filter topic_pattern_search l).
Proof.
  induction l as [|r l IH]; simpl; [reflexivity|].
  destruct (topic_pattern_search r); [reflexivity | exact IH].
Qed.

(** [_handle_disambiguation] looks up one of the given options, and none
    exactly when there is no option.  The option it looks up is the first
    one in the list that matches the topic pattern -- every option before
    it does not match -- or, when no option matches, the first option. *)
Theorem disambiguation_title_choice (options : list string) :
  (WikipediaSelection.disambiguation_title topic_pattern_search options = None
   <-> options = []) /\
  (forall t,
     WikipediaSelection.disambiguation_title topic_pattern_search options = Some t ->
     (exists before after,
        options = before ++ t :: after /\
        topic_pattern_search t = true /\
        forall o, In o before -> topic_pattern_search o = false)
     \/ ((forall o, In o options -> topic_pattern_search o = false) /\
         head options = Some t)) /\
  WikipediaSelection.disambiguation_title topic_pattern_search options
    = match List.find topic_pattern_search options with
      | Some t => Some t
      | None => head options
      end.
Proof.
  unfold WikipediaSelection.disambiguation_title. cbv zeta.
  assert (Hfirst : forall t fs,
            List.filter topic_pattern_search options = t :: fs ->
            exists before after,
              options = before ++ t :: after /\
              topic_pattern_search t = true /\
              forall o, In o before -> topic_pattern_search o = false).
  { induction options as [|o os IH]; intros t fs; [discriminate|].
    cbn [List.filter]. destruct (topic_pattern_search o) eqn:Ho.
    - intros [= <- _]. exists [], os. split; [reflexivity|]. split; [exact Ho|].
      intros x [].
    - intros Hf. destruct (IH t fs Hf) as (before & after & -> & Ht & Hbefore).
      exists (o :: before), after. split; [reflexivity|]. split; [exact Ht|].
      intros x [<-|Hx]; [exact Ho | now apply Hbefore]. }
  assert (Hfind : List.find topic_pattern_search options
                  = head (List.filter topic_pattern_search options)).
  { clear Hfirst. induction options as [|o os IH]; [reflexivity|].
    cbn [List.find List.filter]. destruct (topic_pattern_search o); [reflexivity|].
    exact IH. }
  rewrite Hfind.
  destruct (List.filter topic_pattern_search options) as [|f fs] eqn:Hf.
  - split; [|split].
    + destruct options; [tauto | split; discriminate].
    + intros t Ht. right. split.
      * intros o Ho. destruct (topic_pattern_search o) eqn:Hm; [|reflexivity].
        assert (Hin : In o (List.filter topic_pattern_search options))
          by (apply filter_In; now split).
        rewrite Hf in Hin. destruct Hin.
      * destruct options; [discriminate | exact Ht].
    + now destruct options.
  - split; [|split].
    + split; [discriminate|]. intros ->. discriminate.
    + intros t [= <-]. left. exact (Hfirst f fs eq_refl).
    + reflexivity.
Qed.

(** Strategy 2 of [query] does not depend on the search term: the test of
    the top result against the term selects the top result on both of its
    branches.  The candidate is the first search result that matches the
    topic pattern, or else the top result, and it is one of the results. *)
Theorem preferred_candidate_choice (term : string) (search_results : list string) :
  WikipediaSelection.preferred_candidate topic_pattern_search term search_results
    = match search_results with
      | [] => None
      | top :: _ =>
          match head (List.filter topic_pattern_search search_results) with
          | Some p => if falsy p then Some top else Some p
          | None => Some top
          end
      end /\
  (forall c,
     WikipediaSelection.preferred_candidate topic_pattern_search term search_results
       = Some c ->
     In c search_results).
Proof.
  assert (Heq :
    WikipediaSelection.preferred_candidate topic_pattern_search term search_results
    = match search_results with
      | [] => None
      | top :: _ =>
          match head (List.filter topic_pattern_search search_results) with
          | Some p => if falsy p then Some top else Some p
          | None => Some top
          end
      end).
  { unfold WikipediaSelection.preferred_candidate.
    destruct search_results as [|top rest]; [reflexivity|]. cbv zeta.
    rewrite first_topic_result_filter.
    destruct (head (List.filter topic_pattern_search (top :: rest))) as [p|].
    - destruct (falsy p); [|reflexivity].
      now destruct (String.eqb (lower top) (lower term)
                    || startswith (lower top) (lower term +:+ " (")).
    - now destruct (String.eqb (lower top) (lower term)
                    || startswith (lower top) (lower term +:+ " (")). }
  split; [exact Heq|].
  rewrite Heq. destruct search_results as [|top rest]; [discriminate|].
  destruct (head (List.filter topic_pattern_search (top :: rest))) as [p|] eqn:Hp.
  - assert (Hin : In p (top :: rest)).
    { destruct (List.filter topic_pattern_search (top :: rest)) as [|f fs] eqn:Hf;
        [discriminate|].
      injection Hp as ->.
      assert (H : In p (List.filter topic_pattern_search (top :: rest)))
        by (rewrite Hf; now left).
      now apply filter_In in H as [H _]. }
    destruct (falsy p); intros c [= <-]; [now left | exact Hin].
  - intros c [= <-]. now left.
Qed.

End WikipediaChoices.

Lemma official_save_failure_falls_back_witness :
  db_fault (Scenario.env_official_save_fails true) 5 = true /\
  needs_rollback (Scenario.env_official_save_fails true) 5 = true /\
  candidate_terminus
    (snd (_fetch_validate_and_store_definition " GDP "
            (Scenario.env_official_save_fails true) Scenario.empty_world)) = ∅ /\
  terminus
    (snd (_fetch_validate_and_store_definition " GDP "
            (Scenario.env_official_save_fails true) Scenario.empty_world)) = ∅ /\
  needs_rollback (Scenario.env_official_save_fails false) 5 = false /\
  candidate_terminus
    (snd (_fetch_validate_and_store_definition " GDP "
            (Scenario.env_official_save_fails false) Scenario.empty_world))
    = <["gdp" := mkCandidateRow Scenario.gdp_text
                   (Some (MiniJson.dumps Scenario.four_follow_ups))
                   "save_to_official_error: database error"]> ∅.
Proof.
  split; [reflexivity|]. split; [reflexivity|].
  destruct (official_save_failure_falls_back (pystr:=ascii_str) " GDP "
              Scenario.gdp_text Scenario.verdict_valid
              (Scenario.env_official_save_fails true) Scenario.empty_world)
    as (_ & Hofficial & Hrefused & _);
    [reflexivity | reflexivity | reflexivity | reflexivity | reflexivity | reflexivity
    | reflexivity | vm_compute; reflexivity | reflexivity | reflexivity |].
  destruct (official_save_failure_falls_back (pystr:=ascii_str) " GDP "
              Scenario.gdp_text Scenario.verdict_valid
              (Scenario.env_official_save_fails false) Scenario.empty_world)
    as (_ & _ & Hfallback & _);
    [reflexivity | reflexivity | reflexivity | reflexivity | reflexivity | reflexivity
    | reflexivity | vm_compute; reflexivity | reflexivity | reflexivity |].
  split; [exact Hrefused|]. split; [exact Hofficial|].
  split; [reflexivity | exact Hfallback].
Defined.
